(** * Movie-plot retrieval core: chunker, data loader, vector store, orchestrator

    A shallow embedding of the Python sources

      - [src/config.py]        (the [Config] dataclass),
      - [src/data_loader.py]   ([DataLoader.load_and_preprocess]),
      - [src/chunker.py]       ([SmartChunker]),
      - [src/vector_store.py]  ([VectorStore]),
      - [src/rag_system.py]    ([MovieRAGSystem.initialize], [MovieRAGSystem.query]),

    followed by the properties of the retrieval core.

    Conventions.  Python [int] is [Z]; [str] is [string], a character being
    a code point below 256; a Python list is a [list]; a function that can
    raise returns an [option] ([None] is the raised exception); [self] is
    passed and returned explicitly.  The
    external collaborators (the sentence embedder, the nearest-neighbour
    backend, the language model, float comparison) are the fields of the
    class [Collaborators]. *)

From Stdlib Require Import ZArith List Bool Lia Arith.
From Stdlib Require Import Strings.String Strings.Ascii Numbers.DecimalString.
From Stdlib Require Numbers.DecimalZ.
Import ListNotations.

Local Open Scope string_scope.
Local Open Scope list_scope.
Local Open Scope Z_scope.

(** ** The Python primitives the sources use *)

Module Py.

(** The error monad: [None] stands for a raised exception. *)
Definition bind {A B : Type} (m : option A) (k : A -> option B) : option B :=
  match m with
  | Some a => k a
  | None => None
  end.

Definition len {A : Type} (l : list A) : Z := Z.of_nat (List.length l).

(** A slice bound: a negative bound counts from the end, and every bound is
    clamped to the list. *)
Definition clamp (n i : Z) : Z :=
  if i <? 0 then Z.max 0 (i + n) else Z.min i n.

(** [l[a:b]] *)
Definition slice {A : Type} (l : list A) (a b : Z) : list A :=
  let lo := clamp (len l) a in
  let hi := clamp (len l) b in
  firstn (Z.to_nat (hi - lo)) (skipn (Z.to_nat lo) l).

(** [l[a:]] *)
Definition slice_from {A : Type} (l : list A) (a : Z) : list A :=
  skipn (Z.to_nat (clamp (len l) a)) l.

(** [l[:b]] *)
Definition slice_to {A : Type} (l : list A) (b : Z) : list A :=
  firstn (Z.to_nat (clamp (len l) b)) l.

(** [l[i]]: a negative index counts from the end; out of range raises
    [IndexError]. *)
Definition get {A : Type} (l : list A) (i : Z) : option A :=
  if i <? 0
  then (if i + len l <? 0 then None else nth_error l (Z.to_nat (i + len l)))
  else nth_error l (Z.to_nat i).

(** [range(start, stop, step)]; a zero step raises [ValueError]. *)
Definition range (start stop step : Z) : option (list Z) :=
  if step =? 0 then None
  else
    let count :=
      if 0 <? step
      then (stop - start + step - 1) / step
      else (start - stop - step - 1) / (- step) in
    Some (map (fun k => start + Z.of_nat k * step) (seq 0 (Z.to_nat count))).

(** [a // b]; division by zero raises [ZeroDivisionError].  [Z.div] rounds
    towards minus infinity, as Python does. *)
Definition floordiv (a b : Z) : option Z :=
  if b =? 0 then None else Some (a / b).

(** [str(n)] and [f"{n}"] for an [int]. *)
Definition str_of_int (n : Z) : string :=
  NilZero.string_of_int (Z.to_int n).

(** [str.isspace] on the code points below 256, the whitespace at which
    [str.split()] and [str.strip()] cut: tab, line feed, vertical tab, form
    feed, carriage return (9-13), the four separators 0x1c-0x1f, the space,
    the next-line control U+0085 and the no-break space U+00A0. *)
Definition is_space (c : ascii) : bool :=
  let n := nat_of_ascii c in
  ((9 <=? n) && (n <=? 13) || (28 <=? n) && (n <=? 32)
   || (n =? 133) || (n =? 160))%nat.

Definition nonempty (s : string) : bool :=
  match s with
  | EmptyString => false
  | String _ _ => true
  end.

(** Puts a character in front of the first field of a list of fields. *)
Definition cons_head (c : ascii) (fs : list string) : list string :=
  match fs with
  | [] => [String c EmptyString]
  | f :: fs' => String c f :: fs'
  end.

(** The fields of [s] between single separator characters (so adjacent
    separators give empty fields). *)
Fixpoint fields (sep : ascii -> bool) (s : string) : list string :=
  match s with
  | EmptyString => [EmptyString]
  | String c r =>
      if sep c then EmptyString :: fields sep r
      else cons_head c (fields sep r)
  end.

(** [s.split()]: the maximal runs of non-whitespace characters. *)
Definition split (s : string) : list string :=
  filter nonempty (fields is_space s).

(** [sep.join(l)] *)
Fixpoint join (sep : string) (l : list string) : string :=
  match l with
  | [] => EmptyString
  | [x] => x
  | x :: rest => (x ++ sep ++ join sep rest)%string
  end.

Fixpoint lstrip (s : string) : string :=
  match s with
  | EmptyString => EmptyString
  | String c r => if is_space c then lstrip r else s
  end.

Fixpoint rstrip (s : string) : string :=
  match s with
  | EmptyString => EmptyString
  | String c r =>
      match rstrip r with
      | EmptyString => if is_space c then EmptyString else String c EmptyString
      | r' => String c r'
      end
  end.

(** [s.strip()] *)
Definition strip (s : string) : string := rstrip (lstrip s).

(** [re.split(pattern, s)] for a pattern [[...]+] over the character class
    [cls]: a maximal run of class characters is one separator; [in_run]
    says that the previous character belonged to a separator. *)
Fixpoint re_split_run (cls : ascii -> bool) (in_run : bool) (s : string)
  : list string :=
  match s with
  | EmptyString => [EmptyString]
  | String c r =>
      if cls c then
        if in_run then re_split_run cls true r
        else EmptyString :: re_split_run cls true r
      else cons_head c (re_split_run cls false r)
  end.

Definition re_split_class_plus (cls : ascii -> bool) (s : string) : list string :=
  re_split_run cls false s.

(** [sum(...)] over ints. *)
Definition sum (l : list Z) : Z := fold_left Z.add l 0.

End Py.

Notation "x <- m ;; k" := (Py.bind m (fun x => k))
  (at level 61, m at next level, right associativity).

(** ** Records shared by the components *)

(** A raw record of the corpus file.  Every key is optional in the JSON. *)
Record Movie := {
  m_title : option string;
  m_year : option string;
  m_genres : option (list string);
  m_extract : option string
}.

(** The ['metadata'] dict of a document, shared by its chunks. *)
Record Metadata := {
  md_year : string;
  md_genres : list string;
  md_title : string
}.

Record Document := {
  doc_title : string;
  doc_year : string;
  doc_content : string;
  doc_genres : list string;
  doc_metadata : Metadata
}.

Record Chunk := {
  content : string;
  metadata : Metadata;
  chunk_id : string
}.

(** The response dict of [MovieRAGSystem.query]. *)
Record Response := {
  answer : string;
  contexts : list string;
  reasoning : string
}.

(** What is found at the path of the corpus file. *)
Inductive DataFile :=
| NoDataFile
| MalformedJson
| JsonArray (movies : list Movie).

(** What is found at the path of a persisted artifact: no file; a file
    that cannot be deserialized; a file that holds [a]; or a file that
    deserializes but lacks a part the loader asks for, [a] holding what is
    there.  For [metadata.pkl], [Partial data] is a dict with the key
    ['chunks'], bound to [pkl_chunks data], and without the key
    ['metadata'] (the other field of [data] stands for nothing); a dict
    without ['chunks'] behaves as [Unreadable], the [KeyError] coming before
    any assignment from the pickle.  [read_index] refuses a [Partial]
    [index.faiss]. *)
Inductive Artifact (A : Type) :=
| Missing
| Unreadable
| Stored (a : A)
| Partial (a : A).
Arguments Missing {A}.
Arguments Unreadable {A}.
Arguments Stored {A} a.
Arguments Partial {A} a.

(** The dict pickled into [metadata.pkl]. *)
Record Pickle := {
  pkl_chunks : list Chunk;
  pkl_metadata : list Metadata
}.

(** [faiss.IndexFlatIP]: the dimension and the stored rows. *)
Record IndexFlatIP (F : Type) := {
  ix_d : Z;
  ix_rows : list (list F)
}.
Arguments ix_d {F} _.
Arguments ix_rows {F} _.

Definition ntotal {F : Type} (ix : IndexFlatIP F) : Z := Py.len (ix_rows ix).

(** ** External collaborators

    [Score] stands for the float values; nothing below computes with them,
    they are only compared with [score_ge] ([a >= b]). *)
Class Collaborators := {
  Score : Type;
  score_ge : Score -> Score -> bool;
  (** the default [SIMILARITY_THRESHOLD], the float [0.3] *)
  float_0_3 : Score;
  (** [SentenceTransformer.encode]: one row per text *)
  encode : list string -> list (list Score);
  (** [faiss.normalize_L2] on one row *)
  normalize_L2 : list Score -> list Score;
  (** [index.search(x, k)] for a single query row: the [k] pairs of score
      and label, best first; [None] when the backend refuses [k] *)
  index_search : IndexFlatIP Score -> list Score -> Z -> option (list (Score * Z));
  (** [llm.generate_content(prompt).text.strip()]; [None] when the call
      raises *)
  llm_generate : string -> option string;
  (** [MovieRAGSystem._generate_fallback_answer], the keyword templates *)
  generate_fallback_answer : string -> list (Chunk * Score) -> string
}.

(** ** src/config.py *)

Module Config.
Section Config.
Context `{Collab : Collaborators}.

Record t := {
  DATA_PATH : string;
  MAX_DOCUMENTS : Z;
  VECTOR_DB_PATH : string;
  CHUNK_SIZE : Z;
  CHUNK_OVERLAP : Z;
  SMART_CHUNKING : bool;
  TOP_K : Z;
  SIMILARITY_THRESHOLD : Score;
  EMBEDDING_MODEL : string;
  GEMINI_MODEL : string
}.

(** The defaults of the dataclass. *)
Definition default : t := {|
  DATA_PATH := "data/sample_movies.json";
  MAX_DOCUMENTS := 400;
  VECTOR_DB_PATH := "data/vector_store";
  CHUNK_SIZE := 300;
  CHUNK_OVERLAP := 50;
  SMART_CHUNKING := true;
  TOP_K := 3;
  SIMILARITY_THRESHOLD := float_0_3;
  EMBEDDING_MODEL := "sentence-transformers/all-MiniLM-L6-v2";
  GEMINI_MODEL := "gemini-2.0-flash-exp"
|}.

End Config.
End Config.

(** The files the program reads and writes: the corpus at [DATA_PATH] and
    the two artifacts under [VECTOR_DB_PATH]. *)
Record FileSystem `{Collab : Collaborators} := {
  data_file : DataFile;
  index_faiss : Artifact (IndexFlatIP Score);
  metadata_pkl : Artifact Pickle
}.

(** ** src/data_loader.py *)

Module DataLoader.
Section DataLoader.
Context `{Collab : Collaborators}.
Variable config : Config.t.

Definition get_or {A : Type} (o : option A) (default : A) : A :=
  match o with
  | Some a => a
  | None => default
  end.

(** ['extract' in movie and movie['extract']] *)
Definition has_extract (movie : Movie) : bool :=
  match m_extract movie with
  | Some e => Py.nonempty e
  | None => false
  end.

(** The body of the [if] of the loop: the record built for one movie. *)
Definition preprocess (movie : Movie) : Document :=
  let year := get_or (m_year movie) "Unknown" in
  let genres := get_or (m_genres movie) [] in
  let title := get_or (m_title movie) "Unknown" in
  let content := ("Movie: " ++ title ++ ". Year: " ++ year ++ ". ")%string in
  let content :=
    match genres with
    | [] => content
    | _ :: _ => (content ++ "Genres: " ++ Py.join ", " genres ++ ". ")%string
    end in
  let content := (content ++ "Plot: " ++ get_or (m_extract movie) EmptyString)%string in
  {| doc_title := title;
     doc_year := year;
     doc_content := content;
     doc_genres := genres;
     doc_metadata := {| md_year := year; md_genres := genres; md_title := title |} |}.

(** The [for movie in movies] loop, [processed_movies] being the
    accumulator. *)
Fixpoint preprocess_loop (movies : list Movie) (processed_movies : list Document)
  : list Document :=
  match movies with
  | [] => processed_movies
  | movie :: rest =>
      if has_extract movie
      then preprocess_loop rest (processed_movies ++ [preprocess movie])
      else preprocess_loop rest processed_movies
  end.

(** A missing file is caught and gives no documents; a file that is not
    JSON raises out of [json.load]. *)
Definition load_and_preprocess (file : DataFile) : option (list Document) :=
  match file with
  | NoDataFile => Some []
  | MalformedJson => None
  | JsonArray movies =>
      let movies := Py.slice_to movies (Config.MAX_DOCUMENTS config) in
      Some (preprocess_loop movies [])
  end.

End DataLoader.
End DataLoader.

(** ** src/chunker.py *)

Module SmartChunker.
Section SmartChunker.
Context `{Collab : Collaborators}.
Variable config : Config.t.

Definition title_of (document : Document) : string :=
  md_title (doc_metadata document).

(** [f"{document['metadata']['title']}_{n}"] *)
Definition make_id (document : Document) (n : Z) : string :=
  (title_of document ++ "_" ++ Py.str_of_int n)%string.

Definition make_chunk (document : Document) (text : string) (n : Z) : Chunk :=
  {| content := text;
     metadata := doc_metadata document;
     chunk_id := make_id document n |}.

(** The body of [for i in range(...)] of [_fixed_size_chunking], with its
    [break]; [starts] is what is left of the range. *)
Fixpoint fixed_size_loop (words : list string) (document : Document)
    (starts : list Z) (chunks : list Chunk) : option (list Chunk) :=
  match starts with
  | [] => Some chunks
  | i :: rest =>
      let chunk_words := Py.slice words i (i + Config.CHUNK_SIZE config) in
      let chunk_text := Py.join " " chunk_words in
      n <- Py.floordiv i (Config.CHUNK_SIZE config) ;;
      let chunks := chunks ++ [make_chunk document chunk_text n] in
      if i + Config.CHUNK_SIZE config >=? Py.len words
      then Some chunks
      else fixed_size_loop words document rest chunks
  end.

Definition _fixed_size_chunking (content : string) (document : Document)
  : option (list Chunk) :=
  let words := Py.split content in
  starts <- Py.range 0 (Py.len words)
              (Config.CHUNK_SIZE config - Config.CHUNK_OVERLAP config) ;;
  fixed_size_loop words document starts [].

(** The character class of [r'[.!?]+']. *)
Definition is_terminal (c : ascii) : bool :=
  (Ascii.eqb c "." || Ascii.eqb c "!" || Ascii.eqb c "?")%bool.

(** [re.split(r'[.!?]+', content)] followed by
    [[s.strip() for s in sentences if s.strip()]]. *)
Definition split_sentences (content : string) : list string :=
  map Py.strip
    (filter (fun s => Py.nonempty (Py.strip s))
       (Py.re_split_class_plus is_terminal content)).

Definition word_count (s : string) : Z := Py.len (Py.split s).

(** [current_chunk[-2:] if len(current_chunk) >= 2 else current_chunk[-1:]] *)
Definition overlap_of (current_chunk : list string) : list string :=
  if Py.len current_chunk >=? 2
  then Py.slice_from current_chunk (-2)
  else Py.slice_from current_chunk (-1).

(** [current_length + sentence_length > CHUNK_SIZE and current_length > 0] *)
Definition must_close (current_length sentence_length : Z) : bool :=
  (current_length + sentence_length >? Config.CHUNK_SIZE config)
  && (current_length >? 0).

(** The [for sentence in sentences] loop of [_semantic_chunking] and the
    final flush after it. *)
Fixpoint semantic_loop (document : Document) (sentences : list string)
    (chunks : list Chunk) (current_chunk : list string) (current_length : Z)
  : list Chunk :=
  match sentences with
  | [] =>
      match current_chunk with
      | [] => chunks
      | _ :: _ =>
          chunks ++ [make_chunk document (Py.join " " current_chunk) (Py.len chunks)]
      end
  | sentence :: rest =>
      let sentence_length := word_count sentence in
      if must_close current_length sentence_length then
        let chunks :=
          chunks ++ [make_chunk document (Py.join " " current_chunk) (Py.len chunks)] in
        let overlap_sentences := overlap_of current_chunk in
        let current_length := Py.sum (map word_count overlap_sentences) in
        semantic_loop document rest chunks
          (overlap_sentences ++ [sentence]) (current_length + sentence_length)
      else
        semantic_loop document rest chunks
          (current_chunk ++ [sentence]) (current_length + sentence_length)
  end.

Definition _semantic_chunking (content : string) (document : Document)
  : list Chunk :=
  semantic_loop document (split_sentences content) [] [] 0.

(** The same loop, recording for every emitted chunk the list
    [current_chunk] that was joined into its text. *)
Fixpoint sentence_groups_loop (sentences : list string)
    (groups : list (list string)) (current_chunk : list string)
    (current_length : Z) : list (list string) :=
  match sentences with
  | [] =>
      match current_chunk with
      | [] => groups
      | _ :: _ => groups ++ [current_chunk]
      end
  | sentence :: rest =>
      let sentence_length := word_count sentence in
      if must_close current_length sentence_length then
        let overlap_sentences := overlap_of current_chunk in
        let current_length := Py.sum (map word_count overlap_sentences) in
        sentence_groups_loop rest (groups ++ [current_chunk])
          (overlap_sentences ++ [sentence]) (current_length + sentence_length)
      else
        sentence_groups_loop rest groups
          (current_chunk ++ [sentence]) (current_length + sentence_length)
  end.

Definition sentence_groups (content : string) : list (list string) :=
  sentence_groups_loop (split_sentences content) [] [] 0.

Definition _chunk_document (document : Document) : option (list Chunk) :=
  let content := doc_content document in
  let words := Py.split content in
  if Py.len words <=? Config.CHUNK_SIZE config then
    Some [make_chunk document content 0]
  else if Config.SMART_CHUNKING config then
    Some (_semantic_chunking content document)
  else
    _fixed_size_chunking content document.

(** [chunk_documents]: the chunks of the documents, in order. *)
Fixpoint chunk_documents_loop (documents : list Document) (chunks : list Chunk)
  : option (list Chunk) :=
  match documents with
  | [] => Some chunks
  | doc :: rest =>
      doc_chunks <- _chunk_document doc ;;
      chunk_documents_loop rest (chunks ++ doc_chunks)
  end.

Definition chunk_documents (documents : list Document) : option (list Chunk) :=
  chunk_documents_loop documents [].

End SmartChunker.
End SmartChunker.

(** ** src/vector_store.py *)

Module VectorStore.
Section VectorStore.
Context `{Collab : Collaborators}.
Variable config : Config.t.

(** The mutable attributes of a [VectorStore]. *)
Record t := {
  index : option (IndexFlatIP Score);
  chunks : list Chunk;
  chunk_metadata : list Metadata
}.

(** [__init__] *)
Definition init : t :=
  {| index := None; chunks := []; chunk_metadata := [] |}.

(** [embeddings.shape[1]]: the array of an empty batch has one axis only,
    and asking for the second raises [IndexError]. *)
Definition shape_1 (embeddings : list (list Score)) : option Z :=
  match embeddings with
  | [] => None
  | row :: _ => Some (Py.len row)
  end.

(** [_save_index]: both artifacts are overwritten. *)
Definition _save_index (fs : FileSystem) (self : t) : option FileSystem :=
  ix <- index self ;;
  Some {| data_file := data_file fs;
          index_faiss := Stored ix;
          metadata_pkl := Stored {| pkl_chunks := chunks self;
                                    pkl_metadata := chunk_metadata self |} |}.

Definition build_index (fs : FileSystem) (self : t) (new_chunks : list Chunk)
  : option (FileSystem * t) :=
  let self := {| index := index self;
                 chunks := new_chunks;
                 chunk_metadata := map metadata new_chunks |} in
  let texts := map content new_chunks in
  let embeddings := encode texts in
  dimension <- shape_1 embeddings ;;
  let embeddings := map normalize_L2 embeddings in
  let self := {| index := Some {| ix_d := dimension; ix_rows := embeddings |};
                 chunks := chunks self;
                 chunk_metadata := chunk_metadata self |} in
  fs <- _save_index fs self ;;
  Some (fs, self).

(** [os.path.exists] *)
Definition exists_ {A : Type} (a : Artifact A) : bool :=
  match a with
  | Missing => false
  | _ => true
  end.

(** [load_index]: the assignments happen in the order of the source, so an
    exception in the middle of the [try] leaves the earlier ones in place. *)
Definition load_index (fs : FileSystem) (self : t) : bool * t :=
  if exists_ (index_faiss fs) && exists_ (metadata_pkl fs) then
    match index_faiss fs with
    | Stored ix =>
        let self := {| index := Some ix;
                       chunks := chunks self;
                       chunk_metadata := chunk_metadata self |} in
        match metadata_pkl fs with
        | Stored data =>
            let self := {| index := index self;
                           chunks := pkl_chunks data;
                           chunk_metadata := chunk_metadata self |} in
            let self := {| index := index self;
                           chunks := chunks self;
                           chunk_metadata := pkl_metadata data |} in
            (true, self)
        | Partial data =>
            let self := {| index := index self;
                           chunks := pkl_chunks data;
                           chunk_metadata := chunk_metadata self |} in
            (false, self)
        | _ => (false, self)
        end
    | _ => (false, self)
    end
  else (false, self).

Definition Result : Type := Chunk * Score.

(** The first loop of [search]: keep what reaches the threshold, stop at
    [top_k] results. *)
Fixpoint threshold_loop (self : t) (top_k : Z) (candidates : list (Score * Z))
    (results : list Result) : option (list Result) :=
  match candidates with
  | [] => Some results
  | (score, idx) :: rest =>
      results <-
        (if (idx <? Py.len (chunks self))
            && score_ge score (Config.SIMILARITY_THRESHOLD config)
         then chunk <- Py.get (chunks self) idx ;; Some (results ++ [(chunk, score)])
         else Some results) ;;
      if Py.len results >=? top_k then Some results
      else threshold_loop self top_k rest results
  end.

(** The second loop of [search]: the candidates at positions below [top_k],
    whatever their score; [i] is the position of the head of [candidates]. *)
Fixpoint fallback_loop (self : t) (top_k : Z) (i : Z) (candidates : list (Score * Z))
    (results : list Result) : option (list Result) :=
  match candidates with
  | [] => Some results
  | (score, idx) :: rest =>
      results <-
        (if (idx <? Py.len (chunks self)) && (i <? top_k)
         then chunk <- Py.get (chunks self) idx ;; Some (results ++ [(chunk, score)])
         else Some results) ;;
      fallback_loop self top_k (i + 1) rest results
  end.

Definition is_empty {A : Type} (l : list A) : bool :=
  match l with
  | [] => true
  | _ :: _ => false
  end.

(** [search]; it assigns to no attribute of [self]. *)
Definition search_results (self : t) (query : string) (top_k : option Z)
  : option (list Result) :=
  let top_k := match top_k with
               | None => Config.TOP_K config
               | Some k => k
               end in
  match index self with
  | None => Some []
  | Some ix =>
      let query_embedding := map normalize_L2 (encode [query]) in
      let search_k := Z.min (top_k * 3) (Py.len (chunks self)) in
      candidates <- index_search ix (hd [] query_embedding) search_k ;;
      results <- threshold_loop self top_k candidates [] ;;
      if is_empty results && (Py.len candidates >? 0)
      then fallback_loop self top_k 0 candidates results
      else Some results
  end.

(** [search] in state-passing form. *)
Definition search (self : t) (query : string) (top_k : option Z)
  : option (list Result * t) :=
  results <- search_results self query top_k ;;
  Some (results, self).

End VectorStore.
End VectorStore.

(** ** src/rag_system.py *)

Module MovieRAGSystem.
Section MovieRAGSystem.
Context `{Collab : Collaborators}.
Variable config : Config.t.

(** The mutable attributes of a [MovieRAGSystem]; [llm] says whether a
    model was configured. *)
Record t := {
  vector_store : VectorStore.t;
  initialized : bool;
  llm : bool
}.

Definition failure_response : Response :=
  {| answer := "System initialization failed. Please check your data file.";
     contexts := [];
     reasoning := "Initialization error" |}.

Definition nothing_found_response : Response :=
  {| answer := "I couldn't find relevant information about this topic in the movie plots database.";
     contexts := [];
     reasoning := "No relevant movie plot information was found for the query." |}.

Definition set_store (self : t) (vs : VectorStore.t) (init : bool) : t :=
  {| vector_store := vs; initialized := init; llm := llm self |}.

Definition initialize (fs : FileSystem) (self : t)
  : option (bool * FileSystem * t) :=
  let '(loaded, vs) := VectorStore.load_index fs (vector_store self) in
  if loaded then Some (true, fs, set_store self vs true)
  else
    let self := set_store self vs (initialized self) in
    documents <- DataLoader.load_and_preprocess config (data_file fs) ;;
    match documents with
    | [] => Some (false, fs, self)
    | _ :: _ =>
        chunks <- SmartChunker.chunk_documents config documents ;;
        built <- VectorStore.build_index fs (vector_store self) chunks ;;
        let '(fs, vs) := built in
        Some (true, fs, set_store self vs true)
    end.

Definition _build_prompt (question context : string) : string :=
  ("Based on the following movie plot information, answer the question. Be specific and reference the relevant movies.

Movie Plot Context:
" ++ context ++ "

Question: " ++ question ++ "

Please provide a concise answer that directly addresses the question. If the context contains relevant information, reference specific movie titles and plot points.

Answer:")%string.

(** The loop of [_generate_reasoning]: the titles in order, each once. *)
Fixpoint top_movies_loop (retrieved : list (Chunk * Score)) (top_movies : list string)
  : list string :=
  match retrieved with
  | [] => top_movies
  | (chunk, _) :: rest =>
      let title := md_title (metadata chunk) in
      if existsb (String.eqb title) top_movies
      then top_movies_loop rest top_movies
      else top_movies_loop rest (top_movies ++ [title])
  end.

Definition _generate_reasoning (question : string) (retrieved_chunks : list (Chunk * Score))
  : string :=
  match top_movies_loop (Py.slice_to retrieved_chunks 3) [] with
  | [] => "No relevant movie plot information was found for the query."
  | top_movies =>
      Py.join " "
        [ ("The question was about '" ++ question ++ "'.")%string;
          ("I searched through movie plots and found relevant information from "
             ++ Py.str_of_int (Py.len retrieved_chunks) ++ " chunks.")%string;
          ("The most relevant movies were: " ++ Py.join ", " top_movies ++ ".")%string;
          "I used these plot details to form a comprehensive answer." ]
  end.

Definition newline2 : string :=
  String (ascii_of_nat 10) (String (ascii_of_nat 10) EmptyString).

Definition query (fs : FileSystem) (self : t) (question : string)
  : option (Response * FileSystem * t) :=
  started <-
    (if negb (initialized self) then
       r <- initialize fs self ;;
       let '(success, fs, self) := r in
       Some (success, fs, self)
     else Some (true, fs, self)) ;;
  let '(success, fs, self) := started in
  if negb success then Some (failure_response, fs, self)
  else
    found <- VectorStore.search config (vector_store self) question (Some 5) ;;
    let '(retrieved_chunks, vs) := found in
    let self := set_store self vs (initialized self) in
    match retrieved_chunks with
    | [] => Some (nothing_found_response, fs, self)
    | _ :: _ =>
        let contexts := map (fun r => content (fst r)) retrieved_chunks in
        let context_text := Py.join newline2 contexts in
        let prompt := _build_prompt question context_text in
        let answer :=
          if llm self then
            match llm_generate prompt with
            | Some text => text
            | None => generate_fallback_answer question retrieved_chunks
            end
          else generate_fallback_answer question retrieved_chunks in
        let reasoning := _generate_reasoning question retrieved_chunks in
        Some ({| answer := answer; contexts := contexts; reasoning := reasoning |},
              fs, self)
    end.

End MovieRAGSystem.
End MovieRAGSystem.

(** ** A concrete set of collaborators, for running the model

    Scores are integers (thousandths); the embedder maps a text to a row of
    two coordinates; the index ranks by exact inner product.  A search for
    [k <= 0] neighbours either yields nothing or is refused, as [refuses]
    says. *)

Module Demo.

Definition embed (text : string) : list Z :=
  [Z.of_nat (String.length text); 1000].

Definition dot (a b : list Z) : Z :=
  Py.sum (map (fun p => fst p * snd p) (combine a b)).

Fixpoint insert_desc (c : Z * Z) (l : list (Z * Z)) : list (Z * Z) :=
  match l with
  | [] => [c]
  | d :: r => if fst d <? fst c then c :: l else d :: insert_desc c r
  end.

Definition sort_desc (l : list (Z * Z)) : list (Z * Z) :=
  fold_right insert_desc [] l.

(** Exhaustive inner-product search; missing neighbours are padded with
    the label [-1]. *)
Definition flat_search (refuses : bool) (ix : IndexFlatIP Z) (q : list Z) (k : Z)
  : option (list (Z * Z)) :=
  if k <=? 0 then (if refuses then None else Some [])
  else
    let rows := ix_rows ix in
    let scored :=
      combine (map (dot q) rows) (map Z.of_nat (seq 0 (List.length rows))) in
    Some (firstn (Z.to_nat k)
            (sort_desc scored ++ repeat (-1000000, -1) (Z.to_nat k))).

Definition collaborators (refuses : bool) : Collaborators := {|
  Score := Z;
  score_ge := Z.geb;
  float_0_3 := 300;
  encode := map embed;
  normalize_L2 := fun row => row;
  index_search := flat_search refuses;
  llm_generate := fun _ => None;
  generate_fallback_answer := fun _ _ => "fallback"
|}.

(** A configuration of the demo collaborators with small chunks. *)
Definition config (refuses : bool) (size overlap : Z) (smart : bool)
    (threshold : Z) : @Config.t (collaborators refuses) :=
  @Config.Build_t (collaborators refuses)
    "data/sample_movies.json" 400 "data/vector_store"
    size overlap smart 3 threshold
    "sentence-transformers/all-MiniLM-L6-v2" "gemini-2.0-flash-exp".

Definition meta (title : string) : Metadata :=
  {| md_year := "1999"; md_genres := ["Sci-Fi"]; md_title := title |}.

Definition document (title text : string) : Document :=
  {| doc_title := title; doc_year := "1999"; doc_content := text;
     doc_genres := ["Sci-Fi"]; doc_metadata := meta title |}.

(** [n] copies of the word [w], separated by single spaces. *)
Definition repeat_word (w : string) (n : nat) : string :=
  Py.join " " (repeat w n).

Definition empty_fs (refuses : bool) : @FileSystem (collaborators refuses) :=
  @Build_FileSystem (collaborators refuses) NoDataFile Missing Missing.

Definition chunk_a : Chunk :=
  {| content := "A robot fights crime."; metadata := meta "RoboWar";
     chunk_id := "RoboWar_0" |}.

Definition chunk_b : Chunk :=
  {| content := "A dreamer wakes up in a simulation."; metadata := meta "Dreams";
     chunk_id := "Dreams_0" |}.

(** An index over the embeddings of two texts. *)
Definition index_ab : IndexFlatIP Z :=
  {| ix_d := 2; ix_rows := [embed (content chunk_a); embed (content chunk_b)] |}.

(** A store that holds [chunk_a] and [chunk_b]. *)
Definition store_ab (refuses : bool) : @VectorStore.t (collaborators refuses) :=
  @VectorStore.Build_t (collaborators refuses) (Some index_ab)
    [chunk_a; chunk_b] [meta "RoboWar"; meta "Dreams"].

End Demo.

(** ** Vocabulary of the properties *)

Module Spec.
Section Spec.
Context `{Collab : Collaborators}.
Variable config : Config.t.

(** A string without whitespace, and a word: a non-empty one. *)
Definition no_space (s : string) : Prop :=
  forall c, In c (list_ascii_of_string s) -> Py.is_space c = false.

Definition is_word (s : string) : Prop := s <> EmptyString /\ no_space s.

(** The chunk the fixed-size loop appends for the window that starts at
    the word [i]. *)
Definition window_chunk (document : Document) (words : list string) (i : Z)
  : Chunk :=
  SmartChunker.make_chunk document
    (Py.join " " (Py.slice words i (i + Config.CHUNK_SIZE config)))
    (i / Config.CHUNK_SIZE config).

(** The starts [a*stride, (a+1)*stride, ...] of the range of the loop. *)
Definition starts_from (a cnt : nat) : list Z :=
  map (fun k => Z.of_nat k * (Config.CHUNK_SIZE config - Config.CHUNK_OVERLAP config))
    (seq a cnt).

(** The chunks of the sentence-aware strategy for a list of sentence
    groups, numbered from [start]. *)
Fixpoint number_from (document : Document) (start : nat)
    (groups : list (list string)) : list Chunk :=
  match groups with
  | [] => []
  | g :: rest =>
      SmartChunker.make_chunk document (Py.join " " g) (Z.of_nat start)
      :: number_from document (S start) rest
  end.

(** How many sentences a chunk hands over to its successor: its last two,
    or its only one. *)
Definition carried (prev : list string) : nat := Nat.min 2 (List.length prev).

(** The sentences of the groups with the handed-over ones removed: every
    group loses as many leading sentences as its predecessor [prev] handed
    over. *)
Fixpoint drop_carried (prev : list string) (groups : list (list string))
  : list string :=
  match groups with
  | [] => []
  | g :: rest => skipn (carried prev) g ++ drop_carried g rest
  end.

Definition unique_sentences (groups : list (list string)) : list string :=
  drop_carried [] groups.

(** Every group starts with the sentences its predecessor handed over. *)
Fixpoint starts_with_carried (prev : list string) (groups : list (list string))
  : Prop :=
  match groups with
  | [] => True
  | g :: rest =>
      firstn (carried prev) g = skipn (List.length prev - carried prev) prev
      /\ starts_with_carried g rest
  end.

(** A candidate of the backend whose score misses the threshold. *)
Definition below_threshold (c : Score * Z) : bool :=
  negb (score_ge (fst c) (Config.SIMILARITY_THRESHOLD config)).

(** The result [search] makes of a candidate it keeps: the chunk the label
    points at, with the score of the candidate. *)
Definition raw_result (self : VectorStore.t) (c : Score * Z)
    (r : VectorStore.Result) : Prop :=
  Py.get (VectorStore.chunks self) (snd c) = Some (fst r) /\ snd r = fst c.

(** The chunk side-store and the index hold equally many entries. *)
Definition aligned (self : VectorStore.t) : Prop :=
  exists ix : IndexFlatIP Score,
    VectorStore.index self = Some ix /\
    Py.len (VectorStore.chunks self) = ntotal ix /\
    Py.len (VectorStore.chunk_metadata self) = ntotal ix.

(** The same for the two persisted artifacts. *)
Definition aligned_artifacts (ix : IndexFlatIP Score) (data : Pickle) : Prop :=
  Py.len (pkl_chunks data) = ntotal ix /\
  Py.len (pkl_metadata data) = ntotal ix.

End Spec.
End Spec.

(** ** src/config.py: the credential *)

Module Credentials.

(** [api_key.startswith('AIzaSy')] *)
Definition is_valid_key (api_key : string) : bool := String.prefix "AIzaSy" api_key.

(** The line written to [.env]. *)
Definition env_line (api_key : string) : string :=
  ("GEMINI_API_KEY=" ++ api_key ++ String (ascii_of_nat 10) EmptyString)%string.

(** The property [Config.API_KEY].  [env] is what [os.getenv] returns,
    [typed] what [getpass] returns when the user is asked, [writable]
    whether [.env] can be written (a failure is caught and reported).  The
    result is the key, or [None], and the new contents of [.env] when the
    file is written. *)
Definition API_KEY (env : option string) (typed : string) (writable : bool)
  : option string * option string :=
  let ask :=
    let api_key := Py.strip typed in
    if is_valid_key api_key
    then (Some api_key, if writable then Some (env_line api_key) else None)
    else (None, None) in
  match env with
  | Some api_key =>
      if Py.nonempty api_key && is_valid_key api_key
      then (Some api_key, None)
      else ask
  | None => ask
  end.

End Credentials.

(** ** run_movie_rag.py: collecting the queries *)

Module RunMovieRag.

(** The [while True] loop of [get_user_queries]; [stdin] holds the lines
    that [input()] returns before the end of input, where [input()] raises
    [EOFError] and the loop stops. *)
Fixpoint get_user_queries_loop (stdin : list string) (queries : list string)
  : list string :=
  match stdin with
  | [] => queries
  | raw :: rest =>
      let line := Py.strip raw in
      if negb (Py.nonempty line) then
        match queries with
        | [] => get_user_queries_loop rest queries
        | _ :: _ => queries
        end
      else get_user_queries_loop rest (queries ++ [line])
  end.

Definition get_user_queries (stdin : list string) : list string :=
  get_user_queries_loop stdin [].

Definition get_default_queries : list string :=
  [ "Which movies feature artificial intelligence or robots?";
    "Tell me about movies that involve dreams or virtual reality";
    "What are some good sci-fi movies from the 1990s?";
    "Find movies with prison escape plots";
    "Movies about technology or computers";
    "Which films have superheroes or superpowers?";
    "Romantic comedies from the 2000s" ].

(** The queries [main] goes on to process. *)
Definition main_queries (stdin : list string) : list string :=
  match get_user_queries stdin with
  | [] => get_default_queries
  | queries => queries
  end.

End RunMovieRag.

(** ** Further vocabulary of the properties *)

Module Vocabulary.
Section Vocabulary.
Context `{Collab : Collaborators}.
Variable config : Config.t.

(** A string none of whose characters satisfies [p]. *)
Definition free_of (p : ascii -> bool) (s : string) : Prop :=
  forall c, In c (list_ascii_of_string s) -> p c = false.

Definition is_underscore (c : ascii) : bool := Ascii.eqb c "_".

(** A string that is empty or starts with a character that is not
    whitespace, as [lstrip] returns it. *)
Definition starts_clean (s : string) : Prop :=
  match s with
  | EmptyString => True
  | String c _ => Py.is_space c = false
  end.

(** The word lists of consecutive chunks glued back together: every chunk
    after the first loses its first [overlap] words. *)
Definition merge_overlapping (overlap : nat) (chunk_words : list (list string))
  : list string :=
  match chunk_words with
  | [] => []
  | first :: rest => first ++ List.concat (map (skipn overlap) rest)
  end.

Fixpoint take_while {A : Type} (p : A -> bool) (l : list A) : list A :=
  match l with
  | [] => []
  | x :: rest => if p x then x :: take_while p rest else []
  end.

Fixpoint drop_while {A : Type} (p : A -> bool) (l : list A) : list A :=
  match l with
  | [] => []
  | x :: rest => if p x then drop_while p rest else l
  end.

(** A line with nothing on it. *)
Definition is_blank (line : string) : bool := negb (Py.nonempty line).

(** A result whose score reaches [SIMILARITY_THRESHOLD]. *)
Definition reaches_threshold (r : VectorStore.Result) : bool :=
  score_ge (snd r) (Config.SIMILARITY_THRESHOLD config).

(** The store and the two artifacts hold the same index, chunks and
    metadata. *)
Definition persisted (fs : FileSystem) (self : VectorStore.t) : Prop :=
  exists ix : IndexFlatIP Score,
    VectorStore.index self = Some ix /\
    index_faiss fs = Stored ix /\
    metadata_pkl fs = Stored {| pkl_chunks := VectorStore.chunks self;
                                pkl_metadata := VectorStore.chunk_metadata self |}.

End Vocabulary.
End Vocabulary.

(** * Properties *)

(** ** Facts about the Python primitives *)

Lemma len_nonneg {A : Type} (l : list A) : 0 <= Py.len l.
Proof. unfold Py.len. lia. Qed.

Lemma len_app {A : Type} (l1 l2 : list A) :
  Py.len (l1 ++ l2) = Py.len l1 + Py.len l2.
Proof. unfold Py.len. rewrite length_app. lia. Qed.

Lemma len_nil_iff {A : Type} (l : list A) : Py.len l = 0 <-> l = [].
Proof.
  unfold Py.len. split.
  - destruct l; [reflexivity | simpl; lia].
  - intros ->. reflexivity.
Qed.

(** A slice with bounds [0 <= a <= b] is [firstn] of [skipn]. *)
Lemma slice_nonneg {A : Type} (l : list A) (a b : Z) :
  0 <= a <= b ->
  Py.slice l a b = firstn (Z.to_nat (b - a)) (skipn (Z.to_nat a) l).
Proof.
  intros Hab. unfold Py.slice, Py.clamp, Py.len.
  destruct (Z.ltb_spec a 0) as [Ha | Ha]; [lia |].
  destruct (Z.ltb_spec b 0) as [Hb | Hb]; [lia |].
  destruct (Z_le_gt_dec b (Z.of_nat (List.length l))) as [Hbl | Hbl].
  - rewrite (Z.min_l a), (Z.min_l b) by lia. reflexivity.
  - rewrite (Z.min_r b) by lia.
    destruct (Z_le_gt_dec a (Z.of_nat (List.length l))) as [Hal | Hal].
    + rewrite (Z.min_l a) by lia.
      rewrite !firstn_all2; try reflexivity; rewrite length_skipn; lia.
    + rewrite (Z.min_r a) by lia.
      rewrite (skipn_all2 l (n := Z.to_nat a)) by lia.
      rewrite firstn_nil.
      rewrite Z.sub_diag. reflexivity.
Qed.

Lemma slice_to_nonneg {A : Type} (l : list A) (b : Z) :
  0 <= b -> Py.slice_to l b = firstn (Z.to_nat b) l.
Proof.
  intros Hb. unfold Py.slice_to, Py.clamp, Py.len.
  destruct (Z.ltb_spec b 0) as [H | H]; [lia |].
  destruct (Z_le_gt_dec b (Z.of_nat (List.length l))) as [Hbl | Hbl].
  - rewrite Z.min_l by lia. reflexivity.
  - rewrite Z.min_r by lia. rewrite !firstn_all2; try reflexivity; lia.
Qed.

(** [l[-k:]] keeps the last [k] elements, or all of them. *)
Lemma slice_from_neg {A : Type} (l : list A) (k : nat) :
  (0 < k)%nat ->
  Py.slice_from l (- Z.of_nat k) = skipn (List.length l - k) l.
Proof.
  intros Hk. unfold Py.slice_from, Py.clamp, Py.len.
  destruct (Z.ltb_spec (- Z.of_nat k) 0) as [H | H]; [| lia].
  f_equal. lia.
Qed.

Lemma get_in_range {A : Type} (l : list A) (i : Z) :
  0 <= i < Py.len l ->
  exists x, Py.get l i = Some x /\ nth_error l (Z.to_nat i) = Some x.
Proof.
  intros Hi. unfold Py.get. unfold Py.len in Hi.
  destruct (Z.ltb_spec i 0) as [H | H]; [lia |].
  destruct (nth_error l (Z.to_nat i)) as [x |] eqn:E.
  - exists x. split; reflexivity.
  - apply nth_error_None in E. lia.
Qed.

(** [range(0, n, s)] for a positive step. *)
Lemma range_positive_step (n s : Z) :
  0 < s ->
  Py.range 0 n s =
  Some (map (fun k => Z.of_nat k * s) (seq 0 (Z.to_nat ((n + s - 1) / s)))).
Proof.
  intros Hs. unfold Py.range.
  destruct (Z.eqb_spec s 0) as [H | H]; [lia |].
  destruct (Z.ltb_spec 0 s) as [H' | H']; [| lia].
  rewrite Z.sub_0_r. reflexivity.
Qed.

(** *** Words: [split] undoes [join] *)

Lemma no_space_empty : Spec.no_space EmptyString.
Proof. intros c []. Qed.

Lemma no_space_cons (c : ascii) (s : string) :
  Py.is_space c = false -> Spec.no_space s -> Spec.no_space (String c s).
Proof. intros Hc Hs d [<- | Hd]; [exact Hc | exact (Hs d Hd)]. Qed.

Lemma no_space_inv (c : ascii) (s : string) :
  Spec.no_space (String c s) -> Py.is_space c = false /\ Spec.no_space s.
Proof.
  intros H. split.
  - apply H. left. reflexivity.
  - intros d Hd. apply H. right. exact Hd.
Qed.

Lemma fields_not_nil (sep : ascii -> bool) (s : string) : Py.fields sep s <> [].
Proof.
  destruct s as [| c r]; simpl; [discriminate |].
  destruct (sep c); [discriminate |].
  destruct (Py.fields sep r); discriminate.
Qed.

Lemma fields_no_space (s : string) : Forall Spec.no_space (Py.fields Py.is_space s).
Proof.
  induction s as [| c r IH]; simpl.
  - constructor; [apply no_space_empty | constructor].
  - destruct (Py.is_space c) eqn:Ec.
    + constructor; [apply no_space_empty | exact IH].
    + destruct (Py.fields Py.is_space r) as [| f fs]; simpl.
      * constructor; [| constructor].
        apply no_space_cons; [exact Ec | apply no_space_empty].
      * inversion IH; subst. constructor; [| assumption].
        apply no_space_cons; assumption.
Qed.

(** Every element of [s.split()] is a word. *)
Lemma split_words (s : string) : Forall Spec.is_word (Py.split s).
Proof.
  unfold Py.split.
  pose proof (fields_no_space s) as H.
  induction H as [| f fs Hf _ IH]; simpl; [constructor |].
  destruct f as [| c f']; simpl; [exact IH |].
  constructor; [| exact IH].
  split; [discriminate | exact Hf].
Qed.

Lemma fields_word (w : string) :
  Spec.no_space w -> Py.fields Py.is_space w = [w].
Proof.
  induction w as [| c r IH]; intros H; simpl; [reflexivity |].
  apply no_space_inv in H. destruct H as [Hc Hr].
  rewrite Hc, (IH Hr). reflexivity.
Qed.

Lemma fields_word_space (w rest : string) :
  Spec.no_space w ->
  Py.fields Py.is_space (w ++ String " " rest)%string
  = w :: Py.fields Py.is_space rest.
Proof.
  induction w as [| c r IH]; intros H; simpl.
  - reflexivity.
  - apply no_space_inv in H. destruct H as [Hc Hr].
    rewrite Hc, (IH Hr). reflexivity.
Qed.

(** [' '.join(ws).split() == ws] for a list of words. *)
Lemma split_join (ws : list string) :
  Forall Spec.is_word ws -> Py.split (Py.join " " ws) = ws.
Proof.
  induction 1 as [| w ws [Hne Hns] Hws IH]; [reflexivity |].
  destruct ws as [| w' ws'].
  - simpl. unfold Py.split. rewrite (fields_word _ Hns). simpl.
    destruct w; [contradiction | reflexivity].
  - change (Py.join " " (w :: w' :: ws'))
      with (w ++ String " " (Py.join " " (w' :: ws')))%string.
    unfold Py.split. rewrite (fields_word_space _ _ Hns). simpl.
    destruct w as [| c r]; [contradiction |]. simpl.
    f_equal. exact IH.
Qed.

Lemma Forall_firstn {A : Type} (P : A -> Prop) (n : nat) (l : list A) :
  Forall P l -> Forall P (firstn n l).
Proof.
  intros H. revert n. induction H; intros [| n]; simpl; constructor; auto.
Qed.

Lemma Forall_skipn {A : Type} (P : A -> Prop) (n : nat) (l : list A) :
  Forall P l -> Forall P (skipn n l).
Proof.
  intros H. revert n. induction H; intros [| n]; simpl; auto.
Qed.

(** ** The fixed-size strategy *)

Section FixedSize.
Context `{Collab : Collaborators}.
Variable config : Config.t.
Variable document : Document.
Variable words : list string.

Let size := Config.CHUNK_SIZE config.
Let stride := Config.CHUNK_SIZE config - Config.CHUNK_OVERLAP config.

Hypothesis valid_overlap : 0 < Config.CHUNK_OVERLAP config < Config.CHUNK_SIZE config.

Let window_chunk := Spec.window_chunk config document words.
Let starts_from := Spec.starts_from config.

(** The loop stops at the first window that reaches the end of the words,
    and it meets one before the range runs out. *)
Lemma fixed_size_loop_windows (cnt a : nat) (acc : list Chunk) :
  Py.len words <= Z.of_nat (a + cnt) * stride ->
  Z.of_nat a * stride < Py.len words ->
  exists m : nat,
    (1 <= m <= cnt)%nat /\
    SmartChunker.fixed_size_loop config words document (starts_from a cnt) acc
    = Some (acc ++ map window_chunk (starts_from a m)) /\
    (forall k : nat, (a <= k)%nat -> (k + 1 < a + m)%nat ->
       Z.of_nat k * stride + size < Py.len words) /\
    Py.len words <= Z.of_nat (a + m - 1) * stride + size.
Proof.
  revert a acc. induction cnt as [| cnt IH]; intros a acc Hend Hin.
  - exfalso. replace (a + 0)%nat with a in Hend by lia. lia.
  - unfold starts_from, Spec.starts_from. simpl seq. simpl map.
    cbn [SmartChunker.fixed_size_loop].
    unfold Py.floordiv.
    destruct (Z.eqb_spec (Config.CHUNK_SIZE config) 0) as [Hz | Hz]; [lia |].
    cbn [Py.bind]. fold stride.
    destruct (Z.geb_spec (Z.of_nat a * stride + Config.CHUNK_SIZE config) (Py.len words))
      as [Hge | Hlt].
    + exists 1%nat. split; [lia |]. split; [reflexivity |]. split.
      * intros k Hk1 Hk2. lia.
      * replace (a + 1 - 1)%nat with a by lia. subst size. lia.
    + destruct (IH (S a) (acc ++ [window_chunk (Z.of_nat a * stride)]))
        as (m & Hm & Hloop & Hfull & Hlast).
      * replace (S a + cnt)%nat with (a + S cnt)%nat by lia. exact Hend.
      * subst stride. rewrite Nat2Z.inj_succ. lia.
      * exists (S m). split; [lia |]. split; [| split].
        -- unfold starts_from, Spec.starts_from in Hloop. fold stride in Hloop.
           rewrite <- app_assoc in Hloop. exact Hloop.
        -- intros k Hk1 Hk2.
           destruct (Nat.eq_dec k a) as [-> | Hne].
           ++ subst size. lia.
           ++ apply Hfull; lia.
        -- replace (a + S m - 1)%nat with (S a + m - 1)%nat by lia. exact Hlast.
Qed.

(** The range of the loop covers the words. *)
Lemma range_reaches_end (n s : Z) :
  0 < s -> 0 <= n -> n <= Z.of_nat (Z.to_nat ((n + s - 1) / s)) * s.
Proof.
  intros Hs Hn.
  assert (0 <= (n + s - 1) / s) by (apply Z.div_pos; lia).
  rewrite Z2Nat.id by assumption.
  pose proof (Z.div_mod (n + s - 1) s ltac:(lia)) as Hdm.
  pose proof (Z.mod_pos_bound (n + s - 1) s Hs) as Hmod.
  nia.
Qed.

Hypothesis words_of_content : words = Py.split (doc_content document).
Hypothesis long : Config.CHUNK_SIZE config < Py.len words.

(** What [_fixed_size_chunking] returns: the windows at the multiples of
    the stride, up to the first one that reaches the end. *)
Lemma fixed_size_chunking_windows :
  exists m : nat,
    (2 <= m)%nat /\
    SmartChunker._fixed_size_chunking config (doc_content document) document
    = Some (map window_chunk (starts_from 0 m)) /\
    (forall k : nat, (k + 1 < m)%nat ->
       Z.of_nat k * stride + size < Py.len words) /\
    Py.len words <= Z.of_nat (m - 1) * stride + size.
Proof.
  unfold SmartChunker._fixed_size_chunking.
  rewrite <- words_of_content.
  rewrite range_positive_step by lia. cbn [Py.bind].
  fold stride.
  destruct (fixed_size_loop_windows (Z.to_nat ((Py.len words + stride - 1) / stride)) 0 [])
    as (m & Hm & Hloop & Hfull & Hlast).
  - apply range_reaches_end; [subst stride; lia | apply len_nonneg].
  - simpl. lia.
  - exists m. split; [| split; [exact Hloop | split]].
    + destruct (Nat.le_gt_cases 2 m) as [H2 | H2]; [exact H2 |].
      exfalso. assert (m = 1%nat) by lia. subst m. simpl in Hlast.
      subst size. lia.
    + intros k Hk. apply Hfull; lia.
    + exact Hlast.
Qed.

Lemma words_are_words : Forall Spec.is_word words.
Proof. rewrite words_of_content. apply split_words. Qed.

(** The text of a window splits back into the words of the window. *)
Lemma window_chunk_words (i : Z) :
  0 <= i ->
  Py.split (content (window_chunk i))
  = firstn (Z.to_nat size) (skipn (Z.to_nat i) words).
Proof.
  intros Hi. unfold window_chunk, Spec.window_chunk.
  cbn [SmartChunker.make_chunk content].
  rewrite split_join.
  - rewrite slice_nonneg by lia. f_equal. subst size. f_equal. lia.
  - rewrite slice_nonneg by lia.
    apply Forall_firstn, Forall_skipn, words_are_words.
Qed.

End FixedSize.

Section FixedSizeDispatch.
Context `{Collab : Collaborators}.
Variable config : Config.t.
Variable document : Document.

Hypothesis valid_overlap : 0 < Config.CHUNK_OVERLAP config < Config.CHUNK_SIZE config.
Hypothesis fixed : Config.SMART_CHUNKING config = false.
Hypothesis long : Config.CHUNK_SIZE config < Py.len (Py.split (doc_content document)).

(** [_chunk_document] hands a long document to the fixed-size strategy. *)
Lemma chunk_document_fixed :
  SmartChunker._chunk_document config document
  = SmartChunker._fixed_size_chunking config (doc_content document) document.
Proof.
  unfold SmartChunker._chunk_document.
  destruct (Z.leb_spec (Py.len (Py.split (doc_content document)))
              (Config.CHUNK_SIZE config)) as [H | H]; [lia |].
  rewrite fixed. reflexivity.
Qed.

Lemma nth_error_windows (m k : nat) (c : Chunk) :
  nth_error
    (map (Spec.window_chunk config document (Py.split (doc_content document)))
       (Spec.starts_from config 0 m)) k = Some c ->
  (k < m)%nat /\
  c = Spec.window_chunk config document (Py.split (doc_content document))
        (Z.of_nat k * (Config.CHUNK_SIZE config - Config.CHUNK_OVERLAP config)).
Proof.
  unfold Spec.starts_from. rewrite !nth_error_map, nth_error_seq.
  destruct (Nat.ltb_spec k m) as [Hk | Hk]; simpl; [| discriminate].
  intros [= <-]. split; [exact Hk | reflexivity].
Qed.

End FixedSizeDispatch.

(** C3.  Under a valid configuration ([0 < CHUNK_OVERLAP < CHUNK_SIZE]) and
    with [SMART_CHUNKING] off, a document of more than [CHUNK_SIZE] words is
    chunked without error, and every word of its content appears in an
    emitted chunk: the word at position [j] of the document is the word at
    position [j - start] of a chunk whose window starts at [start]. *)
Theorem fixed_size_covers_every_word `{Collab : Collaborators}
    (config : Config.t) (document : Document) :
  0 < Config.CHUNK_OVERLAP config < Config.CHUNK_SIZE config ->
  Config.SMART_CHUNKING config = false ->
  Config.CHUNK_SIZE config < Py.len (Py.split (doc_content document)) ->
  exists chunks : list Chunk,
    SmartChunker._chunk_document config document = Some chunks /\
    forall (j : nat) (w : string),
      nth_error (Py.split (doc_content document)) j = Some w ->
      exists (c : Chunk) (start : nat),
        In c chunks /\ (start <= j)%nat /\
        nth_error (Py.split (content c)) (j - start) = Some w.
Proof.
  intros Hvalid Hfixed Hlong.
  set (words := Py.split (doc_content document)) in *.
  set (size := Config.CHUNK_SIZE config) in *.
  set (stride := size - Config.CHUNK_OVERLAP config).
  destruct (fixed_size_chunking_windows config document words Hvalid eq_refl Hlong)
    as (m & Hm & Hrun & Hfull & Hlast).
  exists (map (Spec.window_chunk config document words) (Spec.starts_from config 0 m)).
  split.
  { rewrite chunk_document_fixed by assumption. exact Hrun. }
  intros j w Hj.
  assert (Hjn : (j < List.length words)%nat)
    by (apply nth_error_Some; rewrite Hj; discriminate).
  assert (Hs : 0 < stride) by (subst stride; lia).
  pose proof (Z.div_mod (Z.of_nat j) stride ltac:(lia)) as Hdm.
  pose proof (Z.mod_pos_bound (Z.of_nat j) stride Hs) as Hmod.
  assert (Hq : 0 <= Z.of_nat j / stride) by (apply Z.div_pos; lia).
  set (k := Nat.min (Z.to_nat (Z.of_nat j / stride)) (m - 1)).
  assert (Hk : (k < m)%nat) by (subst k; lia).
  assert (Hlo : Z.of_nat k * stride <= Z.of_nat j).
  { subst k. destruct (Nat.min_spec (Z.to_nat (Z.of_nat j / stride)) (m - 1))
      as [[_ ->] | [Hle ->]].
    - rewrite Z2Nat.id by lia. lia.
    - assert (Z.of_nat (m - 1) <= Z.of_nat j / stride) by lia. nia. }
  assert (Hhi : Z.of_nat j < Z.of_nat k * stride + size).
  { subst k. destruct (Nat.min_spec (Z.to_nat (Z.of_nat j / stride)) (m - 1))
      as [[_ ->] | [_ ->]].
    - rewrite Z2Nat.id by lia.
      assert (stride < size) by (subst stride; lia). lia.
    - unfold Py.len in Hlast. fold stride in Hlast. fold size in Hlast. lia. }
  exists (Spec.window_chunk config document words (Z.of_nat k * stride)),
         (Z.to_nat (Z.of_nat k * stride)).
  split; [| split].
  - apply in_map. unfold Spec.starts_from. fold size. fold stride.
    apply (in_map (fun k0 => Z.of_nat k0 * stride)). apply in_seq. lia.
  - lia.
  - rewrite (window_chunk_words config document words Hvalid eq_refl) by lia.
    rewrite nth_error_firstn.
    destruct (Nat.ltb_spec (j - Z.to_nat (Z.of_nat k * stride))
                (Z.to_nat (Config.CHUNK_SIZE config))) as [Hin | Hout].
    + rewrite nth_error_skipn.
      replace (Z.to_nat (Z.of_nat k * stride) + (j - Z.to_nat (Z.of_nat k * stride)))%nat
        with j by lia.
      exact Hj.
    + fold size in Hout. lia.
Qed.

(** Witness for C3: three words per chunk, one word of overlap, seven
    words. *)
Lemma fixed_size_covers_every_word_witness :
  exists chunks : list Chunk,
    SmartChunker._chunk_document (Demo.config false 3 1 false 300)
      (Demo.document "T" "a b c d e f g") = Some chunks /\
    forall (j : nat) (w : string),
      nth_error (Py.split "a b c d e f g") j = Some w ->
      exists (c : Chunk) (start : nat),
        In c chunks /\ (start <= j)%nat /\
        nth_error (Py.split (content c)) (j - start) = Some w.
Proof.
  apply (fixed_size_covers_every_word (Demo.config false 3 1 false 300)
           (Demo.document "T" "a b c d e f g")).
  - simpl. lia.
  - reflexivity.
  - vm_compute. reflexivity.
Defined.

(** C4.  Under a valid configuration and with [SMART_CHUNKING] off, a
    document of more than [CHUNK_SIZE] words is cut into at least two
    chunks, and any two consecutive emitted chunks (the [k]-th and the next)
    are the windows of the words that start at [k * stride] and
    [(k+1) * stride], [stride = CHUNK_SIZE - CHUNK_OVERLAP]; the earlier one
    has [CHUNK_SIZE] words, and its last [CHUNK_OVERLAP] words are the first
    [CHUNK_OVERLAP] words of the later one.  This holds for every
    consecutive pair, the pair that ends in the final chunk included. *)
Theorem fixed_size_consecutive_overlap `{Collab : Collaborators}
    (config : Config.t) (document : Document) :
  0 < Config.CHUNK_OVERLAP config < Config.CHUNK_SIZE config ->
  Config.SMART_CHUNKING config = false ->
  Config.CHUNK_SIZE config < Py.len (Py.split (doc_content document)) ->
  exists chunks : list Chunk,
    SmartChunker._chunk_document config document = Some chunks /\
    (2 <= List.length chunks)%nat /\
    forall (k : nat) (c1 c2 : Chunk),
      nth_error chunks k = Some c1 ->
      nth_error chunks (S k) = Some c2 ->
      let words := Py.split (doc_content document) in
      let size := Config.CHUNK_SIZE config in
      let overlap := Config.CHUNK_OVERLAP config in
      let start := Z.of_nat k * (size - overlap) in
      Py.split (content c1) = Py.slice words start (start + size) /\
      Py.split (content c2)
      = Py.slice words (start + (size - overlap)) (start + (size - overlap) + size) /\
      Py.len (Py.split (content c1)) = size /\
      Py.slice_from (Py.split (content c1)) (size - overlap)
      = Py.slice_to (Py.split (content c2)) overlap /\
      Py.len (Py.slice_to (Py.split (content c2)) overlap) = overlap.
Proof.
  intros Hvalid Hfixed Hlong.
  set (words := Py.split (doc_content document)) in *.
  destruct (fixed_size_chunking_windows config document words Hvalid eq_refl Hlong)
    as (m & Hm & Hrun & Hfull & Hlast).
  exists (map (Spec.window_chunk config document words) (Spec.starts_from config 0 m)).
  split.
  { rewrite chunk_document_fixed by assumption. exact Hrun. }
  split.
  { unfold Spec.starts_from. rewrite !length_map, length_seq. exact Hm. }
  intros k c1 c2 H1 H2 words' size overlap start. subst words'.
  apply nth_error_windows in H1. destruct H1 as [Hk1 ->].
  apply nth_error_windows in H2. destruct H2 as [Hk2 ->].
  fold words. fold size. fold overlap.
  assert (Hfull_k : start + size < Py.len words).
  { subst start size overlap. apply Hfull. lia. }
  assert (Hstart : 0 <= start) by (subst start; nia).
  replace (Z.of_nat (S k) * (size - overlap)) with (start + (size - overlap))
    by (subst start; lia).
  rewrite !(window_chunk_words config document words Hvalid eq_refl) by lia.
  fold size. fold start. unfold Py.len in Hfull_k.
  assert (Hlen1 : List.length (firstn (Z.to_nat size) (skipn (Z.to_nat start) words))
                  = Z.to_nat size).
  { rewrite length_firstn, length_skipn. lia. }
  split; [| split; [| split; [| split]]].
  - rewrite slice_nonneg by lia. do 2 f_equal. lia.
  - rewrite slice_nonneg by lia. do 2 f_equal. lia.
  - unfold Py.len. rewrite Hlen1. lia.
  - unfold Py.slice_from, Py.slice_to, Py.clamp, Py.len.
    rewrite Hlen1, length_firstn, length_skipn.
    destruct (Z.ltb_spec (size - overlap) 0) as [Hneg | _]; [lia |].
    destruct (Z.ltb_spec overlap 0) as [Hneg | _]; [lia |].
    rewrite !Z.min_l by lia.
    rewrite skipn_firstn_comm, skipn_skipn, firstn_firstn.
    replace (Z.to_nat size - Z.to_nat (size - overlap))%nat
      with (Z.to_nat overlap) by lia.
    rewrite Nat.min_l by lia.
    do 2 f_equal. lia.
  - unfold Py.slice_to, Py.clamp, Py.len.
    rewrite !length_firstn, !length_skipn.
    destruct (Z.ltb_spec overlap 0) as [Hneg | _]; [lia |].
    lia.
Qed.

(** Witness for C4: three words per chunk, one word of overlap, seven
    words; three chunks, each sharing one word with the next. *)
Lemma fixed_size_consecutive_overlap_witness :
  let config := Demo.config false 3 1 false 300 in
  let document := Demo.document "T" "a b c d e f g" in
  let c0 := {| content := "a b c"; metadata := Demo.meta "T"; chunk_id := "T_0" |} in
  let c1 := {| content := "c d e"; metadata := Demo.meta "T"; chunk_id := "T_0" |} in
  let c2 := {| content := "e f g"; metadata := Demo.meta "T"; chunk_id := "T_1" |} in
  SmartChunker._chunk_document config document = Some [c0; c1; c2] /\
  (2 <= List.length [c0; c1; c2])%nat /\
  (Py.slice_from (Py.split (content c0)) (3 - 1) = Py.slice_to (Py.split (content c1)) 1 /\
   Py.len (Py.slice_to (Py.split (content c1)) 1) = 1) /\
  (Py.slice_from (Py.split (content c1)) (3 - 1) = Py.slice_to (Py.split (content c2)) 1 /\
   Py.len (Py.slice_to (Py.split (content c2)) 1) = 1).
Proof.
  intros config document c0 c1 c2.
  destruct (fixed_size_consecutive_overlap config document)
    as (chunks & Hrun & Hcount & Hpairs).
  - simpl. lia.
  - reflexivity.
  - vm_compute. reflexivity.
  - assert (Hchunks : chunks = [c0; c1; c2]).
    { assert (Heval : SmartChunker._chunk_document config document = Some [c0; c1; c2])
        by reflexivity.
      rewrite Heval in Hrun. injection Hrun as <-. reflexivity. }
    subst chunks. split; [reflexivity |]. split; [exact Hcount |]. split.
    + destruct (Hpairs 0%nat c0 c1 eq_refl eq_refl) as (_ & _ & _ & Hshare & Hlen).
      split; [exact Hshare | exact Hlen].
    + destruct (Hpairs 1%nat c1 c2 eq_refl eq_refl) as (_ & _ & _ & Hshare & Hlen).
      split; [exact Hshare | exact Hlen].
Defined.

(** ** The sentence-aware strategy *)

Section Semantic.
Context `{Collab : Collaborators}.
Variable config : Config.t.

Lemma sentence_groups_loop_acc (sentences : list string)
    (groups : list (list string)) (current_chunk : list string) (current_length : Z) :
  SmartChunker.sentence_groups_loop config sentences groups current_chunk current_length
  = groups
    ++ SmartChunker.sentence_groups_loop config sentences [] current_chunk current_length.
Proof.
  revert groups current_chunk current_length.
  induction sentences as [| s rest IH]; intros groups cur l; simpl.
  - destruct cur; [rewrite app_nil_r; reflexivity | reflexivity].
  - destruct (SmartChunker.must_close config l (SmartChunker.word_count s)).
    + rewrite IH. rewrite (IH [cur]). rewrite app_assoc. reflexivity.
    + apply IH.
Qed.

(** The emitted chunks are the recorded groups, joined by spaces and
    numbered in the order of emission. *)
Lemma semantic_loop_groups (document : Document) (sentences : list string)
    (chunks : list Chunk) (current_chunk : list string) (current_length : Z) :
  SmartChunker.semantic_loop config document sentences chunks current_chunk current_length
  = chunks
    ++ Spec.number_from document (List.length chunks)
         (SmartChunker.sentence_groups_loop config sentences [] current_chunk
            current_length).
Proof.
  revert chunks current_chunk current_length.
  induction sentences as [| s rest IH]; intros chunks cur l; simpl.
  - destruct cur; [rewrite app_nil_r; reflexivity | reflexivity].
  - destruct (SmartChunker.must_close config l (SmartChunker.word_count s)).
    + rewrite IH. rewrite (sentence_groups_loop_acc rest [cur]).
      rewrite <- app_assoc. rewrite length_app. simpl.
      replace (List.length chunks + 1)%nat with (S (List.length chunks)) by lia.
      reflexivity.
    + apply IH.
Qed.

Lemma number_from_contents (document : Document) (start : nat)
    (groups : list (list string)) :
  map content (Spec.number_from document start groups) = map (Py.join " ") groups.
Proof.
  revert start. induction groups as [| g rest IH]; intros start; simpl.
  - reflexivity.
  - rewrite IH. reflexivity.
Qed.

Lemma number_from_ids (document : Document) (start : nat)
    (groups : list (list string)) :
  map chunk_id (Spec.number_from document start groups)
  = map (fun k => SmartChunker.make_id document (Z.of_nat k))
      (seq start (List.length groups)).
Proof.
  revert start. induction groups as [| g rest IH]; intros start; simpl.
  - reflexivity.
  - rewrite IH. reflexivity.
Qed.

Lemma overlap_of_carried (current_chunk : list string) :
  SmartChunker.overlap_of current_chunk
  = skipn (List.length current_chunk - Spec.carried current_chunk) current_chunk.
Proof.
  unfold SmartChunker.overlap_of, Spec.carried.
  destruct (Z.geb_spec (Py.len current_chunk) 2) as [H | H]; unfold Py.len in H.
  - change (-2) with (- Z.of_nat 2).
    rewrite (slice_from_neg current_chunk 2) by lia. f_equal. lia.
  - change (-1) with (- Z.of_nat 1).
    rewrite (slice_from_neg current_chunk 1) by lia. f_equal. lia.
Qed.

Lemma overlap_of_length (current_chunk : list string) :
  List.length (SmartChunker.overlap_of current_chunk) = Spec.carried current_chunk.
Proof.
  rewrite overlap_of_carried, length_skipn. unfold Spec.carried. lia.
Qed.

(** Removing the handed-over sentences from what the loop emits leaves the
    fresh sentences of the current chunk and the sentences still to come. *)
Lemma drop_carried_loop (sentences prev current_chunk : list string)
    (current_length : Z) :
  (Spec.carried prev <= List.length current_chunk)%nat ->
  Spec.drop_carried prev
    (SmartChunker.sentence_groups_loop config sentences [] current_chunk current_length)
  = skipn (Spec.carried prev) current_chunk ++ sentences.
Proof.
  revert prev current_chunk current_length.
  induction sentences as [| s rest IH]; intros prev cur l Hc; simpl.
  - destruct cur; simpl.
    + rewrite skipn_nil. reflexivity.
    + reflexivity.
  - destruct (SmartChunker.must_close config l (SmartChunker.word_count s)).
    + rewrite (sentence_groups_loop_acc rest [cur]). simpl.
      rewrite IH by (rewrite length_app, overlap_of_length; lia).
      rewrite skipn_app, overlap_of_length, Nat.sub_diag. simpl.
      rewrite (skipn_all2 (SmartChunker.overlap_of cur))
        by (rewrite overlap_of_length; lia).
      reflexivity.
    + rewrite IH by (rewrite length_app; lia).
      rewrite skipn_app.
      replace (Spec.carried prev - List.length cur)%nat with 0%nat by lia.
      simpl. rewrite <- app_assoc. reflexivity.
Qed.

Lemma starts_with_carried_loop (sentences prev current_chunk : list string)
    (current_length : Z) :
  (Spec.carried prev <= List.length current_chunk)%nat ->
  firstn (Spec.carried prev) current_chunk
  = skipn (List.length prev - Spec.carried prev) prev ->
  Spec.starts_with_carried prev
    (SmartChunker.sentence_groups_loop config sentences [] current_chunk current_length).
Proof.
  revert prev current_chunk current_length.
  induction sentences as [| s rest IH]; intros prev cur l Hc Hov; simpl.
  - destruct cur; simpl; [exact I | split; [exact Hov | exact I]].
  - destruct (SmartChunker.must_close config l (SmartChunker.word_count s)).
    + rewrite (sentence_groups_loop_acc rest [cur]). simpl.
      split; [exact Hov |].
      apply IH.
      * rewrite length_app, overlap_of_length. lia.
      * rewrite firstn_app, overlap_of_length, Nat.sub_diag. simpl.
        rewrite app_nil_r.
        rewrite firstn_all2 by (rewrite overlap_of_length; lia).
        apply overlap_of_carried.
    + apply IH.
      * rewrite length_app. lia.
      * rewrite firstn_app.
        replace (Spec.carried prev - List.length cur)%nat with 0%nat by lia.
        simpl. rewrite app_nil_r. exact Hov.
Qed.

(** Every emitted group is a run of consecutive sentences: the loop closes
    a chunk between two sentences and never inside one. *)
Lemma groups_are_runs (sentences before current_chunk : list string)
    (current_length : Z) (g : list string) :
  In g (SmartChunker.sentence_groups_loop config sentences [] current_chunk
          current_length) ->
  exists pre post : list string,
    before ++ current_chunk ++ sentences = pre ++ g ++ post.
Proof.
  revert before current_chunk current_length.
  induction sentences as [| s rest IH]; intros before cur l Hin; simpl in Hin.
  - destruct cur as [| c cur']; [destruct Hin |].
    destruct Hin as [<- | []]. exists before, []. reflexivity.
  - destruct (SmartChunker.must_close config l (SmartChunker.word_count s)).
    + rewrite (sentence_groups_loop_acc rest [cur]) in Hin.
      destruct Hin as [<- | Hin].
      * exists before, (s :: rest). reflexivity.
      * apply (IH (before ++ firstn (List.length cur - Spec.carried cur) cur)) in Hin.
        destruct Hin as (pre & post & Heq). exists pre, post.
        rewrite <- Heq. rewrite overlap_of_carried.
        rewrite <- (firstn_skipn (List.length cur - Spec.carried cur) cur) at 1.
        rewrite <- !app_assoc. reflexivity.
    + apply (IH before) in Hin. destruct Hin as (pre & post & Heq).
      exists pre, post. rewrite <- Heq. rewrite <- !app_assoc. reflexivity.
Qed.

End Semantic.

(** The sentence-aware strategy numbers its chunks [0, 1, 2, ...] in the
    order of emission. *)
Lemma semantic_chunking_ids `{Collab : Collaborators} (config : Config.t)
    (text : string) (document : Document) :
  map chunk_id (SmartChunker._semantic_chunking config text document)
  = map (fun k => SmartChunker.make_id document (Z.of_nat k))
      (seq 0 (List.length (SmartChunker.sentence_groups config text))).
Proof.
  unfold SmartChunker._semantic_chunking, SmartChunker.sentence_groups.
  rewrite semantic_loop_groups. simpl. apply number_from_ids.
Qed.

(** Under every valid configuration the fixed-size strategy gives the first
    two chunks of a long document the same id, [title_0]: the second window
    starts at the stride, which is smaller than [CHUNK_SIZE]. *)
Lemma fixed_size_first_two_ids_equal `{Collab : Collaborators}
    (config : Config.t) (document : Document) :
  0 < Config.CHUNK_OVERLAP config < Config.CHUNK_SIZE config ->
  Config.SMART_CHUNKING config = false ->
  Config.CHUNK_SIZE config < Py.len (Py.split (doc_content document)) ->
  exists (c0 c1 : Chunk) (rest : list Chunk),
    SmartChunker._chunk_document config document = Some (c0 :: c1 :: rest) /\
    chunk_id c0 = SmartChunker.make_id document 0 /\
    chunk_id c1 = SmartChunker.make_id document 0.
Proof.
  intros Hvalid Hfixed Hlong.
  destruct (fixed_size_chunking_windows config document _ Hvalid eq_refl Hlong)
    as (m & Hm & Hrun & _ & _).
  rewrite chunk_document_fixed by assumption. rewrite Hrun.
  destruct m as [| [| m]]; try lia.
  unfold Spec.starts_from. cbn [seq map].
  eexists. eexists. eexists. split; [reflexivity |].
  unfold Spec.window_chunk, SmartChunker.make_chunk. cbn [chunk_id].
  split.
  - change (Z.of_nat 0) with 0. rewrite Z.mul_0_l, Z.div_0_l by lia. reflexivity.
  - change (Z.of_nat 1) with 1. rewrite Z.mul_1_l, Z.div_small by lia. reflexivity.
Qed.

(** C1.  The fixed-size strategy names a chunk after [i // CHUNK_SIZE], the
    start of its window divided by the chunk size, and not after its
    position in the document.  With the default sizes (300 words per chunk,
    50 of overlap) and [SMART_CHUNKING] off, a document titled [T] of 600
    words gives three chunks whose ids are [T_0], [T_0] and [T_1]: the
    first two chunks share an id. *)
Theorem fixed_size_chunk_ids_collide :
  option_map (map chunk_id)
    (SmartChunker.chunk_documents (Demo.config false 300 50 false 300)
       [Demo.document "T" (Demo.repeat_word "w" 600)])
  = Some ["T_0"; "T_0"; "T_1"].
Proof. vm_compute. reflexivity. Qed.

(** C5.  A document of more than [CHUNK_SIZE] words chunked with the
    sentence-aware strategy ([SMART_CHUNKING] on): the emitted chunks are
    the recorded sentence groups joined by spaces; every group after the
    first starts with the sentences handed over by its predecessor (its last
    two, or its only one); and the groups with the handed-over sentences
    removed, concatenated in order, are exactly the sentences of the
    document (split at runs of [.], [!], [?], stripped, empty ones dropped),
    in order. *)
Theorem semantic_chunks_reconstruct_sentences `{Collab : Collaborators}
    (config : Config.t) (document : Document) :
  Config.SMART_CHUNKING config = true ->
  Config.CHUNK_SIZE config < Py.len (Py.split (doc_content document)) ->
  let groups := SmartChunker.sentence_groups config (doc_content document) in
  exists chunks : list Chunk,
    SmartChunker._chunk_document config document = Some chunks /\
    map content chunks = map (Py.join " ") groups /\
    Spec.starts_with_carried [] groups /\
    Spec.unique_sentences groups
    = SmartChunker.split_sentences (doc_content document).
Proof.
  intros Hsmart Hlong groups.
  exists (SmartChunker._semantic_chunking config (doc_content document) document).
  split; [| split; [| split]].
  - unfold SmartChunker._chunk_document.
    destruct (Z.leb_spec (Py.len (Py.split (doc_content document)))
                (Config.CHUNK_SIZE config)) as [H | H]; [lia |].
    rewrite Hsmart. reflexivity.
  - unfold SmartChunker._semantic_chunking. rewrite semantic_loop_groups.
    simpl. apply number_from_contents.
  - apply starts_with_carried_loop; [unfold Spec.carried; simpl; lia | reflexivity].
  - unfold Spec.unique_sentences, groups, SmartChunker.sentence_groups.
    rewrite drop_carried_loop by (unfold Spec.carried; simpl; lia). reflexivity.
Qed.

(** Witness for C5: four words per chunk and a text of five sentences. *)
Lemma semantic_chunks_reconstruct_sentences_witness :
  let config := Demo.config false 4 1 true 300 in
  let text := "a b c. d e! f g h? i j k l m n.  o." in
  let groups := SmartChunker.sentence_groups config text in
  groups = [["a b c"]; ["a b c"; "d e"]; ["a b c"; "d e"; "f g h"];
            ["d e"; "f g h"; "i j k l m n"]; ["f g h"; "i j k l m n"; "o"]] /\
  exists chunks : list Chunk,
    SmartChunker._chunk_document config (Demo.document "T" text) = Some chunks /\
    map content chunks = map (Py.join " ") groups /\
    Spec.starts_with_carried [] groups /\
    Spec.unique_sentences groups = SmartChunker.split_sentences text.
Proof.
  intros config text groups. split; [reflexivity |].
  apply (semantic_chunks_reconstruct_sentences config (Demo.document "T" text)).
  - reflexivity.
  - vm_compute. reflexivity.
Defined.

(** ** The data loader *)

Lemma preprocess_loop_filter (movies : list Movie) (processed : list Document) :
  DataLoader.preprocess_loop movies processed
  = processed ++ map DataLoader.preprocess (filter DataLoader.has_extract movies).
Proof.
  revert processed. induction movies as [| movie rest IH]; intros processed; simpl.
  - rewrite app_nil_r. reflexivity.
  - destruct (DataLoader.has_extract movie); simpl.
    + rewrite IH, <- app_assoc. reflexivity.
    + apply IH.
Qed.

Lemma has_extract_iff (movie : Movie) :
  DataLoader.has_extract movie = true
  <-> exists e : string, m_extract movie = Some e /\ e <> EmptyString.
Proof.
  unfold DataLoader.has_extract. destruct (m_extract movie) as [e |].
  - destruct e as [| c e']; simpl; split.
    + discriminate.
    + intros (e & [= <-] & Hne). contradiction.
    + intros _. eexists. split; [reflexivity | discriminate].
    + reflexivity.
  - split; [discriminate | intros (e & H & _); discriminate].
Qed.

(** C7.  For a corpus file that holds an array of records, preprocessing
    returns one document per record of [movies[:MAX_DOCUMENTS]] that has a
    non-empty [extract], in the order of the input, and nothing else;
    [movies[:MAX_DOCUMENTS]] is the first [MAX_DOCUMENTS] records when
    [MAX_DOCUMENTS] is not negative; and a record has a non-empty [extract]
    exactly when the key is present with a non-empty string. *)
Theorem preprocessing_keeps_records_with_extract `{Collab : Collaborators}
    (config : Config.t) (movies : list Movie) :
  DataLoader.load_and_preprocess config (JsonArray movies)
  = Some (map DataLoader.preprocess
            (filter DataLoader.has_extract
               (Py.slice_to movies (Config.MAX_DOCUMENTS config)))) /\
  (0 <= Config.MAX_DOCUMENTS config ->
   Py.slice_to movies (Config.MAX_DOCUMENTS config)
   = firstn (Z.to_nat (Config.MAX_DOCUMENTS config)) movies) /\
  (forall movie : Movie,
     DataLoader.has_extract movie = true
     <-> exists e : string, m_extract movie = Some e /\ e <> EmptyString).
Proof.
  split; [| split; [apply slice_to_nonneg | exact has_extract_iff]].
  unfold DataLoader.load_and_preprocess.
  rewrite preprocess_loop_filter. reflexivity.
Qed.

(** Witness for C7: three records, the second one with an empty plot. *)
Lemma preprocessing_keeps_records_with_extract_witness :
  let config := Demo.config false 300 50 true 300 in
  let robowar := {| m_title := Some "RoboWar"; m_year := Some "1999";
                    m_genres := Some ["Sci-Fi"];
                    m_extract := Some "A robot fights crime." |} in
  let silence := {| m_title := Some "Silence"; m_year := None;
                    m_genres := None; m_extract := Some EmptyString |} in
  let dreams := {| m_title := Some "Dreams"; m_year := Some "2001";
                   m_genres := None; m_extract := Some "A dreamer wakes up." |} in
  DataLoader.load_and_preprocess config (JsonArray [robowar; silence; dreams])
  = Some [DataLoader.preprocess robowar; DataLoader.preprocess dreams] /\
  Py.slice_to [robowar; silence; dreams] 400 = [robowar; silence; dreams].
Proof.
  intros config robowar silence dreams.
  destruct (preprocessing_keeps_records_with_extract config [robowar; silence; dreams])
    as (Hrun & Hfirst & _).
  split.
  - rewrite Hrun. reflexivity.
  - refine (Hfirst _). simpl. lia.
Defined.

(** ** The orchestrator *)

Lemma load_index_missing `{Collab : Collaborators} (fs : FileSystem)
    (self : VectorStore.t) :
  index_faiss fs = Missing \/ metadata_pkl fs = Missing ->
  VectorStore.load_index fs self = (false, self).
Proof.
  intros H. unfold VectorStore.load_index.
  destruct H as [H | H]; rewrite H; simpl.
  - reflexivity.
  - rewrite andb_false_r. reflexivity.
Qed.

Lemma set_store_same `{Collab : Collaborators} (self : MovieRAGSystem.t) :
  MovieRAGSystem.set_store self (MovieRAGSystem.vector_store self)
    (MovieRAGSystem.initialized self) = self.
Proof. destruct self. reflexivity. Qed.

(** C8.  With a corpus file that holds an empty array and with a persisted
    artifact missing, [initialize] returns [False] and changes nothing, and
    [query] on a system that is not initialized returns the
    initialization-failure response, without raising. *)
Theorem empty_corpus_fails_gracefully `{Collab : Collaborators}
    (config : Config.t) (fs : FileSystem) (self : MovieRAGSystem.t)
    (question : string) :
  data_file fs = JsonArray [] ->
  index_faiss fs = Missing \/ metadata_pkl fs = Missing ->
  MovieRAGSystem.initialized self = false ->
  MovieRAGSystem.initialize config fs self = Some (false, fs, self) /\
  MovieRAGSystem.query config fs self question
  = Some ({| answer := "System initialization failed. Please check your data file.";
             contexts := [];
             reasoning := "Initialization error" |}, fs, self).
Proof.
  intros Hdata Hmissing Hinit.
  assert (Hinitialize :
            MovieRAGSystem.initialize config fs self = Some (false, fs, self)).
  { unfold MovieRAGSystem.initialize.
    rewrite (load_index_missing fs _ Hmissing).
    rewrite Hdata. unfold DataLoader.load_and_preprocess, Py.slice_to.
    rewrite firstn_nil. simpl. rewrite set_store_same. reflexivity. }
  split; [exact Hinitialize |].
  unfold MovieRAGSystem.query. rewrite Hinit, Hinitialize. reflexivity.
Qed.

(** Witness for C8: a fresh system, no artifact on disk, an empty array in
    the corpus file. *)
Lemma empty_corpus_fails_gracefully_witness :
  let fs := @Build_FileSystem (Demo.collaborators false) (JsonArray []) Missing Missing in
  let self := @MovieRAGSystem.Build_t (Demo.collaborators false)
                VectorStore.init false false in
  MovieRAGSystem.initialize (Demo.config false 300 50 true 300) fs self
  = Some (false, fs, self) /\
  MovieRAGSystem.query (Demo.config false 300 50 true 300) fs self "robot movies"
  = Some ({| answer := "System initialization failed. Please check your data file.";
             contexts := [];
             reasoning := "Initialization error" |}, fs, self).
Proof.
  intros fs self.
  apply (empty_corpus_fails_gracefully (Demo.config false 300 50 true 300) fs self
           "robot movies").
  - reflexivity.
  - left. reflexivity.
  - reflexivity.
Defined.

(** ** The vector store: persistence *)

Lemma load_index_unreadable_index `{Collab : Collaborators} (fs : FileSystem)
    (self : VectorStore.t) :
  index_faiss fs = Unreadable -> VectorStore.load_index fs self = (false, self).
Proof.
  intros H. unfold VectorStore.load_index. rewrite H.
  destruct (VectorStore.exists_ Unreadable && VectorStore.exists_ (metadata_pkl fs));
    reflexivity.
Qed.

(** A pickle that holds the chunks and lacks the metadata: [load_index]
    returns [False] after replacing the index and the chunk list, the
    metadata list being the one thing left as it was. *)
Lemma load_index_partial_pickle `{Collab : Collaborators} (fs : FileSystem)
    (self : VectorStore.t) (ix : IndexFlatIP Score) (data : Pickle) :
  index_faiss fs = Stored ix ->
  metadata_pkl fs = Partial data ->
  VectorStore.load_index fs self
  = (false, {| VectorStore.index := Some ix;
               VectorStore.chunks := pkl_chunks data;
               VectorStore.chunk_metadata := VectorStore.chunk_metadata self |}).
Proof.
  intros Hix Hmeta. unfold VectorStore.load_index. rewrite Hix, Hmeta. reflexivity.
Qed.

(** C9.  [load_index] is not atomic on failure.  If the index artifact is
    readable and the metadata artifact exists but cannot be deserialized, it
    returns [False] with [self.index] replaced by the index just read and
    with [self.chunks] and [self.chunk_metadata] as they were.  It returns
    [False] with the whole state unchanged when an artifact file is
    missing, and also when both files exist and the index artifact itself
    cannot be read. *)
Theorem load_index_failure_states `{Collab : Collaborators} (fs : FileSystem)
    (self : VectorStore.t) :
  (forall ix : IndexFlatIP Score,
     index_faiss fs = Stored ix ->
     metadata_pkl fs = Unreadable ->
     VectorStore.load_index fs self
     = (false, {| VectorStore.index := Some ix;
                  VectorStore.chunks := VectorStore.chunks self;
                  VectorStore.chunk_metadata := VectorStore.chunk_metadata self |})) /\
  (index_faiss fs = Missing \/ metadata_pkl fs = Missing ->
     VectorStore.load_index fs self = (false, self)) /\
  (index_faiss fs = Unreadable ->
     VectorStore.load_index fs self = (false, self)).
Proof.
  split; [| split].
  - intros ix Hix Hmeta. unfold VectorStore.load_index.
    rewrite Hix, Hmeta. reflexivity.
  - apply load_index_missing.
  - apply load_index_unreadable_index.
Qed.

(** Witness for C9: a store holding two chunks; a readable index next to an
    unreadable metadata file; a missing metadata file; an unreadable index
    file. *)
Lemma load_index_failure_states_witness :
  let C := Demo.collaborators false in
  let self := Demo.store_ab false in
  let ix := {| ix_d := 2; ix_rows := [[7; 1000]] |} in
  VectorStore.load_index (@Build_FileSystem C NoDataFile (Stored ix) Unreadable) self
  = (false, @VectorStore.Build_t C (Some ix) [Demo.chunk_a; Demo.chunk_b]
              [Demo.meta "RoboWar"; Demo.meta "Dreams"]) /\
  VectorStore.load_index (@Build_FileSystem C NoDataFile (Stored ix) Missing) self
  = (false, self) /\
  VectorStore.load_index
    (@Build_FileSystem C NoDataFile Unreadable
       (Stored {| pkl_chunks := [Demo.chunk_a]; pkl_metadata := [Demo.meta "RoboWar"] |}))
    self
  = (false, self).
Proof.
  intros C self ix. split; [| split].
  - apply (proj1 (load_index_failure_states
                    (@Build_FileSystem C NoDataFile (Stored ix) Unreadable) self) ix);
      reflexivity.
  - apply (proj1 (proj2 (load_index_failure_states
                    (@Build_FileSystem C NoDataFile (Stored ix) Missing) self))).
    right. reflexivity.
  - apply (proj2 (proj2 (load_index_failure_states
                    (@Build_FileSystem C NoDataFile Unreadable
                       (Stored {| pkl_chunks := [Demo.chunk_a];
                                  pkl_metadata := [Demo.meta "RoboWar"] |})) self))).
    reflexivity.
Defined.

(** Counterexample to C9 as stated: both artifact files exist, the index
    file cannot be read; [load_index] returns [False] and leaves the whole
    state unchanged although no file is missing. *)
Lemma load_index_unchanged_with_both_files :
  let C := Demo.collaborators false in
  let fs := @Build_FileSystem C NoDataFile Unreadable
              (Stored {| pkl_chunks := [Demo.chunk_a];
                         pkl_metadata := [Demo.meta "RoboWar"] |}) in
  VectorStore.load_index fs (Demo.store_ab false) = (false, Demo.store_ab false) /\
  index_faiss fs <> Missing /\
  metadata_pkl fs <> Missing.
Proof.
  intros C fs. split; [reflexivity | split; discriminate].
Qed.

(** [build_index] succeeds on a batch of at least one chunk. *)
Lemma build_index_result `{Collab : Collaborators} (fs fs' : FileSystem)
    (self self' : VectorStore.t) (new_chunks : list Chunk) :
  VectorStore.build_index fs self new_chunks = Some (fs', self') ->
  exists d : Z,
    let ix := {| ix_d := d;
                 ix_rows := map normalize_L2 (encode (map content new_chunks)) |} in
    let data := {| pkl_chunks := new_chunks;
                   pkl_metadata := map metadata new_chunks |} in
    self' = {| VectorStore.index := Some ix;
               VectorStore.chunks := new_chunks;
               VectorStore.chunk_metadata := map metadata new_chunks |} /\
    index_faiss fs' = Stored ix /\
    metadata_pkl fs' = Stored data.
Proof.
  unfold VectorStore.build_index.
  destruct (VectorStore.shape_1 (encode (map content new_chunks))) as [d |];
    simpl; [| discriminate].
  intros [= <- <-]. exists d. simpl. repeat split; reflexivity.
Qed.

Lemma load_index_success `{Collab : Collaborators} (fs : FileSystem)
    (self self' : VectorStore.t) :
  VectorStore.load_index fs self = (true, self') ->
  exists (ix : IndexFlatIP Score) (data : Pickle),
    index_faiss fs = Stored ix /\
    metadata_pkl fs = Stored data /\
    self' = {| VectorStore.index := Some ix;
               VectorStore.chunks := pkl_chunks data;
               VectorStore.chunk_metadata := pkl_metadata data |}.
Proof.
  unfold VectorStore.load_index.
  destruct (index_faiss fs) as [| | ix | ix]; simpl; try discriminate.
  - destruct (VectorStore.exists_ (metadata_pkl fs)); discriminate.
  - destruct (metadata_pkl fs) as [| | data | data]; simpl; try discriminate.
    intros [= <-]. exists ix, data. repeat split; reflexivity.
  - destruct (VectorStore.exists_ (metadata_pkl fs)); discriminate.
Qed.

(** C6.  After a successful [build_index] (the embedder giving one row per
    text) the store holds the chunks it was given, their metadata, and an
    index whose rows are the normalized embeddings of their texts; the
    chunk list, the metadata list and the rows of the index are equally
    many, and the two artifacts it wrote hold the same and are equally
    aligned.  After a successful [load_index] the store holds exactly what
    the two artifacts hold, so it is aligned exactly when the artifacts
    are; [load_index] compares nothing.  [search] returns the store it was
    given. *)
Theorem store_alignment `{Collab : Collaborators} (config : Config.t) :
  (forall (fs fs' : FileSystem) (self self' : VectorStore.t) (new_chunks : list Chunk),
     List.length (encode (map content new_chunks)) = List.length new_chunks ->
     VectorStore.build_index fs self new_chunks = Some (fs', self') ->
     Spec.aligned self' /\
     VectorStore.chunks self' = new_chunks /\
     VectorStore.chunk_metadata self' = map metadata new_chunks /\
     exists (ix : IndexFlatIP Score) (data : Pickle),
       VectorStore.index self' = Some ix /\
       ix_rows ix = map normalize_L2 (encode (map content new_chunks)) /\
       ntotal ix = Py.len new_chunks /\
       index_faiss fs' = Stored ix /\ metadata_pkl fs' = Stored data /\
       pkl_chunks data = new_chunks /\
       pkl_metadata data = map metadata new_chunks /\
       Spec.aligned_artifacts ix data) /\
  (forall (fs : FileSystem) (self self' : VectorStore.t),
     VectorStore.load_index fs self = (true, self') ->
     exists (ix : IndexFlatIP Score) (data : Pickle),
       index_faiss fs = Stored ix /\ metadata_pkl fs = Stored data /\
       self' = {| VectorStore.index := Some ix;
                  VectorStore.chunks := pkl_chunks data;
                  VectorStore.chunk_metadata := pkl_metadata data |} /\
       (Spec.aligned_artifacts ix data <-> Spec.aligned self')) /\
  (forall (self self' : VectorStore.t) (query : string) (top_k : option Z)
          (results : list VectorStore.Result),
     VectorStore.search config self query top_k = Some (results, self') ->
     self' = self).
Proof.
  split; [| split].
  - intros fs fs' self self' new_chunks Hrows Hbuild.
    apply build_index_result in Hbuild. destruct Hbuild as (d & -> & Hix & Hdata).
    assert (Hn : Py.len (map normalize_L2 (encode (map content new_chunks)))
                 = Py.len new_chunks).
    { unfold Py.len. rewrite length_map, Hrows. reflexivity. }
    split; [| split; [reflexivity | split; [reflexivity |]]].
    + eexists. split; [reflexivity |]. unfold ntotal. simpl.
      rewrite Hn. split; [reflexivity |].
      unfold Py.len. rewrite length_map. reflexivity.
    + eexists. eexists. split; [reflexivity |]. split; [reflexivity |].
      split; [exact Hn |]. split; [exact Hix |]. split; [exact Hdata |].
      split; [reflexivity |]. split; [reflexivity |].
      unfold Spec.aligned_artifacts, ntotal. simpl. rewrite Hn.
      split; [reflexivity |]. unfold Py.len. rewrite length_map. reflexivity.
  - intros fs self self' Hload.
    apply load_index_success in Hload. destruct Hload as (ix & data & Hix & Hdata & ->).
    exists ix, data. split; [exact Hix |]. split; [exact Hdata |].
    split; [reflexivity |].
    unfold Spec.aligned_artifacts, Spec.aligned. simpl. split.
    + intros [H1 H2]. exists ix. repeat split; assumption.
    + intros (ix' & [= <-] & H1 & H2). split; assumption.
  - intros self self' query top_k results. unfold VectorStore.search.
    destruct (VectorStore.search_results config self query top_k); simpl;
      [| discriminate].
    intros [= _ <-]. reflexivity.
Qed.

(** Witness for C6: building over two chunks, loading the artifacts back
    into a fresh store, and searching. *)
Lemma store_alignment_witness :
  let C := Demo.collaborators false in
  let config := Demo.config false 300 50 true 300 in
  let data := {| pkl_chunks := [Demo.chunk_a; Demo.chunk_b];
                 pkl_metadata := [Demo.meta "RoboWar"; Demo.meta "Dreams"] |} in
  let fs' := @Build_FileSystem C NoDataFile (Stored Demo.index_ab) (Stored data) in
  VectorStore.build_index (Demo.empty_fs false) VectorStore.init
    [Demo.chunk_a; Demo.chunk_b] = Some (fs', Demo.store_ab false) /\
  Spec.aligned (Demo.store_ab false) /\
  VectorStore.load_index fs' VectorStore.init = (true, Demo.store_ab false) /\
  (exists (ix : IndexFlatIP Z) (data : Pickle),
     index_faiss fs' = Stored ix /\ metadata_pkl fs' = Stored data /\
     Demo.store_ab false
     = @VectorStore.Build_t C (Some ix) (pkl_chunks data) (pkl_metadata data) /\
     (Spec.aligned_artifacts ix data <-> Spec.aligned (Demo.store_ab false))) /\
  (forall results self',
     VectorStore.search config (Demo.store_ab false) "robot" (Some 1)
     = Some (results, self') ->
     self' = Demo.store_ab false).
Proof.
  intros C config data fs'.
  assert (Hbuild : VectorStore.build_index (Demo.empty_fs false) VectorStore.init
                     [Demo.chunk_a; Demo.chunk_b] = Some (fs', Demo.store_ab false))
    by reflexivity.
  assert (Hload : VectorStore.load_index fs' VectorStore.init
                  = (true, Demo.store_ab false)) by reflexivity.
  split; [exact Hbuild |]. split; [| split; [exact Hload | split]].
  - exact (proj1 (proj1 (store_alignment config) _ _ _ _
                     [Demo.chunk_a; Demo.chunk_b] eq_refl Hbuild)).
  - exact (proj1 (proj2 (store_alignment config)) _ _ _ Hload).
  - intros results self' Hsearch.
    exact (proj2 (proj2 (store_alignment config)) _ _ _ _ _ Hsearch).
Defined.

(** Counterexample to C6 as stated: an index artifact of two rows next to a
    metadata artifact of one chunk; [load_index] succeeds, and the store
    then holds one chunk and an index of size two. *)
Lemma load_index_accepts_misaligned_artifacts :
  let C := Demo.collaborators false in
  let fs := @Build_FileSystem C NoDataFile (Stored Demo.index_ab)
              (Stored {| pkl_chunks := [Demo.chunk_a];
                         pkl_metadata := [Demo.meta "RoboWar"] |}) in
  exists self' : VectorStore.t,
    VectorStore.load_index fs VectorStore.init = (true, self') /\
    Py.len (VectorStore.chunks self') = 1 /\
    option_map ntotal (VectorStore.index self') = Some 2 /\
    ~ Spec.aligned self'.
Proof.
  intros C fs. eexists. split; [reflexivity |].
  split; [reflexivity |]. split; [reflexivity |].
  intros (ix & Hix & Hchunks & _). simpl in Hix. injection Hix as <-.
  vm_compute in Hchunks. discriminate.
Qed.

(** ** The vector store: search *)

Section Search.
Context `{Collab : Collaborators}.
Variable config : Config.t.
Variable self : VectorStore.t.
Variable top_k : Z.

Let in_range (c : Score * Z) : Prop :=
  0 <= snd c < Py.len (VectorStore.chunks self).

(** The first loop never raises on labels that point into the chunk list;
    it returns at most [top_k] results, and nothing new when every
    candidate misses the threshold. *)
Lemma threshold_loop_bounded (candidates : list (Score * Z))
    (results : list VectorStore.Result) :
  Forall in_range candidates ->
  Py.len results < top_k ->
  exists kept : list VectorStore.Result,
    VectorStore.threshold_loop config self top_k candidates results = Some kept /\
    Py.len kept <= top_k /\
    (forallb (Spec.below_threshold config) candidates = true -> kept = results).
Proof.
  intros Hvalid. revert results.
  induction Hvalid as [| [score idx] rest Hc _ IH]; intros results Hlen.
  - exists results. simpl. split; [reflexivity |]. split; [lia | reflexivity].
  - cbn [VectorStore.threshold_loop]. unfold in_range in Hc. simpl in Hc.
    destruct (Z.ltb_spec idx (Py.len (VectorStore.chunks self))) as [_ | Hge];
      [| lia].
    cbn [andb].
    destruct (score_ge score (Config.SIMILARITY_THRESHOLD config)) eqn:Hscore.
    + destruct (get_in_range (VectorStore.chunks self) idx Hc) as (chunk & Hget & _).
      rewrite Hget. cbn [Py.bind].
      assert (Hlen' : Py.len (results ++ [(chunk, score)]) = Py.len results + 1)
        by (rewrite len_app; reflexivity).
      destruct (Z.geb_spec (Py.len (results ++ [(chunk, score)])) top_k) as [Hfull | Hmore].
      * eexists. split; [reflexivity |]. split; [lia |].
        simpl. unfold Spec.below_threshold at 1. simpl. rewrite Hscore. discriminate.
      * destruct (IH (results ++ [(chunk, score)]) Hmore) as (kept & Hrun & Hk & _).
        exists kept. split; [exact Hrun |]. split; [exact Hk |].
        simpl. unfold Spec.below_threshold at 1. simpl. rewrite Hscore. discriminate.
    + cbn [Py.bind].
      destruct (Z.geb_spec (Py.len results) top_k) as [Hfull | _]; [lia |].
      destruct (IH results Hlen) as (kept & Hrun & Hk & Hbelow).
      exists kept. split; [exact Hrun |]. split; [exact Hk |].
      simpl. unfold Spec.below_threshold at 1. simpl. rewrite Hscore. simpl.
      exact Hbelow.
Qed.

(** The second loop appends the candidates at the positions below
    [top_k], whatever their score. *)
Lemma fallback_loop_raw (candidates : list (Score * Z)) (i : Z)
    (results : list VectorStore.Result) :
  Forall in_range candidates ->
  exists added : list VectorStore.Result,
    VectorStore.fallback_loop self top_k i candidates results
    = Some (results ++ added) /\
    Forall2 (Spec.raw_result self) (firstn (Z.to_nat (top_k - i)) candidates) added.
Proof.
  intros Hvalid. revert i results.
  induction Hvalid as [| [score idx] rest Hc _ IH]; intros i results.
  - exists []. simpl. rewrite app_nil_r, firstn_nil. split; [reflexivity | constructor].
  - cbn [VectorStore.fallback_loop]. unfold in_range in Hc. simpl in Hc.
    destruct (Z.ltb_spec idx (Py.len (VectorStore.chunks self))) as [_ | Hge];
      [| lia].
    cbn [andb].
    destruct (Z.ltb_spec i top_k) as [Hlt | Hge].
    + destruct (get_in_range (VectorStore.chunks self) idx Hc) as (chunk & Hget & _).
      rewrite Hget. cbn [Py.bind].
      destruct (IH (i + 1) (results ++ [(chunk, score)])) as (added & Hrun & Hraw).
      exists ((chunk, score) :: added). split.
      * rewrite Hrun, <- app_assoc. reflexivity.
      * replace (Z.to_nat (top_k - i)) with (S (Z.to_nat (top_k - (i + 1)))) by lia.
        simpl. constructor; [| exact Hraw].
        split; [exact Hget | reflexivity].
    + cbn [Py.bind].
      destruct (IH (i + 1) results) as (added & Hrun & Hraw).
      exists added. split; [exact Hrun |].
      replace (Z.to_nat (top_k - i)) with 0%nat by lia.
      replace (Z.to_nat (top_k - (i + 1))) with 0%nat in Hraw by lia.
      simpl in *. exact Hraw.
Qed.

End Search.

(** C2.  Before an index is built, [search] returns the empty list.  On a
    store whose index is built and aligned with a non-empty chunk list, for
    every query and every [top_k >= 1], with a backend that answers the
    request for [search_k] neighbours by [search_k] candidates labelled
    inside the index: [search] returns a non-empty list of at most [top_k]
    results; and when every candidate misses [SIMILARITY_THRESHOLD], these
    are the first [top_k] raw candidates, in the order of the backend. *)
Theorem search_returns_results_when_built `{Collab : Collaborators}
    (config : Config.t) (self : VectorStore.t) (query : string) (top_k : Z) :
  (VectorStore.index self = None ->
   VectorStore.search_results config self query (Some top_k) = Some []) /\
  (forall (ix : IndexFlatIP Score) (candidates : list (Score * Z)),
     VectorStore.index self = Some ix ->
     Py.len (VectorStore.chunks self) = ntotal ix ->
     VectorStore.chunks self <> [] ->
     1 <= top_k ->
     let search_k := Z.min (top_k * 3) (Py.len (VectorStore.chunks self)) in
     index_search ix (hd [] (map normalize_L2 (encode [query]))) search_k
     = Some candidates ->
     Py.len candidates = search_k ->
     Forall (fun c => 0 <= snd c < ntotal ix) candidates ->
     exists results : list VectorStore.Result,
       VectorStore.search_results config self query (Some top_k) = Some results /\
       results <> [] /\
       Py.len results <= top_k /\
       (forallb (Spec.below_threshold config) candidates = true ->
        Forall2 (Spec.raw_result self) (firstn (Z.to_nat top_k) candidates) results)).
Proof.
  split.
  - intros Hnone. unfold VectorStore.search_results. rewrite Hnone. reflexivity.
  - intros ix candidates Hix Haligned Hchunks Hk search_k Hsearch Hlen Hvalid.
    rewrite <- Haligned in Hvalid.
    assert (Hsome : 1 <= Py.len (VectorStore.chunks self)).
    { destruct (VectorStore.chunks self); [contradiction |].
      unfold Py.len. simpl. lia. }
    unfold VectorStore.search_results. rewrite Hix.
    fold search_k. rewrite Hsearch. cbn [Py.bind].
    destruct (threshold_loop_bounded config self top_k candidates [] Hvalid)
      as (kept & Hrun & Hkept & Hbelow); [unfold Py.len; simpl; lia |].
    rewrite Hrun. cbn [Py.bind].
    destruct kept as [| r kept].
    + destruct (Z.gtb_spec (Py.len candidates) 0) as [_ | Hnone];
        [| subst search_k; lia].
      cbn [VectorStore.is_empty andb].
      destruct (fallback_loop_raw self top_k candidates 0 [] Hvalid)
        as (added & Hfb & Hraw).
      rewrite Z.sub_0_r in Hraw.
      exists added. split; [exact Hfb |].
      assert (Hsame := Forall2_length Hraw).
      rewrite length_firstn in Hsame.
      split; [| split; [| intros _; exact Hraw]].
      * destruct candidates as [| c rest]; [unfold Py.len in Hlen; simpl in Hlen;
                                            subst search_k; lia |].
        intros ->. simpl in Hsame. lia.
      * unfold Py.len. lia.
    + exists (r :: kept). cbn [VectorStore.is_empty andb].
      split; [reflexivity |]. split; [discriminate |]. split; [exact Hkept |].
      intros Hall. specialize (Hbelow Hall). discriminate.
Qed.

(** Witness for C2: the store of two chunks, one neighbour asked for, a
    threshold no score reaches. *)
Lemma search_returns_results_when_built_witness :
  let config := Demo.config false 300 50 true 2000000 in
  exists results : list (Chunk * Z),
    VectorStore.search_results config (Demo.store_ab false) "robot" (Some 1)
    = Some results /\
    results <> [] /\
    Py.len results <= 1 /\
    results = [(Demo.chunk_b, 1000175)].
Proof.
  intros config.
  destruct (proj2 (search_returns_results_when_built config (Demo.store_ab false)
                     "robot" 1)
              Demo.index_ab [(1000175, 1); (1000105, 0)])
    as (results & Hrun & Hne & Hlen & Hraw).
  - reflexivity.
  - reflexivity.
  - discriminate.
  - lia.
  - reflexivity.
  - reflexivity.
  - repeat constructor; simpl; lia.
  - exists results. split; [exact Hrun |]. split; [exact Hne |].
    split; [exact Hlen |].
    specialize (Hraw eq_refl). simpl in Hraw.
    inversion Hraw as [| c r cs rs [Hget Hscore] Hrest]; subst.
    inversion Hrest; subst.
    destruct r as [chunk score]. simpl in Hget, Hscore.
    injection Hget as <-. subst score. reflexivity.
Defined.

(** Counterexample to C2 as stated.  First, [top_k = 0] on an index built
    over one chunk: the backend is asked for zero neighbours, refuses, and
    [search] raises instead of returning candidates.  Second, [top_k = 1] on
    a store built over one chunk whose index was then replaced, by a
    [load_index] that failed on the metadata file, with an index over two
    texts: queried with the second text itself, the best candidate is the
    second row, labelled past the chunk list; both loops skip it, and
    [search] returns the empty list although the index is built.  Third,
    the same for any collaborators: whenever the single candidate of the
    backend is labelled past the chunk list, [search] returns the empty
    list. *)
Lemma search_on_built_index_yields_nothing :
  (exists fs self,
     VectorStore.build_index (Demo.empty_fs true) VectorStore.init [Demo.chunk_a]
     = Some (fs, self) /\
     VectorStore.index self <> None /\
     VectorStore.chunks self = [Demo.chunk_a] /\
     VectorStore.search_results (Demo.config true 300 50 true 300) self "robot" (Some 0)
     = None) /\
  (exists fs self self',
     VectorStore.build_index (Demo.empty_fs true) VectorStore.init [Demo.chunk_a]
     = Some (fs, self) /\
     VectorStore.load_index
       (@Build_FileSystem (Demo.collaborators true) NoDataFile
          (Stored Demo.index_ab) Unreadable) self
     = (false, self') /\
     VectorStore.index self' = Some Demo.index_ab /\
     VectorStore.chunks self' = [Demo.chunk_a] /\
     VectorStore.search_results (Demo.config true 300 50 true 300) self'
       (content Demo.chunk_b) (Some 1)
     = Some []) /\
  (forall (C : Collaborators) (config : @Config.t C) (self : @VectorStore.t C)
          (ix : IndexFlatIP (@Score C)) (query : string) (score : @Score C)
          (label : Z),
     VectorStore.index self = Some ix ->
     index_search ix (hd [] (map normalize_L2 (encode [query])))
       (Z.min (1 * 3) (Py.len (VectorStore.chunks self)))
     = Some [(score, label)] ->
     Py.len (VectorStore.chunks self) <= label ->
     VectorStore.search_results config self query (Some 1) = Some []).
Proof.
  split; [| split].
  - eexists. eexists. split; [reflexivity |].
    split; [discriminate |]. split; reflexivity.
  - eexists. eexists. eexists. split; [reflexivity |]. split; [reflexivity |].
    split; [reflexivity |]. split; reflexivity.
  - intros C config self ix query score label Hix Hanswer Hpast.
    unfold VectorStore.search_results. rewrite Hix, Hanswer.
    cbn [Py.bind VectorStore.threshold_loop VectorStore.fallback_loop].
    destruct (Z.ltb_spec label (Py.len (VectorStore.chunks self))) as [Hin | _];
      [lia |].
    cbn [andb Py.bind]. reflexivity.
Qed.

(** * Further properties of the sources *)

(** ** [chunk_documents] as a whole *)

Section ChunkDocuments.
Context `{Collab : Collaborators}.
Variable config : Config.t.

Lemma chunk_documents_loop_acc (documents : list Document) (chunks : list Chunk) :
  SmartChunker.chunk_documents_loop config documents chunks
  = (rest <- SmartChunker.chunk_documents_loop config documents [] ;;
     Some (chunks ++ rest)).
Proof.
  revert chunks. induction documents as [| doc rest IH]; intros chunks; simpl.
  - rewrite app_nil_r. reflexivity.
  - destruct (SmartChunker._chunk_document config doc) as [doc_chunks |]; simpl;
      [| reflexivity].
    rewrite (IH (chunks ++ doc_chunks)), (IH doc_chunks).
    destruct (SmartChunker.chunk_documents_loop config rest []) as [r |]; simpl;
      [| reflexivity].
    rewrite app_assoc. reflexivity.
Qed.

Lemma chunk_documents_cons (doc : Document) (rest : list Document) :
  SmartChunker.chunk_documents config (doc :: rest)
  = (doc_chunks <- SmartChunker._chunk_document config doc ;;
     others <- SmartChunker.chunk_documents config rest ;;
     Some (doc_chunks ++ others)).
Proof.
  unfold SmartChunker.chunk_documents. simpl.
  destruct (SmartChunker._chunk_document config doc) as [doc_chunks |]; simpl;
    [| reflexivity].
  apply chunk_documents_loop_acc.
Qed.

(** X1.  Chunking a corpus given in two parts: the chunks of the whole are
    the chunks of the first part followed by the chunks of the second, and
    the whole raises exactly when a part does. *)
Theorem chunk_documents_app (first second : list Document) :
  SmartChunker.chunk_documents config (first ++ second)
  = (a <- SmartChunker.chunk_documents config first ;;
     b <- SmartChunker.chunk_documents config second ;;
     Some (a ++ b)).
Proof.
  induction first as [| doc rest IH].
  - simpl. destruct (SmartChunker.chunk_documents config second); reflexivity.
  - change ((doc :: rest) ++ second) with (doc :: (rest ++ second)).
    rewrite !chunk_documents_cons, IH.
    destruct (SmartChunker._chunk_document config doc) as [dc |]; simpl;
      [| reflexivity].
    destruct (SmartChunker.chunk_documents config rest) as [a |]; simpl;
      [| reflexivity].
    destruct (SmartChunker.chunk_documents config second) as [b |]; simpl;
      [| reflexivity].
    rewrite app_assoc. reflexivity.
Qed.

(** X2.  A corpus in which no document has more than [CHUNK_SIZE] words is
    chunked into one chunk per document, in order: the whole content,
    unchanged, under the id [title_0], whatever the strategy and the
    overlap. *)
Theorem short_documents_one_chunk_each (documents : list Document) :
  Forall (fun d => Py.len (Py.split (doc_content d)) <= Config.CHUNK_SIZE config)
    documents ->
  SmartChunker.chunk_documents config documents
  = Some (map (fun d => {| content := doc_content d;
                           metadata := doc_metadata d;
                           chunk_id := (md_title (doc_metadata d) ++ "_0")%string |})
            documents).
Proof.
  induction 1 as [| doc rest Hshort _ IH]; [reflexivity |].
  rewrite chunk_documents_cons, IH.
  unfold SmartChunker._chunk_document.
  destruct (Z.leb_spec (Py.len (Py.split (doc_content doc)))
              (Config.CHUNK_SIZE config)) as [_ | H]; [| lia].
  reflexivity.
Qed.

Lemma fixed_size_loop_made (words : list string) (document : Document)
    (starts : list Z) (chunks result : list Chunk) :
  SmartChunker.fixed_size_loop config words document starts chunks = Some result ->
  exists added : list Chunk,
    result = chunks ++ added /\
    Forall (fun c => metadata c = doc_metadata document) added.
Proof.
  revert chunks. induction starts as [| i rest IH]; intros chunks; simpl.
  - intros [= <-]. exists []. rewrite app_nil_r. split; [reflexivity | constructor].
  - destruct (Py.floordiv i (Config.CHUNK_SIZE config)) as [n |]; simpl;
      [| discriminate].
    destruct (i + Config.CHUNK_SIZE config >=? Py.len words).
    + intros [= <-]. eexists. split; [reflexivity |].
      constructor; [reflexivity | constructor].
    + intros Hrun. apply IH in Hrun. destruct Hrun as (added & -> & Hall).
      eexists. split; [rewrite <- app_assoc; reflexivity |].
      constructor; [reflexivity | exact Hall].
Qed.

Lemma number_from_metadata (document : Document) (start : nat)
    (groups : list (list string)) :
  Forall (fun c => metadata c = doc_metadata document)
    (Spec.number_from document start groups).
Proof.
  revert start. induction groups as [| g rest IH]; intros start; simpl;
    constructor; [reflexivity | apply IH].
Qed.

Lemma chunk_document_metadata (document : Document) (chunks : list Chunk) :
  SmartChunker._chunk_document config document = Some chunks ->
  Forall (fun c => metadata c = doc_metadata document) chunks.
Proof.
  unfold SmartChunker._chunk_document.
  destruct (Py.len (Py.split (doc_content document)) <=? Config.CHUNK_SIZE config).
  - intros [= <-]. constructor; [reflexivity | constructor].
  - destruct (Config.SMART_CHUNKING config).
    + intros [= <-]. unfold SmartChunker._semantic_chunking.
      rewrite semantic_loop_groups. simpl. apply number_from_metadata.
    + unfold SmartChunker._fixed_size_chunking.
      destruct (Py.range 0 (Py.len (Py.split (doc_content document)))
                  (Config.CHUNK_SIZE config - Config.CHUNK_OVERLAP config))
        as [starts |]; simpl; [| discriminate].
      intros Hrun. apply fixed_size_loop_made in Hrun.
      destruct Hrun as (added & -> & Hall). exact Hall.
Qed.

(** X3.  Every chunk that [chunk_documents] returns carries the metadata
    (title, year, genres) of one of the documents it was given. *)
Theorem chunks_carry_document_metadata (documents : list Document)
    (chunks : list Chunk) :
  SmartChunker.chunk_documents config documents = Some chunks ->
  forall c : Chunk, In c chunks ->
    exists d : Document, In d documents /\ metadata c = doc_metadata d.
Proof.
  revert chunks. induction documents as [| doc rest IH]; intros chunks.
  - intros [= <-] c [].
  - rewrite chunk_documents_cons.
    destruct (SmartChunker._chunk_document config doc) as [dc |] eqn:Hdoc; simpl;
      [| discriminate].
    destruct (SmartChunker.chunk_documents config rest) as [others |]; simpl;
      [| discriminate].
    intros [= <-] c Hin. apply in_app_or in Hin. destruct Hin as [Hin | Hin].
    + exists doc. split; [left; reflexivity |].
      apply chunk_document_metadata in Hdoc.
      rewrite Forall_forall in Hdoc. apply Hdoc. exact Hin.
    + destruct (IH others eq_refl c Hin) as (d & Hd & Hmeta).
      exists d. split; [right; exact Hd | exact Hmeta].
Qed.

(** X4.  A document of more than [CHUNK_SIZE] words under the fixed-size
    strategy with an overlap that is not smaller than the chunk size: with
    [CHUNK_OVERLAP = CHUNK_SIZE] the stride is zero and chunking raises
    ([range] refuses a zero step); with [CHUNK_OVERLAP > CHUNK_SIZE] the
    stride is negative, the range is empty, and the document yields no
    chunk at all. *)
Theorem fixed_size_with_invalid_overlap (document : Document) :
  Config.SMART_CHUNKING config = false ->
  Config.CHUNK_SIZE config < Py.len (Py.split (doc_content document)) ->
  (Config.CHUNK_OVERLAP config = Config.CHUNK_SIZE config ->
   SmartChunker._chunk_document config document = None) /\
  (Config.CHUNK_SIZE config < Config.CHUNK_OVERLAP config ->
   SmartChunker._chunk_document config document = Some []).
Proof.
  intros Hfixed Hlong.
  assert (Hdispatch :
            SmartChunker._chunk_document config document
            = SmartChunker._fixed_size_chunking config (doc_content document) document).
  { unfold SmartChunker._chunk_document.
    destruct (Z.leb_spec (Py.len (Py.split (doc_content document)))
                (Config.CHUNK_SIZE config)) as [H | H]; [lia |].
    rewrite Hfixed. reflexivity. }
  rewrite Hdispatch. unfold SmartChunker._fixed_size_chunking, Py.range.
  split; intros Hov.
  - rewrite Hov, Z.sub_diag. reflexivity.
  - set (n := Py.len (Py.split (doc_content document))) in *.
    set (step := Config.CHUNK_SIZE config - Config.CHUNK_OVERLAP config).
    assert (Hn : 0 <= n) by apply len_nonneg.
    destruct (Z.eqb_spec step 0) as [H0 | _]; [subst step; lia |].
    destruct (Z.ltb_spec 0 step) as [Hpos | _]; [subst step; lia |].
    assert (Hcount : (0 - n - step - 1) / - step <= 0).
    { assert (Hs : 0 < - step) by (subst step; lia).
      destruct (Z_le_gt_dec 0 (0 - n - step - 1)) as [Hnum | Hnum].
      - rewrite Z.div_small by lia. lia.
      - pose proof (Z.div_lt_upper_bound (0 - n - step - 1) (- step) 1 Hs) as Hub.
        lia. }
    replace (Z.to_nat ((0 - n - step - 1) / - step)) with 0%nat by lia.
    reflexivity.
Qed.

End ChunkDocuments.

(** Witness for X2: two short documents under the default sizes. *)
Lemma short_documents_one_chunk_each_witness :
  SmartChunker.chunk_documents (Demo.config false 300 50 true 300)
    [Demo.document "RoboWar" "A robot fights crime.";
     Demo.document "Dreams" "A dreamer wakes up."]
  = Some [ {| content := "A robot fights crime."; metadata := Demo.meta "RoboWar";
              chunk_id := "RoboWar_0" |};
           {| content := "A dreamer wakes up."; metadata := Demo.meta "Dreams";
              chunk_id := "Dreams_0" |} ].
Proof.
  apply (short_documents_one_chunk_each (Demo.config false 300 50 true 300)
           [Demo.document "RoboWar" "A robot fights crime.";
            Demo.document "Dreams" "A dreamer wakes up."]).
  repeat constructor; vm_compute; discriminate.
Defined.

(** Witness for X3: a short and a long document, fixed-size strategy. *)
Lemma chunks_carry_document_metadata_witness :
  let config := Demo.config false 3 1 false 300 in
  let documents := [Demo.document "A" "one two"; Demo.document "B" "a b c d e f g"] in
  exists chunks : list Chunk,
    SmartChunker.chunk_documents config documents = Some chunks /\
    List.length chunks = 4%nat /\
    forall c : Chunk, In c chunks ->
      exists d : Document, In d documents /\ metadata c = doc_metadata d.
Proof.
  intros config documents. eexists. split; [reflexivity |].
  split; [reflexivity |].
  apply (chunks_carry_document_metadata config documents). reflexivity.
Defined.

(** Witness for X4: three words per chunk, seven words, overlap three and
    overlap five. *)
Lemma fixed_size_with_invalid_overlap_witness :
  SmartChunker._chunk_document (Demo.config false 3 3 false 300)
    (Demo.document "T" "a b c d e f g") = None /\
  SmartChunker._chunk_document (Demo.config false 3 5 false 300)
    (Demo.document "T" "a b c d e f g") = Some [].
Proof.
  split.
  - apply (proj1 (fixed_size_with_invalid_overlap (Demo.config false 3 3 false 300)
                    (Demo.document "T" "a b c d e f g") eq_refl
                    ltac:(vm_compute; reflexivity))).
    reflexivity.
  - apply (proj2 (fixed_size_with_invalid_overlap (Demo.config false 3 5 false 300)
                    (Demo.document "T" "a b c d e f g") eq_refl
                    ltac:(vm_compute; reflexivity))).
    vm_compute. reflexivity.
Defined.

(** ** More on the fixed-size strategy *)

Lemma firstn_add {A : Type} (a b : nat) (l : list A) :
  firstn (a + b) l = firstn a l ++ firstn b (skipn a l).
Proof.
  revert l. induction a as [| a IH]; intros l; simpl.
  - reflexivity.
  - destruct l as [| x l]; simpl.
    + rewrite firstn_nil. reflexivity.
    + rewrite IH. reflexivity.
Qed.

(** Consecutive windows of [s] elements, laid end to end. *)
Lemma concat_windows {A : Type} (s b cnt : nat) (l : list A) :
  List.concat (map (fun j => firstn s (skipn (b + j * s) l)) (seq 0 cnt))
  = firstn (cnt * s) (skipn b l).
Proof.
  induction cnt as [| cnt IH].
  - reflexivity.
  - rewrite seq_S, map_app, concat_app, IH. simpl.
    rewrite app_nil_r.
    replace (s + cnt * s)%nat with (cnt * s + s)%nat by lia.
    rewrite firstn_add, skipn_skipn.
    replace (cnt * s + b)%nat with (b + cnt * s)%nat by lia.
    reflexivity.
Qed.

Section FixedSizeMore.
Context `{Collab : Collaborators}.
Variable config : Config.t.
Variable document : Document.

Hypothesis valid_overlap : 0 < Config.CHUNK_OVERLAP config < Config.CHUNK_SIZE config.
Hypothesis fixed : Config.SMART_CHUNKING config = false.
Hypothesis long : Config.CHUNK_SIZE config < Py.len (Py.split (doc_content document)).

(** The word lists of the emitted chunks, as windows over the words of the
    document, in natural numbers. *)
Lemma fixed_size_chunk_words :
  exists (chunks : list Chunk) (m : nat),
    SmartChunker._chunk_document config document = Some chunks /\
    (2 <= m)%nat /\
    map (fun c => Py.split (content c)) chunks
    = map (fun k => firstn (Z.to_nat (Config.CHUNK_SIZE config))
                      (skipn (k * Z.to_nat (Config.CHUNK_SIZE config
                                            - Config.CHUNK_OVERLAP config))
                         (Py.split (doc_content document))))
        (seq 0 m) /\
    (forall k : nat, (k + 1 < m)%nat ->
       (k * Z.to_nat (Config.CHUNK_SIZE config - Config.CHUNK_OVERLAP config)
        + Z.to_nat (Config.CHUNK_SIZE config)
        < List.length (Py.split (doc_content document)))%nat) /\
    (List.length (Py.split (doc_content document))
     <= (m - 1) * Z.to_nat (Config.CHUNK_SIZE config - Config.CHUNK_OVERLAP config)
        + Z.to_nat (Config.CHUNK_SIZE config))%nat.
Proof.
  destruct (fixed_size_chunking_windows config document _ valid_overlap eq_refl long)
    as (m & Hm & Hrun & Hfull & Hlast).
  exists (map (Spec.window_chunk config document (Py.split (doc_content document)))
            (Spec.starts_from config 0 m)), m.
  split; [rewrite chunk_document_fixed by assumption; exact Hrun |].
  split; [exact Hm |]. split; [| split].
  - unfold Spec.starts_from. rewrite !map_map. apply map_ext. intros k.
    rewrite (window_chunk_words config document _ valid_overlap eq_refl) by nia.
    do 2 f_equal. rewrite Z2Nat.inj_mul by lia. rewrite Nat2Z.id. reflexivity.
  - intros k Hk. specialize (Hfull k Hk). unfold Py.len in Hfull. nia.
  - unfold Py.len in Hlast. nia.
Qed.

(** X5.  Under a valid configuration the fixed-size strategy cuts a long
    document into at least two chunks; every chunk has at least one and at
    most [CHUNK_SIZE] words, and every chunk but the last has exactly
    [CHUNK_SIZE] words. *)
Theorem fixed_size_chunk_lengths :
  exists chunks : list Chunk,
    SmartChunker._chunk_document config document = Some chunks /\
    (2 <= List.length chunks)%nat /\
    (forall c : Chunk, In c chunks ->
       1 <= Py.len (Py.split (content c)) <= Config.CHUNK_SIZE config) /\
    (forall (k : nat) (c : Chunk),
       nth_error chunks k = Some c -> (S k < List.length chunks)%nat ->
       Py.len (Py.split (content c)) = Config.CHUNK_SIZE config).
Proof.
  destruct fixed_size_chunk_words as (chunks & m & Hrun & Hm & Hwords & Hfull & Hlast).
  set (size := Z.to_nat (Config.CHUNK_SIZE config)) in *.
  set (stride := Z.to_nat (Config.CHUNK_SIZE config - Config.CHUNK_OVERLAP config)) in *.
  set (words := Py.split (doc_content document)) in *.
  assert (Hcount : List.length chunks = m).
  { rewrite <- (length_map (fun c => Py.split (content c))), Hwords.
    rewrite length_map, length_seq. reflexivity. }
  assert (Hnth : forall k c, nth_error chunks k = Some c ->
            (k < m)%nat /\
            Py.split (content c) = firstn size (skipn (k * stride) words)).
  { intros k c Hc.
    assert (Hk : (k < m)%nat)
      by (rewrite <- Hcount; apply nth_error_Some; rewrite Hc; discriminate).
    split; [exact Hk |].
    pose proof (f_equal (fun l => nth_error l k) Hwords) as Hk'. simpl in Hk'.
    rewrite !nth_error_map, Hc, nth_error_seq in Hk'.
    destruct (Nat.ltb_spec k m) as [_ | Hge]; [| lia]. simpl in Hk'.
    injection Hk' as ->. reflexivity. }
  assert (Hstride : (0 < stride /\ stride < size)%nat) by (subst stride size; lia).
  exists chunks. split; [exact Hrun |]. split; [lia |]. split.
  - intros c Hin. apply In_nth_error in Hin. destruct Hin as (k & Hc).
    destruct (Hnth k c Hc) as (Hk & ->).
    unfold Py.len. rewrite length_firstn, length_skipn.
    assert (k * stride < List.length words)%nat.
    { destruct (Nat.eq_dec k 0) as [-> | Hk0]; [unfold Py.len in long; lia |].
      specialize (Hfull (k - 1)%nat ltac:(lia)).
      replace (k * stride)%nat with ((k - 1) * stride + stride)%nat by nia. lia. }
    subst size. lia.
  - intros k c Hc Hnext. destruct (Hnth k c Hc) as (Hk & ->).
    specialize (Hfull k ltac:(lia)).
    unfold Py.len. rewrite length_firstn, length_skipn. subst size. lia.
Qed.

(** X6.  Under a valid configuration the fixed-size chunks of a long
    document glue back to the document: the words of the first chunk,
    followed by the words of every later chunk without its first
    [CHUNK_OVERLAP] words, are the words of the content, in order. *)
Theorem fixed_size_chunks_rebuild_words :
  exists chunks : list Chunk,
    SmartChunker._chunk_document config document = Some chunks /\
    Vocabulary.merge_overlapping (Z.to_nat (Config.CHUNK_OVERLAP config))
      (map (fun c => Py.split (content c)) chunks)
    = Py.split (doc_content document).
Proof.
  destruct fixed_size_chunk_words as (chunks & m & Hrun & Hm & Hwords & Hfull & Hlast).
  exists chunks. split; [exact Hrun |]. rewrite Hwords.
  set (size := Z.to_nat (Config.CHUNK_SIZE config)) in *.
  set (stride := Z.to_nat (Config.CHUNK_SIZE config - Config.CHUNK_OVERLAP config)) in *.
  set (overlap := Z.to_nat (Config.CHUNK_OVERLAP config)).
  set (words := Py.split (doc_content document)) in *.
  assert (Hsize : size = (stride + overlap)%nat) by (subst size stride overlap; lia).
  destruct m as [| m]; [lia |].
  cbn [seq map Vocabulary.merge_overlapping].
  rewrite <- seq_shift, !map_map.
  rewrite (map_ext _ (fun j => firstn stride (skipn (size + j * stride) words))).
  - rewrite concat_windows. simpl skipn.
    rewrite <- firstn_add. apply firstn_all2.
    replace (S m - 1)%nat with m in Hlast by lia. lia.
  - intros j. rewrite skipn_firstn_comm, skipn_skipn.
    f_equal; [lia | f_equal; nia].
Qed.

End FixedSizeMore.

(** Witness for X5: three words per chunk, one word of overlap, seven
    words. *)
Lemma fixed_size_chunk_lengths_witness :
  exists chunks : list Chunk,
    SmartChunker._chunk_document (Demo.config false 3 1 false 300)
      (Demo.document "T" "a b c d e f g") = Some chunks /\
    (2 <= List.length chunks)%nat /\
    (forall c : Chunk, In c chunks -> 1 <= Py.len (Py.split (content c)) <= 3) /\
    (forall (k : nat) (c : Chunk),
       nth_error chunks k = Some c -> (S k < List.length chunks)%nat ->
       Py.len (Py.split (content c)) = 3).
Proof.
  apply (fixed_size_chunk_lengths (Demo.config false 3 1 false 300)
           (Demo.document "T" "a b c d e f g")).
  - simpl. lia.
  - reflexivity.
  - vm_compute. reflexivity.
Defined.

(** Witness for X6: the same document. *)
Lemma fixed_size_chunks_rebuild_words_witness :
  exists chunks : list Chunk,
    SmartChunker._chunk_document (Demo.config false 3 1 false 300)
      (Demo.document "T" "a b c d e f g") = Some chunks /\
    Vocabulary.merge_overlapping 1 (map (fun c => Py.split (content c)) chunks)
    = ["a"; "b"; "c"; "d"; "e"; "f"; "g"].
Proof.
  apply (fixed_size_chunks_rebuild_words (Demo.config false 3 1 false 300)
           (Demo.document "T" "a b c d e f g")).
  - simpl. lia.
  - reflexivity.
  - vm_compute. reflexivity.
Defined.

(** ** More on the sentence-aware strategy *)

Lemma free_of_empty (p : ascii -> bool) : Vocabulary.free_of p EmptyString.
Proof. intros c []. Qed.

Lemma free_of_cons (p : ascii -> bool) (c : ascii) (s : string) :
  p c = false -> Vocabulary.free_of p s -> Vocabulary.free_of p (String c s).
Proof. intros Hc Hs d [<- | Hd]; [exact Hc | exact (Hs d Hd)]. Qed.

Lemma free_of_inv (p : ascii -> bool) (c : ascii) (s : string) :
  Vocabulary.free_of p (String c s) -> p c = false /\ Vocabulary.free_of p s.
Proof.
  intros H. split; [apply H; left; reflexivity |].
  intros d Hd. apply H. right. exact Hd.
Qed.

Lemma free_of_append (p : ascii -> bool) (s t : string) :
  Vocabulary.free_of p s -> Vocabulary.free_of p t ->
  Vocabulary.free_of p (s ++ t)%string.
Proof.
  induction s as [| c s IH]; intros Hs Ht; simpl; [exact Ht |].
  apply free_of_inv in Hs. destruct Hs as [Hc Hs].
  apply free_of_cons; [exact Hc | apply IH; assumption].
Qed.

Lemma free_of_lstrip (p : ascii -> bool) (s : string) :
  Vocabulary.free_of p s -> Vocabulary.free_of p (Py.lstrip s).
Proof.
  induction s as [| c s IH]; intros H; simpl; [exact H |].
  destruct (Py.is_space c); [| exact H].
  apply IH. apply free_of_inv in H. apply H.
Qed.

Lemma free_of_rstrip (p : ascii -> bool) (s : string) :
  Vocabulary.free_of p s -> Vocabulary.free_of p (Py.rstrip s).
Proof.
  induction s as [| c s IH]; intros H; simpl; [exact H |].
  apply free_of_inv in H. destruct H as [Hc Hs]. specialize (IH Hs).
  destruct (Py.rstrip s) as [| d r].
  - destruct (Py.is_space c); [apply free_of_empty |].
    apply free_of_cons; [exact Hc | apply free_of_empty].
  - apply free_of_cons; assumption.
Qed.

Lemma free_of_strip (p : ascii -> bool) (s : string) :
  Vocabulary.free_of p s -> Vocabulary.free_of p (Py.strip s).
Proof. intros H. apply free_of_rstrip, free_of_lstrip, H. Qed.

Lemma re_split_run_free (cls : ascii -> bool) (in_run : bool) (s : string) :
  Forall (Vocabulary.free_of cls) (Py.re_split_run cls in_run s).
Proof.
  revert in_run. induction s as [| c r IH]; intros in_run; simpl.
  - constructor; [apply free_of_empty | constructor].
  - destruct (cls c) eqn:Ec.
    + destruct in_run; [apply IH |].
      constructor; [apply free_of_empty | apply IH].
    + specialize (IH false).
      destruct (Py.re_split_run cls false r) as [| f fs]; simpl.
      * constructor; [| constructor].
        apply free_of_cons; [exact Ec | apply free_of_empty].
      * inversion IH; subst. constructor; [| assumption].
        apply free_of_cons; assumption.
Qed.

Lemma rstrip_idempotent (s : string) : Py.rstrip (Py.rstrip s) = Py.rstrip s.
Proof.
  induction s as [| c r IH]; simpl; [reflexivity |].
  destruct (Py.rstrip r) as [| d r'] eqn:Er.
  - destruct (Py.is_space c) eqn:Ec; simpl; [reflexivity |].
    rewrite Ec. reflexivity.
  - simpl. simpl in IH. rewrite IH. reflexivity.
Qed.

Lemma lstrip_starts_clean (s : string) : Vocabulary.starts_clean (Py.lstrip s).
Proof.
  induction s as [| c r IH]; simpl; [exact I |].
  destruct (Py.is_space c) eqn:Ec; [exact IH | exact Ec].
Qed.

Lemma rstrip_starts_clean (s : string) :
  Vocabulary.starts_clean s -> Vocabulary.starts_clean (Py.rstrip s).
Proof.
  destruct s as [| c r]; simpl; [trivial |].
  intros Hc. destruct (Py.rstrip r); [rewrite Hc |]; exact Hc.
Qed.

Lemma lstrip_of_clean (s : string) : Vocabulary.starts_clean s -> Py.lstrip s = s.
Proof.
  destruct s as [| c r]; simpl; [reflexivity |].
  intros ->. reflexivity.
Qed.

(** [s.strip().strip() == s.strip()] *)
Lemma strip_idempotent (s : string) : Py.strip (Py.strip s) = Py.strip s.
Proof.
  unfold Py.strip.
  rewrite (lstrip_of_clean (Py.rstrip (Py.lstrip s)))
    by apply rstrip_starts_clean, lstrip_starts_clean.
  apply rstrip_idempotent.
Qed.

(** The sentences are not empty and hold no sentence terminator. *)
Lemma split_sentences_free (text : string) :
  Forall (fun s => s <> EmptyString /\
                   Vocabulary.free_of SmartChunker.is_terminal s)
    (SmartChunker.split_sentences text).
Proof.
  unfold SmartChunker.split_sentences, Py.re_split_class_plus.
  pose proof (re_split_run_free SmartChunker.is_terminal false text) as Hfree.
  induction Hfree as [| piece pieces Hpiece _ IH]; simpl; [constructor |].
  destruct (Py.nonempty (Py.strip piece)) eqn:Hne; [| exact IH].
  simpl. constructor; [| exact IH]. split.
  - destruct (Py.strip piece); discriminate.
  - apply free_of_strip, Hpiece.
Qed.

(** X7.  The sentences [_semantic_chunking] works with: none is empty, none
    contains a [.], a [!] or a [?], and none has whitespace at either end
    (stripping it again changes nothing). *)
Theorem split_sentences_clean (text : string) :
  Forall (fun s => s <> EmptyString /\
                   Vocabulary.free_of SmartChunker.is_terminal s /\
                   Py.strip s = s /\
                   Vocabulary.starts_clean s)
    (SmartChunker.split_sentences text).
Proof.
  unfold SmartChunker.split_sentences, Py.re_split_class_plus.
  pose proof (re_split_run_free SmartChunker.is_terminal false text) as Hfree.
  induction Hfree as [| piece pieces Hpiece _ IH]; simpl; [constructor |].
  destruct (Py.nonempty (Py.strip piece)) eqn:Hne; [| exact IH].
  simpl. constructor; [| exact IH].
  split; [| split; [| split]].
  - destruct (Py.strip piece); discriminate.
  - apply free_of_strip, Hpiece.
  - apply strip_idempotent.
  - apply rstrip_starts_clean, lstrip_starts_clean.
Qed.

Section SemanticMore.
Context `{Collab : Collaborators}.
Variable config : Config.t.

Lemma sum_snoc (l : list Z) (x : Z) : Py.sum (l ++ [x]) = Py.sum l + x.
Proof. unfold Py.sum. rewrite fold_left_app. reflexivity. Qed.

(** The loop closes a chunk only when it holds a sentence. *)
Lemma groups_loop_nonempty (sentences current_chunk : list string)
    (current_length : Z) :
  current_length = Py.sum (map SmartChunker.word_count current_chunk) ->
  Forall (fun g => g <> [])
    (SmartChunker.sentence_groups_loop config sentences [] current_chunk
       current_length).
Proof.
  revert current_chunk current_length.
  induction sentences as [| s rest IH]; intros cur l Hl; simpl.
  - destruct cur; [constructor | constructor; [discriminate | constructor]].
  - destruct (SmartChunker.must_close config l (SmartChunker.word_count s)) eqn:Hclose.
    + rewrite (sentence_groups_loop_acc config rest [cur]). simpl.
      constructor.
      * intros ->. unfold SmartChunker.must_close in Hclose.
        apply andb_prop in Hclose. destruct Hclose as [_ Hpos].
        subst l. simpl in Hpos. discriminate.
      * apply IH. rewrite map_app. cbn [map]. rewrite sum_snoc. reflexivity.
    + apply IH. rewrite map_app. cbn [map]. rewrite sum_snoc, Hl. reflexivity.
Qed.

Lemma groups_loop_count (sentences current_chunk : list string)
    (current_length : Z) :
  (List.length (SmartChunker.sentence_groups_loop config sentences []
                  current_chunk current_length)
   <= List.length sentences + 1)%nat.
Proof.
  revert current_chunk current_length.
  induction sentences as [| s rest IH]; intros cur l; simpl.
  - destruct cur; simpl; lia.
  - destruct (SmartChunker.must_close config l (SmartChunker.word_count s)).
    + rewrite (sentence_groups_loop_acc config rest [cur]). simpl.
      specialize (IH (SmartChunker.overlap_of cur ++ [s])
                    (Py.sum (map SmartChunker.word_count
                               (SmartChunker.overlap_of cur))
                     + SmartChunker.word_count s)).
      lia.
    + specialize (IH (cur ++ [s]) (l + SmartChunker.word_count s)). lia.
Qed.

Lemma groups_loop_flushes (sentences current_chunk : list string)
    (current_length : Z) :
  current_chunk <> [] ->
  SmartChunker.sentence_groups_loop config sentences [] current_chunk current_length
  <> [].
Proof.
  revert current_chunk current_length.
  induction sentences as [| s rest IH]; intros cur l Hcur; simpl.
  - destruct cur; [contradiction | discriminate].
  - destruct (SmartChunker.must_close config l (SmartChunker.word_count s)).
    + rewrite (sentence_groups_loop_acc config rest [cur]). discriminate.
    + apply IH. destruct cur; discriminate.
Qed.

(** X8.  The sentence-aware strategy emits no chunk for a text without
    sentences, and otherwise at least one chunk and at most as many chunks
    as the text has sentences. *)
Theorem semantic_chunk_count (text : string) (document : Document) :
  let sentences := List.length (SmartChunker.split_sentences text) in
  let chunks := List.length (SmartChunker._semantic_chunking config text document) in
  (chunks <= sentences)%nat /\ (sentences = 0%nat <-> chunks = 0%nat).
Proof.
  cbv zeta. unfold SmartChunker._semantic_chunking.
  rewrite semantic_loop_groups. cbn [app List.length].
  rewrite <- (length_map chunk_id), number_from_ids, length_map, length_seq.
  destruct (SmartChunker.split_sentences text) as [| s rest]; [simpl; lia |].
  cbn [SmartChunker.sentence_groups_loop].
  unfold SmartChunker.must_close. rewrite andb_false_r. cbn [app].
  pose proof (groups_loop_count rest [s] (0 + SmartChunker.word_count s)) as Hmax.
  pose proof (groups_loop_flushes rest [s] (0 + SmartChunker.word_count s)
                ltac:(discriminate)) as Hmin.
  destruct (SmartChunker.sentence_groups_loop config rest [] [s]
              (0 + SmartChunker.word_count s)) as [| g gs];
    [contradiction |].
  simpl in *. split; [lia |]. split; discriminate.
Qed.

Lemma join_free (p : ascii -> bool) (l : list string) :
  p " "%char = false ->
  Forall (Vocabulary.free_of p) l ->
  Vocabulary.free_of p (Py.join " " l).
Proof.
  intros Hsp Hall. induction Hall as [| x rest Hx Hrest IH].
  - apply free_of_empty.
  - destruct rest as [| y rest'].
    + exact Hx.
    + change (Py.join " " (x :: y :: rest'))
        with (x ++ String " " (Py.join " " (y :: rest')))%string.
      apply free_of_append; [exact Hx |].
      apply free_of_cons; [exact Hsp | exact IH].
Qed.

Lemma join_nonempty (l : list string) :
  l <> [] -> Forall (fun s => s <> EmptyString) l ->
  Py.join " " l <> EmptyString.
Proof.
  intros Hl Hall. destruct Hall as [| x rest Hx _]; [contradiction |].
  destruct rest as [| y rest'].
  - exact Hx.
  - change (Py.join " " (x :: y :: rest'))
      with (x ++ String " " (Py.join " " (y :: rest')))%string.
    destruct x; [contradiction | discriminate].
Qed.

Lemma number_from_in (document : Document) (start : nat)
    (groups : list (list string)) (c : Chunk) :
  In c (Spec.number_from document start groups) ->
  exists g : list string, In g groups /\ content c = Py.join " " g.
Proof.
  revert start. induction groups as [| g rest IH]; intros start; simpl.
  - intros [].
  - intros [<- | Hin].
    + exists g. split; [left; reflexivity | reflexivity].
    + destruct (IH _ Hin) as (g' & Hg & Hc). exists g'. split; [right |]; assumption.
Qed.

(** X9.  No chunk of the sentence-aware strategy has an empty text, and no
    chunk text contains a [.], a [!] or a [?]: the sentence terminators of
    the document are not kept. *)
Theorem semantic_chunk_texts (text : string) (document : Document) (c : Chunk) :
  In c (SmartChunker._semantic_chunking config text document) ->
  content c <> EmptyString /\
  Vocabulary.free_of SmartChunker.is_terminal (content c).
Proof.
  unfold SmartChunker._semantic_chunking. rewrite semantic_loop_groups.
  cbn [app List.length]. intros Hin.
  apply number_from_in in Hin. destruct Hin as (g & Hg & ->).
  assert (Hne : g <> []).
  { pose proof (groups_loop_nonempty (SmartChunker.split_sentences text) [] 0 eq_refl)
      as Hall.
    rewrite Forall_forall in Hall. apply Hall. exact Hg. }
  destruct (groups_are_runs config _ [] [] 0 g Hg) as (pre & post & Hrun).
  simpl in Hrun.
  pose proof (split_sentences_free text) as Hclean. rewrite Hrun in Hclean.
  apply Forall_app in Hclean. destruct Hclean as [_ Hclean].
  apply Forall_app in Hclean. destruct Hclean as [Hclean _].
  split.
  - apply join_nonempty; [exact Hne |].
    eapply Forall_impl; [| exact Hclean]. intros s Hs. apply Hs.
  - apply join_free; [reflexivity |].
    eapply Forall_impl; [| exact Hclean]. intros s Hs. apply Hs.
Qed.

End SemanticMore.

(** Witness for X9: four words per chunk and a text of five sentences. *)
Lemma semantic_chunk_texts_witness :
  let config := Demo.config false 4 1 true 300 in
  let text := "a b c. d e! f g h? i j k l m n.  o." in
  let c := {| content := "d e f g h i j k l m n"; metadata := Demo.meta "T";
              chunk_id := "T_3" |} in
  In c (SmartChunker._semantic_chunking config text (Demo.document "T" text)) /\
  content c <> EmptyString /\
  Vocabulary.free_of SmartChunker.is_terminal (content c).
Proof.
  intros config text c.
  assert (Hin : In c (SmartChunker._semantic_chunking config text
                        (Demo.document "T" text))).
  { vm_compute. right. right. right. left. reflexivity. }
  split; [exact Hin |].
  exact (semantic_chunk_texts config text (Demo.document "T" text) c Hin).
Defined.

(** C10.  [CHUNK_SIZE] does not bound the chunks of the sentence-aware
    strategy.  A long document that consists of one sentence of more than
    [CHUNK_SIZE] words is emitted as a single chunk holding that sentence.
    With [SMART_CHUNKING] on, the chunks of a long document are those of
    [_semantic_chunking], and the text of every chunk it emits is a run of
    whole consecutive sentences of the document joined by spaces: a chunk is
    closed between two sentences, never inside one.  Under the default
    configuration a document of one sentence of 301 words gives one chunk of
    more than [CHUNK_SIZE = 300] words. *)
Theorem semantic_chunk_exceeds_chunk_size `{Collab : Collaborators}
    (config : Config.t) :
  (forall (document : Document) (s : string),
     Config.SMART_CHUNKING config = true ->
     Config.CHUNK_SIZE config < Py.len (Py.split (doc_content document)) ->
     SmartChunker.split_sentences (doc_content document) = [s] ->
     Config.CHUNK_SIZE config < SmartChunker.word_count s ->
     exists c : Chunk,
       SmartChunker._chunk_document config document = Some [c] /\
       content c = s /\
       Config.CHUNK_SIZE config < Py.len (Py.split (content c))) /\
  (forall document : Document,
     Config.SMART_CHUNKING config = true ->
     Config.CHUNK_SIZE config < Py.len (Py.split (doc_content document)) ->
     SmartChunker._chunk_document config document
     = Some (SmartChunker._semantic_chunking config (doc_content document) document)) /\
  (forall (text : string) (document : Document) (c : Chunk),
     In c (SmartChunker._semantic_chunking config text document) ->
     exists pre g post : list string,
       SmartChunker.split_sentences text = pre ++ g ++ post /\
       g <> [] /\
       content c = Py.join " " g) /\
  (exists c : Chunk,
     SmartChunker._chunk_document Config.default
       (Demo.document "T" (Demo.repeat_word "w" 301)) = Some [c] /\
     Config.CHUNK_SIZE Config.default < Py.len (Py.split (content c))).
Proof.
  assert (Hdispatch :
    forall document : Document,
      Config.SMART_CHUNKING config = true ->
      Config.CHUNK_SIZE config < Py.len (Py.split (doc_content document)) ->
      SmartChunker._chunk_document config document
      = Some (SmartChunker._semantic_chunking config (doc_content document) document)).
  { intros document Hsmart Hlong. unfold SmartChunker._chunk_document.
    destruct (Z.leb_spec (Py.len (Py.split (doc_content document)))
                (Config.CHUNK_SIZE config)) as [H | H]; [lia |].
    rewrite Hsmart. reflexivity. }
  split; [| split; [exact Hdispatch | split]].
  - intros document s Hsmart Hlong Hone Hbig.
    exists (SmartChunker.make_chunk document s 0).
    split; [| split; [reflexivity | exact Hbig]].
    rewrite (Hdispatch document Hsmart Hlong).
    unfold SmartChunker._semantic_chunking. rewrite Hone.
    cbn [SmartChunker.semantic_loop]. unfold SmartChunker.must_close.
    rewrite andb_false_r. reflexivity.
  - intros text document c Hin.
    unfold SmartChunker._semantic_chunking in Hin.
    rewrite semantic_loop_groups in Hin. cbn [app List.length] in Hin.
    apply number_from_in in Hin. destruct Hin as (g & Hg & Hc).
    destruct (groups_are_runs config _ [] [] 0 g Hg) as (pre & post & Hrun).
    exists pre, g, post. split; [exact Hrun |]. split; [| exact Hc].
    pose proof (groups_loop_nonempty config (SmartChunker.split_sentences text)
                  [] 0 eq_refl) as Hall.
    rewrite Forall_forall in Hall. apply Hall. exact Hg.
  - eexists. split; vm_compute; reflexivity.
Qed.

(** Witness for C10: the default sizes and one sentence of 301 words; then
    four words per chunk and a text of five sentences, whose fourth chunk
    holds three whole sentences and eleven words. *)
Lemma semantic_chunk_exceeds_chunk_size_witness :
  (exists c : Chunk,
     SmartChunker._chunk_document (Demo.config false 300 50 true 300)
       (Demo.document "T" (Demo.repeat_word "w" 301)) = Some [c] /\
     content c = Demo.repeat_word "w" 301 /\
     300 < Py.len (Py.split (content c))) /\
  (let config := Demo.config false 4 1 true 300 in
   let text := "a b c. d e! f g h? i j k l m n.  o." in
   let c := {| content := "d e f g h i j k l m n"; metadata := Demo.meta "T";
               chunk_id := "T_3" |} in
   SmartChunker._chunk_document config (Demo.document "T" text)
   = Some (SmartChunker._semantic_chunking config text (Demo.document "T" text)) /\
   In c (SmartChunker._semantic_chunking config text (Demo.document "T" text)) /\
   4 < Py.len (Py.split (content c)) /\
   exists pre g post : list string,
     SmartChunker.split_sentences text = pre ++ g ++ post /\
     g <> [] /\
     content c = Py.join " " g).
Proof.
  split.
  - apply (proj1 (semantic_chunk_exceeds_chunk_size (Demo.config false 300 50 true 300))
             (Demo.document "T" (Demo.repeat_word "w" 301))
             (Demo.repeat_word "w" 301)).
    + reflexivity.
    + vm_compute. reflexivity.
    + vm_compute. reflexivity.
    + vm_compute. reflexivity.
  - intros config text c.
    assert (Hin : In c (SmartChunker._semantic_chunking config text
                          (Demo.document "T" text))).
    { vm_compute. right. right. right. left. reflexivity. }
    split; [| split; [exact Hin | split; [vm_compute; reflexivity |]]].
    + apply (proj1 (proj2 (semantic_chunk_exceeds_chunk_size config))
               (Demo.document "T" text)).
      * reflexivity.
      * vm_compute. reflexivity.
    + exact (proj1 (proj2 (proj2 (semantic_chunk_exceeds_chunk_size config)))
               text (Demo.document "T" text) c Hin).
Defined.

(** ** Chunk ids under the sentence-aware strategy *)

Lemma str_of_uint_free (d : Decimal.uint) :
  Vocabulary.free_of Vocabulary.is_underscore (NilEmpty.string_of_uint d).
Proof.
  induction d; simpl;
    first [apply free_of_empty | apply free_of_cons; [reflexivity | assumption]].
Qed.

(** The decimal text of an integer holds no underscore. *)
Lemma str_of_int_free (n : Z) :
  Vocabulary.free_of Vocabulary.is_underscore (Py.str_of_int n).
Proof.
  unfold Py.str_of_int, NilZero.string_of_int.
  assert (Huint : forall d, Vocabulary.free_of Vocabulary.is_underscore
                              (NilZero.string_of_uint d)).
  { intros d. destruct d; try apply (str_of_uint_free (_ _)).
    simpl. apply free_of_cons; [reflexivity | apply free_of_empty]. }
  destruct (Z.to_int n) as [d | d].
  - apply Huint.
  - apply free_of_cons; [reflexivity | apply Huint].
Qed.

Lemma to_int_not_nil (n : Z) :
  Z.to_int n <> Decimal.Pos Decimal.Nil /\ Z.to_int n <> Decimal.Neg Decimal.Nil.
Proof.
  split; intros H.
  - assert (Hn : n = 0) by (rewrite <- (DecimalZ.of_to n), H; reflexivity).
    subst n. discriminate H.
  - assert (Hn : n = 0) by (rewrite <- (DecimalZ.of_to n), H; reflexivity).
    subst n. discriminate H.
Qed.

(** Different integers have different decimal texts. *)
Lemma str_of_int_inj (a b : Z) : Py.str_of_int a = Py.str_of_int b -> a = b.
Proof.
  unfold Py.str_of_int. intros H.
  apply (f_equal NilZero.int_of_string) in H.
  destruct (to_int_not_nil a) as [Ha1 Ha2], (to_int_not_nil b) as [Hb1 Hb2].
  rewrite !NilZero.isi in H by assumption.
  injection H as H. apply DecimalZ.to_int_inj. exact H.
Qed.

(** A text, an underscore and a tail without underscore: the split is
    determined by the whole. *)
Lemma split_at_last_underscore (t1 t2 d1 d2 : string) :
  Vocabulary.free_of Vocabulary.is_underscore d1 ->
  Vocabulary.free_of Vocabulary.is_underscore d2 ->
  (t1 ++ String "_" d1 = t2 ++ String "_" d2)%string ->
  t1 = t2 /\ d1 = d2.
Proof.
  intros H1 H2. revert t2. induction t1 as [| c t1 IH]; intros t2 Heq.
  - destruct t2 as [| c2 t2]; simpl in Heq.
    + injection Heq as ->. split; reflexivity.
    + injection Heq as <- Hd. exfalso.
      assert (Hin : In "_"%char (list_ascii_of_string d1)).
      { rewrite Hd. clear. induction t2 as [| x t2 IH]; simpl;
          [left; reflexivity | right; exact IH]. }
      specialize (H1 _ Hin). discriminate H1.
  - destruct t2 as [| c2 t2]; simpl in Heq.
    + injection Heq as -> Hd. exfalso.
      assert (Hin : In "_"%char (list_ascii_of_string d2)).
      { rewrite <- Hd. clear. induction t1 as [| x t1 IH]; simpl;
          [left; reflexivity | right; exact IH]. }
      specialize (H2 _ Hin). discriminate H2.
    + injection Heq as -> Heq. destruct (IH t2 Heq) as [-> ->].
      split; reflexivity.
Qed.

(** An id determines the title and the number it was made of. *)
Lemma make_id_inj (d1 d2 : Document) (n1 n2 : Z) :
  SmartChunker.make_id d1 n1 = SmartChunker.make_id d2 n2 ->
  SmartChunker.title_of d1 = SmartChunker.title_of d2 /\ n1 = n2.
Proof.
  unfold SmartChunker.make_id. intros H.
  apply split_at_last_underscore in H; try apply str_of_int_free.
  destruct H as [Ht Hn]. split; [exact Ht | apply str_of_int_inj, Hn].
Qed.

Lemma NoDup_map_injective {A B : Type} (f : A -> B) (l : list A) :
  (forall x y, f x = f y -> x = y) -> NoDup l -> NoDup (map f l).
Proof.
  intros Hinj Hl. induction Hl as [| x l Hx _ IH]; simpl; constructor.
  - intros Hin. apply in_map_iff in Hin. destruct Hin as (y & Hy & Hin).
    apply Hinj in Hy. subst y. contradiction.
  - exact IH.
Qed.

Section SmartIds.
Context `{Collab : Collaborators}.
Variable config : Config.t.
Hypothesis smart : Config.SMART_CHUNKING config = true.

(** With [SMART_CHUNKING] on, a document is chunked without error and its
    chunks are numbered [0, 1, 2, ...]. *)
Lemma smart_document_ids (document : Document) :
  exists (chunks : list Chunk) (n : nat),
    SmartChunker._chunk_document config document = Some chunks /\
    map chunk_id chunks
    = map (fun k => SmartChunker.make_id document (Z.of_nat k)) (seq 0 n).
Proof.
  unfold SmartChunker._chunk_document.
  destruct (Py.len (Py.split (doc_content document)) <=? Config.CHUNK_SIZE config).
  - eexists. exists 1%nat. split; reflexivity.
  - rewrite smart. eexists. eexists. split; [reflexivity |].
    apply semantic_chunking_ids.
Qed.

Lemma smart_documents_ids (documents : list Document) :
  NoDup (map SmartChunker.title_of documents) ->
  exists chunks : list Chunk,
    SmartChunker.chunk_documents config documents = Some chunks /\
    NoDup (map chunk_id chunks) /\
    forall id : string, In id (map chunk_id chunks) ->
      exists (d : Document) (k : nat),
        In d documents /\ id = SmartChunker.make_id d (Z.of_nat k).
Proof.
  induction documents as [| doc rest IH]; intros Htitles.
  - exists []. split; [reflexivity |]. split; [constructor | intros id []].
  - inversion Htitles as [| t ts Hfresh Hrest]; subst.
    destruct (IH Hrest) as (others & Hrun & Hnodup & Hform).
    destruct (smart_document_ids doc) as (dc & n & Hdoc & Hids).
    exists (dc ++ others). split; [| split].
    + rewrite chunk_documents_cons, Hdoc, Hrun. reflexivity.
    + rewrite map_app. apply NoDup_app; [| exact Hnodup |].
      * rewrite Hids. apply NoDup_map_injective; [| apply seq_NoDup].
        intros x y Hxy. apply make_id_inj in Hxy. lia.
      * intros id Hin Hin'. rewrite Hids in Hin.
        apply in_map_iff in Hin. destruct Hin as (k & <- & _).
        destruct (Hform _ Hin') as (d & k' & Hd & Heq).
        apply make_id_inj in Heq. destruct Heq as [Ht _].
        apply Hfresh. rewrite Ht. apply in_map. exact Hd.
    + intros id Hin. rewrite map_app in Hin. apply in_app_or in Hin.
      destruct Hin as [Hin | Hin].
      * rewrite Hids in Hin. apply in_map_iff in Hin.
        destruct Hin as (k & <- & _). exists doc, k.
        split; [left; reflexivity | reflexivity].
      * destruct (Hform _ Hin) as (d & k & Hd & Heq). exists d, k.
        split; [right; exact Hd | exact Heq].
Qed.

End SmartIds.

(** X10.  With [SMART_CHUNKING] on, every corpus is chunked without error,
    whatever the sizes and the titles; and when no two documents share a
    title, no two chunks of the whole chunk set share a [chunk_id]. *)
Theorem smart_chunk_ids_unique `{Collab : Collaborators} (config : Config.t)
    (documents : list Document) :
  Config.SMART_CHUNKING config = true ->
  exists chunks : list Chunk,
    SmartChunker.chunk_documents config documents = Some chunks /\
    (NoDup (map (fun d => md_title (doc_metadata d)) documents) ->
     NoDup (map chunk_id chunks)).
Proof.
  intros Hsmart.
  assert (Htotal : exists chunks : list Chunk,
            SmartChunker.chunk_documents config documents = Some chunks).
  { induction documents as [| doc rest IH].
    - exists []. reflexivity.
    - destruct IH as (others & Hrest).
      destruct (smart_document_ids config Hsmart doc) as (dc & n & Hdoc & _).
      exists (dc ++ others). rewrite chunk_documents_cons, Hdoc, Hrest. reflexivity. }
  destruct Htotal as (chunks & Hrun).
  exists chunks. split; [exact Hrun |]. intros Htitles.
  destruct (smart_documents_ids config Hsmart documents Htitles)
    as (chunks' & Hrun' & Hnodup & _).
  rewrite Hrun in Hrun'. injection Hrun' as <-. exact Hnodup.
Qed.

(** Witness for X10: two documents with different titles, four words per
    chunk, six chunks with six different ids; and two documents with the
    same title, still chunked without error. *)
Lemma smart_chunk_ids_unique_witness :
  let config := Demo.config false 4 1 true 300 in
  let documents := [Demo.document "A" "a b c. d e! f g h? i j k l m n.  o.";
                    Demo.document "A_1" "one two"] in
  (exists chunks : list Chunk,
     SmartChunker.chunk_documents config documents = Some chunks /\
     map chunk_id chunks = ["A_0"; "A_1"; "A_2"; "A_3"; "A_4"; "A_1_0"] /\
     NoDup (map chunk_id chunks)) /\
  (exists chunks : list Chunk,
     SmartChunker.chunk_documents config
       [Demo.document "A" "one"; Demo.document "A" "two"] = Some chunks).
Proof.
  intros config documents. split.
  - destruct (smart_chunk_ids_unique config documents eq_refl)
      as (chunks & Hrun & Hnodup).
    exists chunks. split; [exact Hrun |]. split.
    + assert (Heval : exists l, SmartChunker.chunk_documents config documents = Some l
                /\ map chunk_id l = ["A_0"; "A_1"; "A_2"; "A_3"; "A_4"; "A_1_0"])
        by (eexists; split; reflexivity).
      destruct Heval as (l & Hl & Hids). rewrite Hl in Hrun.
      injection Hrun as <-. exact Hids.
    + apply Hnodup. simpl. repeat constructor; simpl; intuition discriminate.
  - destruct (smart_chunk_ids_unique config
                [Demo.document "A" "one"; Demo.document "A" "two"] eq_refl)
      as (chunks & Hrun & _).
    exists chunks. exact Hrun.
Defined.

(** ** More on [search] *)

Lemma get_in {A : Type} (l : list A) (i : Z) (x : A) :
  Py.get l i = Some x -> In x l.
Proof.
  unfold Py.get. destruct (i <? 0).
  - destruct (i + Py.len l <? 0); [discriminate |]. apply nth_error_In.
  - apply nth_error_In.
Qed.

Section SearchMore.
Context `{Collab : Collaborators}.
Variable config : Config.t.
Variable self : VectorStore.t.
Variable top_k : Z.

(** What the first loop appends are chunks of the store whose scores reach
    the threshold. *)
Lemma threshold_loop_added (candidates : list (Score * Z))
    (results kept : list VectorStore.Result) :
  VectorStore.threshold_loop config self top_k candidates results = Some kept ->
  exists added : list VectorStore.Result,
    kept = results ++ added /\
    Forall (fun r => In (fst r) (VectorStore.chunks self) /\
                     Vocabulary.reaches_threshold config r = true) added.
Proof.
  revert results. induction candidates as [| [score idx] rest IH]; intros results.
  - simpl. intros [= <-]. exists []. rewrite app_nil_r. split; [reflexivity | constructor].
  - cbn [VectorStore.threshold_loop].
    destruct ((idx <? Py.len (VectorStore.chunks self))
              && score_ge score (Config.SIMILARITY_THRESHOLD config)) eqn:Hkeep.
    + destruct (Py.get (VectorStore.chunks self) idx) as [chunk |] eqn:Hget;
        cbn [Py.bind]; [| discriminate].
      apply andb_prop in Hkeep. destruct Hkeep as [_ Hscore].
      assert (Hnew : In (fst (chunk, score)) (VectorStore.chunks self) /\
                     Vocabulary.reaches_threshold config (chunk, score) = true)
        by (split; [exact (get_in _ _ _ Hget) | exact Hscore]).
      destruct (Py.len (results ++ [(chunk, score)]) >=? top_k).
      * intros [= <-]. exists [(chunk, score)]. split; [reflexivity |].
        constructor; [exact Hnew | constructor].
      * intros Hrun. apply IH in Hrun. destruct Hrun as (added & -> & Hall).
        exists ((chunk, score) :: added). split; [rewrite <- app_assoc; reflexivity |].
        constructor; assumption.
    + cbn [Py.bind]. destruct (Py.len results >=? top_k).
      * intros [= <-]. exists []. rewrite app_nil_r. split; [reflexivity | constructor].
      * apply IH.
Qed.

(** The first loop stops as soon as it holds [top_k] results. *)
Lemma threshold_loop_at_most (candidates : list (Score * Z))
    (results kept : list VectorStore.Result) :
  VectorStore.threshold_loop config self top_k candidates results = Some kept ->
  Py.len results < top_k ->
  Py.len kept <= top_k.
Proof.
  revert results. induction candidates as [| [score idx] rest IH]; intros results.
  - simpl. intros [= <-] Hlen. lia.
  - cbn [VectorStore.threshold_loop].
    destruct ((idx <? Py.len (VectorStore.chunks self))
              && score_ge score (Config.SIMILARITY_THRESHOLD config)).
    + destruct (Py.get (VectorStore.chunks self) idx) as [chunk |];
        cbn [Py.bind]; [| discriminate].
      destruct (Z.geb_spec (Py.len (results ++ [(chunk, score)])) top_k) as [_ | Hmore].
      * intros [= <-] Hlen. rewrite len_app. unfold Py.len at 2. simpl. lia.
      * intros Hrun _. exact (IH _ Hrun Hmore).
    + cbn [Py.bind].
      destruct (Z.geb_spec (Py.len results) top_k) as [Hfull | _].
      * intros _ Hlen. lia.
      * intros Hrun Hlen. exact (IH _ Hrun Hlen).
Qed.

(** When the first loop keeps nothing, no candidate that points into the
    chunk list reaches the threshold. *)
Lemma threshold_loop_nothing (candidates : list (Score * Z)) :
  1 <= top_k ->
  VectorStore.threshold_loop config self top_k candidates [] = Some [] ->
  forall (score : Score) (idx : Z),
    In (score, idx) candidates ->
    idx < Py.len (VectorStore.chunks self) ->
    score_ge score (Config.SIMILARITY_THRESHOLD config) = false.
Proof.
  intros Hk. induction candidates as [| [score idx] rest IH].
  - intros _ s i [].
  - cbn [VectorStore.threshold_loop].
    destruct ((idx <? Py.len (VectorStore.chunks self))
              && score_ge score (Config.SIMILARITY_THRESHOLD config)) eqn:Hkeep.
    + destruct (Py.get (VectorStore.chunks self) idx) as [chunk |];
        cbn [Py.bind]; [| discriminate].
      simpl app.
      match goal with
      | |- (if ?full then _ else _) = _ -> _ => destruct full
      end; intros Hrun; exfalso.
      * discriminate Hrun.
      * apply threshold_loop_added in Hrun. destruct Hrun as (added & Heq & _).
        simpl in Heq. discriminate Heq.
    + cbn [Py.bind].
      destruct (Z.geb_spec (Py.len (@nil VectorStore.Result)) top_k) as [Hfull | _];
        [unfold Py.len in Hfull; simpl in Hfull; lia |].
      intros Hrun s i [Hhead | Hin] Hi.
      * injection Hhead as <- <-.
        apply andb_false_iff in Hkeep. destruct Hkeep as [Hidx | Hscore];
          [| exact Hscore].
        apply Z.ltb_ge in Hidx. lia.
      * exact (IH Hrun s i Hin Hi).
Qed.

(** What the second loop appends are chunks of the store, taken from
    candidates that point into the chunk list, at most [top_k - i] of
    them. *)
Lemma fallback_loop_added (candidates : list (Score * Z)) (i : Z)
    (results out : list VectorStore.Result) :
  VectorStore.fallback_loop self top_k i candidates results = Some out ->
  exists added : list VectorStore.Result,
    out = results ++ added /\
    Py.len added <= Z.max 0 (top_k - i) /\
    Forall (fun r => In (fst r) (VectorStore.chunks self) /\
                     exists idx : Z, In (snd r, idx) candidates /\
                                     idx < Py.len (VectorStore.chunks self)) added.
Proof.
  revert i results. induction candidates as [| [score idx] rest IH]; intros i results.
  - simpl. intros [= <-]. exists []. rewrite app_nil_r.
    split; [reflexivity |]. split; [unfold Py.len; simpl; lia | constructor].
  - cbn [VectorStore.fallback_loop].
    destruct (Z.ltb_spec idx (Py.len (VectorStore.chunks self))) as [Hidx | Hidx];
      cbn [andb].
    + destruct (Z.ltb_spec i top_k) as [Hi | Hi].
      * destruct (Py.get (VectorStore.chunks self) idx) as [chunk |] eqn:Hget;
          cbn [Py.bind]; [| discriminate].
        intros Hrun. apply IH in Hrun. destruct Hrun as (added & -> & Hlen & Hall).
        exists ((chunk, score) :: added).
        split; [rewrite <- app_assoc; reflexivity |]. split.
        -- unfold Py.len in *. simpl. lia.
        -- constructor.
           ++ split; [exact (get_in _ _ _ Hget) |].
              exists idx. split; [left; reflexivity | exact Hidx].
           ++ eapply Forall_impl; [| exact Hall].
              intros r (Hr & j & Hj & Hjlen). split; [exact Hr |].
              exists j. split; [right; exact Hj | exact Hjlen].
      * cbn [Py.bind]. intros Hrun. apply IH in Hrun.
        destruct Hrun as (added & -> & Hlen & Hall).
        exists added. split; [reflexivity |]. split; [lia |].
        eapply Forall_impl; [| exact Hall].
        intros r (Hr & j & Hj & Hjlen). split; [exact Hr |].
        exists j. split; [right; exact Hj | exact Hjlen].
    + cbn [Py.bind]. intros Hrun. apply IH in Hrun.
      destruct Hrun as (added & -> & Hlen & Hall).
      exists added. split; [reflexivity |]. split; [lia |].
      eapply Forall_impl; [| exact Hall].
      intros r (Hr & j & Hj & Hjlen). split; [exact Hr |].
      exists j. split; [right; exact Hj | exact Hjlen].
Qed.

(** The three ways [search] ends on a built index. *)
Lemma search_results_cases (query : string) (results : list VectorStore.Result) :
  VectorStore.search_results config self query (Some top_k) = Some results ->
  VectorStore.index self = None /\ results = [] \/
  (exists candidates : list (Score * Z),
     VectorStore.threshold_loop config self top_k candidates [] = Some results /\
     results <> []) \/
  (exists candidates : list (Score * Z),
     VectorStore.threshold_loop config self top_k candidates [] = Some [] /\
     (results = [] \/
      VectorStore.fallback_loop self top_k 0 candidates [] = Some results)).
Proof.
  unfold VectorStore.search_results.
  destruct (VectorStore.index self) as [ix |]; [| intros [= <-]; left; split; reflexivity].
  destruct (index_search ix _ _) as [candidates |]; cbn [Py.bind]; [| discriminate].
  destruct (VectorStore.threshold_loop config self top_k candidates []) as [kept |] eqn:Hrun;
    cbn [Py.bind]; [| discriminate].
  destruct kept as [| r kept]; cbn [VectorStore.is_empty andb].
  - destruct (Py.len candidates >? 0).
    + intros Hfb. right. right. exists candidates. split; [exact Hrun | right; exact Hfb].
    + intros [= <-]. right. right. exists candidates. split; [exact Hrun | left; reflexivity].
  - intros [= <-]. right. left. exists candidates. split; [exact Hrun | discriminate].
Qed.

(** X11.  Whatever the backend answers, when [search] returns for a
    [top_k >= 1] it returns at most [top_k] results. *)
Theorem search_returns_at_most_top_k (query : string)
    (results : list VectorStore.Result) :
  1 <= top_k ->
  VectorStore.search_results config self query (Some top_k) = Some results ->
  Py.len results <= top_k.
Proof.
  intros Hk Hrun. apply search_results_cases in Hrun.
  destruct Hrun as [[_ ->] | [(candidates & Hloop & _) | (candidates & _ & [-> | Hfb])]].
  - unfold Py.len. simpl. lia.
  - apply (threshold_loop_at_most _ _ _ Hloop). unfold Py.len. simpl. lia.
  - unfold Py.len. simpl. lia.
  - apply fallback_loop_added in Hfb. destruct Hfb as (added & -> & Hlen & _).
    simpl. lia.
Qed.

(** X12.  Whatever the backend answers, every chunk that [search] returns
    is a chunk of the store. *)
Theorem search_returns_stored_chunks (query : string)
    (results : list VectorStore.Result) :
  VectorStore.search_results config self query (Some top_k) = Some results ->
  forall r : VectorStore.Result, In r results ->
    In (fst r) (VectorStore.chunks self).
Proof.
  intros Hrun. apply search_results_cases in Hrun.
  destruct Hrun as [[_ ->] | [(candidates & Hloop & _) | (candidates & _ & [-> | Hfb])]].
  - intros r [].
  - apply threshold_loop_added in Hloop. destruct Hloop as (added & -> & Hall).
    simpl. intros r Hin. rewrite Forall_forall in Hall. apply (Hall r Hin).
  - intros r [].
  - apply fallback_loop_added in Hfb. destruct Hfb as (added & -> & _ & Hall).
    simpl. intros r Hin. rewrite Forall_forall in Hall. apply (Hall r Hin).
Qed.

(** X13.  For [top_k >= 1], the results of one [search] are never mixed:
    either every result reaches [SIMILARITY_THRESHOLD], or none does (the
    fallback, taken only when no candidate reached it). *)
Theorem search_results_not_mixed (query : string)
    (results : list VectorStore.Result) :
  1 <= top_k ->
  VectorStore.search_results config self query (Some top_k) = Some results ->
  Forall (fun r => Vocabulary.reaches_threshold config r = true) results \/
  Forall (fun r => Vocabulary.reaches_threshold config r = false) results.
Proof.
  intros Hk Hrun. apply search_results_cases in Hrun.
  destruct Hrun as [[_ ->] | [(candidates & Hloop & _) | (candidates & Hnone & [-> | Hfb])]].
  - left. constructor.
  - left. apply threshold_loop_added in Hloop. destruct Hloop as (added & -> & Hall).
    simpl. eapply Forall_impl; [| exact Hall]. intros r Hr. apply Hr.
  - left. constructor.
  - right. apply fallback_loop_added in Hfb. destruct Hfb as (added & -> & _ & Hall).
    simpl. eapply Forall_impl; [| exact Hall].
    intros r (_ & idx & Hin & Hidx).
    exact (threshold_loop_nothing candidates Hk Hnone _ _ Hin Hidx).
Qed.

End SearchMore.

(** Witness for X11: the store of two chunks, one neighbour asked for. *)
Lemma search_returns_at_most_top_k_witness :
  VectorStore.search_results (Demo.config false 300 50 true 300)
    (Demo.store_ab false) "robot" (Some 1)
  = Some [(Demo.chunk_b, 1000175)] /\
  Py.len [(Demo.chunk_b, 1000175)] <= 1.
Proof.
  split; [reflexivity |].
  apply (search_returns_at_most_top_k (Demo.config false 300 50 true 300)
           (Demo.store_ab false) 1 "robot" [(Demo.chunk_b, 1000175)]).
  - lia.
  - reflexivity.
Defined.

(** Witness for X12: the store of two chunks, two neighbours asked for. *)
Lemma search_returns_stored_chunks_witness :
  VectorStore.search_results (Demo.config false 300 50 true 300)
    (Demo.store_ab false) "robot" (Some 2)
  = Some [(Demo.chunk_b, 1000175); (Demo.chunk_a, 1000105)] /\
  forall r : Chunk * Z,
    In r [(Demo.chunk_b, 1000175); (Demo.chunk_a, 1000105)] ->
    In (fst r) [Demo.chunk_a; Demo.chunk_b].
Proof.
  split; [reflexivity |].
  apply (search_returns_stored_chunks (Demo.config false 300 50 true 300)
           (Demo.store_ab false) 2 "robot").
  reflexivity.
Defined.

(** Witness for X13: a threshold between the two scores, and a threshold
    above both. *)
Lemma search_results_not_mixed_witness :
  VectorStore.search_results (Demo.config false 300 50 true 1000150)
    (Demo.store_ab false) "robot" (Some 2)
  = Some [(Demo.chunk_b, 1000175)] /\
  VectorStore.search_results (Demo.config false 300 50 true 2000000)
    (Demo.store_ab false) "robot" (Some 2)
  = Some [(Demo.chunk_b, 1000175); (Demo.chunk_a, 1000105)] /\
  (Forall (fun r => Vocabulary.reaches_threshold
                      (Demo.config false 300 50 true 2000000) r = true)
     [(Demo.chunk_b, 1000175); (Demo.chunk_a, 1000105)] \/
   Forall (fun r => Vocabulary.reaches_threshold
                      (Demo.config false 300 50 true 2000000) r = false)
     [(Demo.chunk_b, 1000175); (Demo.chunk_a, 1000105)]).
Proof.
  split; [reflexivity |]. split; [reflexivity |].
  apply (search_results_not_mixed (Demo.config false 300 50 true 2000000)
           (Demo.store_ab false) 2 "robot").
  - lia.
  - reflexivity.
Defined.

(** ** Persistence and start-up *)

Section StartUp.
Context `{Collab : Collaborators}.
Variable config : Config.t.

Lemma build_index_keeps_data_file (fs fs' : FileSystem)
    (self self' : VectorStore.t) (new_chunks : list Chunk) :
  VectorStore.build_index fs self new_chunks = Some (fs', self') ->
  data_file fs' = data_file fs.
Proof.
  unfold VectorStore.build_index.
  destruct (VectorStore.shape_1 (encode (map content new_chunks))); simpl;
    [| discriminate].
  intros [= <- _]. reflexivity.
Qed.

(** X14.  Round trip of the persisted artifacts: after a successful
    [build_index], [load_index] on the files it wrote succeeds from any
    store state and gives exactly the store that was built; so a search on
    the loaded store returns what it returns on the built one. *)
Theorem build_then_load (fs fs' : FileSystem) (self self' other : VectorStore.t)
    (new_chunks : list Chunk) :
  VectorStore.build_index fs self new_chunks = Some (fs', self') ->
  VectorStore.load_index fs' other = (true, self') /\
  forall (query : string) (top_k : option Z),
    VectorStore.search_results config (snd (VectorStore.load_index fs' other))
      query top_k
    = VectorStore.search_results config self' query top_k.
Proof.
  intros Hbuild. apply build_index_result in Hbuild.
  destruct Hbuild as (d & -> & Hix & Hdata).
  assert (Hload : VectorStore.load_index fs' other
                  = (true, {| VectorStore.index :=
                                Some {| ix_d := d;
                                        ix_rows := map normalize_L2
                                                     (encode (map content new_chunks)) |};
                              VectorStore.chunks := new_chunks;
                              VectorStore.chunk_metadata := map metadata new_chunks |})).
  { unfold VectorStore.load_index. rewrite Hix, Hdata. reflexivity. }
  split; [exact Hload |].
  intros query top_k. rewrite Hload. reflexivity.
Qed.

(** X15.  What [initialize] guarantees when it returns.  It never touches
    the corpus file nor the language-model setting.  When it returns
    [True], the system is marked initialized, the store has an index, and
    the two artifacts on disk hold exactly the index, the chunks and the
    metadata of the store.  When it returns [False], the files and the
    initialized flag are as before. *)
Theorem initialize_postconditions (fs fs' : FileSystem)
    (self self' : MovieRAGSystem.t) (ok : bool) :
  MovieRAGSystem.initialize config fs self = Some (ok, fs', self') ->
  data_file fs' = data_file fs /\
  MovieRAGSystem.llm self' = MovieRAGSystem.llm self /\
  (ok = true ->
   MovieRAGSystem.initialized self' = true /\
   Vocabulary.persisted fs' (MovieRAGSystem.vector_store self')) /\
  (ok = false ->
   fs' = fs /\
   MovieRAGSystem.initialized self' = MovieRAGSystem.initialized self).
Proof.
  unfold MovieRAGSystem.initialize.
  destruct (VectorStore.load_index fs (MovieRAGSystem.vector_store self))
    as [loaded vs] eqn:Hload.
  destruct loaded.
  - intros [= <- <- <-]. apply load_index_success in Hload.
    destruct Hload as (ix & data & Hix & Hdata & ->).
    split; [reflexivity |]. split; [reflexivity |]. split; [| discriminate].
    intros _. split; [reflexivity |].
    exists ix. simpl. split; [reflexivity |]. split; [exact Hix |].
    destruct data. exact Hdata.
  - destruct (DataLoader.load_and_preprocess config (data_file fs))
      as [documents |]; cbn [Py.bind]; [| discriminate].
    destruct documents as [| doc rest].
    + intros [= <- <- <-].
      split; [reflexivity |]. split; [reflexivity |]. split; [discriminate |].
      intros _. split; reflexivity.
    + destruct (SmartChunker.chunk_documents config (doc :: rest)) as [chunks |];
        cbn [Py.bind]; [| discriminate].
      destruct (VectorStore.build_index fs _ chunks) as [[fs2 vs2] |] eqn:Hbuild;
        cbn [Py.bind]; [| discriminate].
      intros [= <- <- <-].
      split; [exact (build_index_keeps_data_file _ _ _ _ _ Hbuild) |].
      split; [reflexivity |]. split; [| discriminate].
      intros _. split; [reflexivity |].
      apply build_index_result in Hbuild.
      destruct Hbuild as (d & -> & Hix & Hdata).
      eexists. simpl. split; [reflexivity |]. split; [exact Hix | exact Hdata].
Qed.

(** X16.  The cache wins: when both artifacts can be read, [initialize]
    returns [True] with their contents in the store, writes nothing, and
    does not look at the corpus file, be it missing, malformed or
    changed. *)
Theorem initialize_prefers_cache (fs : FileSystem) (self : MovieRAGSystem.t)
    (ix : IndexFlatIP Score) (data : Pickle) :
  index_faiss fs = Stored ix ->
  metadata_pkl fs = Stored data ->
  MovieRAGSystem.initialize config fs self
  = Some (true, fs,
          {| MovieRAGSystem.vector_store :=
               {| VectorStore.index := Some ix;
                  VectorStore.chunks := pkl_chunks data;
                  VectorStore.chunk_metadata := pkl_metadata data |};
             MovieRAGSystem.initialized := true;
             MovieRAGSystem.llm := MovieRAGSystem.llm self |}).
Proof.
  intros Hix Hdata. unfold MovieRAGSystem.initialize, VectorStore.load_index.
  rewrite Hix, Hdata. reflexivity.
Qed.

(** X17.  Without a usable cache, a missing corpus file and a malformed one
    are treated differently.  A missing file is caught: [initialize]
    returns [False], and [query] on a system that is not initialized
    returns the initialization-failure response.  A file that is not JSON
    is not caught: [initialize] raises, and so does [query]. *)
Theorem missing_and_malformed_corpus (fs : FileSystem) (self : MovieRAGSystem.t)
    (question : string) :
  index_faiss fs = Missing \/ metadata_pkl fs = Missing ->
  MovieRAGSystem.initialized self = false ->
  (data_file fs = NoDataFile ->
   MovieRAGSystem.initialize config fs self = Some (false, fs, self) /\
   MovieRAGSystem.query config fs self question
   = Some (MovieRAGSystem.failure_response, fs, self)) /\
  (data_file fs = MalformedJson ->
   MovieRAGSystem.initialize config fs self = None /\
   MovieRAGSystem.query config fs self question = None).
Proof.
  intros Hmissing Hinit. split; intros Hdata.
  - assert (Hrun : MovieRAGSystem.initialize config fs self = Some (false, fs, self)).
    { unfold MovieRAGSystem.initialize.
      rewrite (load_index_missing fs _ Hmissing), Hdata. simpl.
      rewrite set_store_same. reflexivity. }
    split; [exact Hrun |].
    unfold MovieRAGSystem.query. rewrite Hinit, Hrun. reflexivity.
  - assert (Hrun : MovieRAGSystem.initialize config fs self = None).
    { unfold MovieRAGSystem.initialize.
      rewrite (load_index_missing fs _ Hmissing), Hdata. reflexivity. }
    split; [exact Hrun |].
    unfold MovieRAGSystem.query. rewrite Hinit, Hrun. reflexivity.
Qed.

(** X18.  A query on an initialized system is read-only: the files and the
    system come back unchanged.  The response holds at most five contexts,
    each the text of a chunk of the store. *)
Theorem query_is_read_only (fs fs' : FileSystem) (self self' : MovieRAGSystem.t)
    (question : string) (response : Response) :
  MovieRAGSystem.initialized self = true ->
  MovieRAGSystem.query config fs self question = Some (response, fs', self') ->
  fs' = fs /\ self' = self /\
  Py.len (contexts response) <= 5 /\
  forall text : string, In text (contexts response) ->
    exists c : Chunk,
      In c (VectorStore.chunks (MovieRAGSystem.vector_store self)) /\
      content c = text.
Proof.
  intros Hinit. unfold MovieRAGSystem.query, VectorStore.search.
  replace (negb (MovieRAGSystem.initialized self)) with false
    by (rewrite Hinit; reflexivity).
  cbn [negb Py.bind].
  destruct (VectorStore.search_results config (MovieRAGSystem.vector_store self)
              question (Some 5)) as [retrieved |] eqn:Hsearch;
    cbn [Py.bind]; [| discriminate].
  rewrite set_store_same.
  assert (Hbound : Py.len retrieved <= 5).
  { apply search_results_cases in Hsearch.
    destruct Hsearch as [[_ ->] | [(cs & Hloop & _) | (cs & _ & [-> | Hfb])]].
    - unfold Py.len. simpl. lia.
    - apply (threshold_loop_at_most _ _ _ _ _ _ Hloop). unfold Py.len. simpl. lia.
    - unfold Py.len. simpl. lia.
    - apply fallback_loop_added in Hfb. destruct Hfb as (added & -> & Hlen & _).
      simpl. lia. }
  assert (Hstored : forall r, In r retrieved ->
            In (fst r) (VectorStore.chunks (MovieRAGSystem.vector_store self))).
  { apply search_results_cases in Hsearch.
    destruct Hsearch as [[_ ->] | [(cs & Hloop & _) | (cs & _ & [-> | Hfb])]].
    - intros r [].
    - apply threshold_loop_added in Hloop. destruct Hloop as (added & -> & Hall).
      simpl. intros r Hin. rewrite Forall_forall in Hall. apply (Hall r Hin).
    - intros r [].
    - apply fallback_loop_added in Hfb. destruct Hfb as (added & -> & _ & Hall).
      simpl. intros r Hin. rewrite Forall_forall in Hall. apply (Hall r Hin). }
  destruct retrieved as [| r rest].
  - intros [= <- <- <-]. split; [reflexivity |]. split; [reflexivity |].
    split; [unfold Py.len; simpl; lia | intros text []].
  - intros [= <- <- <-]. split; [reflexivity |]. split; [reflexivity |].
    cbn [contexts]. split.
    + unfold Py.len in *. simpl in *. rewrite length_map. exact Hbound.
    + intros text Hin.
      change (In text (map (fun x : Chunk * Score => content (fst x)) (r :: rest)))
        in Hin.
      apply in_map_iff in Hin. destruct Hin as (x & <- & Hx).
      exists (fst x). split; [apply Hstored; exact Hx | reflexivity].
Qed.

End StartUp.

(** Witness for X14: building over two chunks, loading into a store that
    held something else. *)
Lemma build_then_load_witness :
  let C := Demo.collaborators false in
  let other := @VectorStore.Build_t C None [Demo.chunk_a] [] in
  exists fs' : FileSystem,
    VectorStore.build_index (Demo.empty_fs false) VectorStore.init
      [Demo.chunk_a; Demo.chunk_b] = Some (fs', Demo.store_ab false) /\
    VectorStore.load_index fs' other = (true, Demo.store_ab false).
Proof.
  intros C other. eexists. split; [reflexivity |].
  apply (build_then_load (Demo.config false 300 50 true 300) (Demo.empty_fs false) _
           VectorStore.init (Demo.store_ab false) other [Demo.chunk_a; Demo.chunk_b]).
  reflexivity.
Defined.

(** Witness for X15: a cold start over one record. *)
Lemma initialize_postconditions_witness :
  let C := Demo.collaborators false in
  let robowar := {| m_title := Some "RoboWar"; m_year := Some "1999";
                    m_genres := Some ["Sci-Fi"];
                    m_extract := Some "A robot fights crime." |} in
  let fs := @Build_FileSystem C (JsonArray [robowar]) Missing Missing in
  let self := @MovieRAGSystem.Build_t C VectorStore.init false false in
  exists (fs' : FileSystem) (self' : MovieRAGSystem.t),
    MovieRAGSystem.initialize (Demo.config false 300 50 true 300) fs self
    = Some (true, fs', self') /\
    MovieRAGSystem.initialized self' = true /\
    Vocabulary.persisted fs' (MovieRAGSystem.vector_store self').
Proof.
  intros C robowar fs self. eexists. eexists.
  assert (Hrun : MovieRAGSystem.initialize (Demo.config false 300 50 true 300) fs self
                 = Some (true, _, _)) by reflexivity.
  split; [exact Hrun |].
  destruct (initialize_postconditions _ _ _ _ _ _ Hrun) as (_ & _ & Htrue & _).
  exact (Htrue eq_refl).
Defined.

(** Witness for X16: both artifacts on disk next to a corpus file that is
    not JSON. *)
Lemma initialize_prefers_cache_witness :
  let C := Demo.collaborators false in
  let fs := @Build_FileSystem C MalformedJson (Stored Demo.index_ab)
              (Stored {| pkl_chunks := [Demo.chunk_a; Demo.chunk_b];
                         pkl_metadata := [Demo.meta "RoboWar"; Demo.meta "Dreams"] |}) in
  let self := @MovieRAGSystem.Build_t C VectorStore.init false false in
  MovieRAGSystem.initialize (Demo.config false 300 50 true 300) fs self
  = Some (true, fs, @MovieRAGSystem.Build_t C (Demo.store_ab false) true false).
Proof.
  intros C fs self.
  apply (initialize_prefers_cache (Demo.config false 300 50 true 300) fs self
           Demo.index_ab
           {| pkl_chunks := [Demo.chunk_a; Demo.chunk_b];
              pkl_metadata := [Demo.meta "RoboWar"; Demo.meta "Dreams"] |});
    reflexivity.
Defined.

(** Witness for X17: no artifact on disk; no corpus file, then a corpus
    file that is not JSON. *)
Lemma missing_and_malformed_corpus_witness :
  let C := Demo.collaborators false in
  let config := Demo.config false 300 50 true 300 in
  let self := @MovieRAGSystem.Build_t C VectorStore.init false false in
  let absent := @Build_FileSystem C NoDataFile Missing Missing in
  let broken := @Build_FileSystem C MalformedJson Missing Missing in
  MovieRAGSystem.query config absent self "robot movies"
  = Some (MovieRAGSystem.failure_response, absent, self) /\
  MovieRAGSystem.query config broken self "robot movies" = None.
Proof.
  intros C config self absent broken. split.
  - apply (proj1 (missing_and_malformed_corpus config absent self "robot movies"
                    (or_introl eq_refl) eq_refl) eq_refl).
  - apply (proj2 (missing_and_malformed_corpus config broken self "robot movies"
                    (or_introl eq_refl) eq_refl) eq_refl).
Defined.

(** Witness for X18: an initialized system over the store of two chunks. *)
Lemma query_is_read_only_witness :
  let C := Demo.collaborators false in
  let config := Demo.config false 300 50 true 300 in
  let self := @MovieRAGSystem.Build_t C (Demo.store_ab false) true false in
  exists response : Response,
    MovieRAGSystem.query config (Demo.empty_fs false) self "robot"
    = Some (response, Demo.empty_fs false, self) /\
    contexts response = [content Demo.chunk_b; content Demo.chunk_a] /\
    Py.len (contexts response) <= 5.
Proof.
  intros C config self. eexists.
  assert (Hrun : MovieRAGSystem.query config (Demo.empty_fs false) self "robot"
                 = Some (_, Demo.empty_fs false, self)) by reflexivity.
  split; [exact Hrun |]. split; [reflexivity |].
  destruct (query_is_read_only config (Demo.empty_fs false) _ self _ _ _ eq_refl Hrun)
    as (_ & _ & Hmax & _).
  exact Hmax.
Defined.

(** ** The reasoning text, the loader, the credential and the queries *)





(** X20.  The loader never returns more documents than the corpus has
    records, nor more than [MAX_DOCUMENTS] when that is not negative; and a
    missing corpus file gives no document. *)
Theorem loader_output_is_bounded `{Collab : Collaborators} (config : Config.t)
    (movies : list Movie) (documents : list Document) :
  DataLoader.load_and_preprocess config (JsonArray movies) = Some documents ->
  Py.len documents <= Py.len movies /\
  (0 <= Config.MAX_DOCUMENTS config ->
   Py.len documents <= Config.MAX_DOCUMENTS config) /\
  DataLoader.load_and_preprocess config NoDataFile = Some [].
Proof.
  unfold DataLoader.load_and_preprocess. rewrite preprocess_loop_filter.
  intros [= <-]. cbn [app]. unfold Py.len. rewrite length_map.
  pose proof (filter_length_le DataLoader.has_extract
                (Py.slice_to movies (Config.MAX_DOCUMENTS config))) as Hfilter.
  split; [| split; [| reflexivity]].
  - unfold Py.slice_to in *. rewrite length_firstn in Hfilter. lia.
  - intros Hmax. rewrite slice_to_nonneg in * by exact Hmax.
    rewrite length_firstn in Hfilter. lia.
Qed.

(** Witness for X20: three records, at most two documents asked for. *)
Lemma loader_output_is_bounded_witness :
  let C := Demo.collaborators false in
  let config := @Config.Build_t C "data/sample_movies.json" 2 "data/vector_store"
                  300 50 true 3 300 "model" "llm" in
  let movie := {| m_title := Some "RoboWar"; m_year := Some "1999";
                  m_genres := Some ["Sci-Fi"];
                  m_extract := Some "A robot fights crime." |} in
  DataLoader.load_and_preprocess config (JsonArray [movie; movie; movie])
  = Some [DataLoader.preprocess movie; DataLoader.preprocess movie] /\
  Py.len [DataLoader.preprocess movie; DataLoader.preprocess movie] <= 2.
Proof.
  intros C config movie. split; [reflexivity |].
  apply (loader_output_is_bounded config [movie; movie; movie]
           [DataLoader.preprocess movie; DataLoader.preprocess movie] eq_refl).
  simpl. lia.
Defined.

Lemma prefix_nonempty (p s : string) :
  p <> EmptyString -> String.prefix p s = true -> Py.nonempty s = true.
Proof.
  destruct p as [| c p]; [contradiction |].
  destruct s; simpl; [discriminate | reflexivity].
Qed.

(** X21.  What [API_KEY] returns, case by case.  A key in the environment
    that starts with [AIzaSy] is returned as it is, without asking and
    without writing [.env].  Otherwise the user is asked: if the typed key,
    stripped, starts with [AIzaSy], it is returned, and [.env] is written
    with the line [GEMINI_API_KEY=<that key>] when the file can be written;
    if not, [None] is returned and nothing is written.  So a returned key
    always starts with [AIzaSy]. *)
Theorem api_key_is_well_formed (env : option string) (typed : string)
    (writable : bool) :
  let result := Credentials.API_KEY env typed writable in
  let usable := match env with
                | Some key => String.prefix "AIzaSy" key
                | None => false
                end in
  (forall key : string,
     env = Some key -> String.prefix "AIzaSy" key = true ->
     result = (Some key, None)) /\
  (usable = false -> String.prefix "AIzaSy" (Py.strip typed) = true ->
   result = (Some (Py.strip typed),
             if writable then Some (Credentials.env_line (Py.strip typed)) else None)) /\
  (usable = false -> String.prefix "AIzaSy" (Py.strip typed) = false ->
   result = (None, None)) /\
  (forall key : string,
     fst result = Some key -> String.prefix "AIzaSy" key = true).
Proof.
  cbv zeta. unfold Credentials.API_KEY, Credentials.is_valid_key.
  assert (Henv : forall key, String.prefix "AIzaSy" key = true ->
            Py.nonempty key && String.prefix "AIzaSy" key = true).
  { intros key Hp. rewrite Hp, (prefix_nonempty "AIzaSy" key); [reflexivity | | exact Hp].
    discriminate. }
  assert (Hbad : forall key, String.prefix "AIzaSy" key = false ->
            Py.nonempty key && String.prefix "AIzaSy" key = false).
  { intros key ->. apply andb_false_r. }
  split; [| split; [| split]].
  - intros key -> Hp. cbv beta iota zeta. rewrite (Henv key Hp). reflexivity.
  - intros Husable Htyped. destruct env as [key |]; cbv beta iota zeta.
    + rewrite (Hbad key Husable), Htyped. reflexivity.
    + rewrite Htyped. reflexivity.
  - intros Husable Htyped. destruct env as [key |]; cbv beta iota zeta.
    + rewrite (Hbad key Husable), Htyped. reflexivity.
    + rewrite Htyped. reflexivity.
  - intros key. destruct env as [k |]; cbv beta iota zeta.
    + pose proof (Henv k) as Hgood. pose proof (Hbad k) as Hwrong.
      destruct (String.prefix "AIzaSy" k) eqn:Hk.
      * rewrite (Hgood eq_refl). simpl. intros [= <-]. exact Hk.
      * rewrite (Hwrong eq_refl).
        destruct (String.prefix "AIzaSy" (Py.strip typed)) eqn:Ht; simpl.
        -- intros [= <-]. exact Ht.
        -- discriminate.
    + destruct (String.prefix "AIzaSy" (Py.strip typed)) eqn:Ht; simpl.
      * intros [= <-]. exact Ht.
      * discriminate.
Qed.

(** Witness for X21: a usable key in the environment; an unusable one with
    a usable typed key; neither usable. *)
Lemma api_key_is_well_formed_witness :
  Credentials.API_KEY (Some "AIzaSyENV") "whatever" true = (Some "AIzaSyENV", None) /\
  Credentials.API_KEY (Some "changeme") "  AIzaSyDEMO " true
  = (Some "AIzaSyDEMO", Some (Credentials.env_line "AIzaSyDEMO")) /\
  Credentials.API_KEY None "not a key" true = (None, None) /\
  String.prefix "AIzaSy" "AIzaSyDEMO" = true.
Proof.
  split; [| split; [| split]].
  - apply (proj1 (api_key_is_well_formed (Some "AIzaSyENV") "whatever" true)
             "AIzaSyENV" eq_refl eq_refl).
  - apply (proj1 (proj2 (api_key_is_well_formed (Some "changeme") "  AIzaSyDEMO " true))
             eq_refl eq_refl).
  - apply (proj1 (proj2 (proj2 (api_key_is_well_formed None "not a key" true)))
             eq_refl eq_refl).
  - apply (proj2 (proj2 (proj2 (api_key_is_well_formed (Some "changeme")
                                   "  AIzaSyDEMO " true)))
             "AIzaSyDEMO" eq_refl).
Defined.


Lemma get_user_queries_loop_started (stdin : list string) (q : string)
    (queries : list string) :
  RunMovieRag.get_user_queries_loop stdin (q :: queries)
  = (q :: queries) ++ Vocabulary.take_while Py.nonempty (map Py.strip stdin).
Proof.
  revert queries. induction stdin as [| raw rest IH]; intros queries; simpl.
  - rewrite app_nil_r. reflexivity.
  - destruct (Py.nonempty (Py.strip raw)); simpl.
    + rewrite (IH (queries ++ [Py.strip raw])). simpl.
      rewrite <- app_assoc. reflexivity.
    + rewrite app_nil_r. reflexivity.
Qed.

Lemma get_user_queries_block (stdin : list string) :
  RunMovieRag.get_user_queries stdin
  = Vocabulary.take_while Py.nonempty
      (Vocabulary.drop_while Vocabulary.is_blank (map Py.strip stdin)).
Proof.
  unfold RunMovieRag.get_user_queries.
  induction stdin as [| raw rest IH]; simpl; [reflexivity |].
  unfold Vocabulary.is_blank at 1.
  destruct (Py.nonempty (Py.strip raw)) eqn:Hne; simpl.
  - rewrite get_user_queries_loop_started, Hne. reflexivity.
  - exact IH.
Qed.

Lemma take_while_stripped (lines : list string) :
  Forall (fun q => q <> EmptyString /\ Py.strip q = q)
    (Vocabulary.take_while Py.nonempty (map Py.strip lines)).
Proof.
  induction lines as [| r rest IH]; simpl; [constructor |].
  destruct (Py.nonempty (Py.strip r)) eqn:Hne; [| constructor].
  constructor; [| exact IH].
  split; [destruct (Py.strip r); discriminate | apply strip_idempotent].
Qed.

(** X22.  [get_user_queries] skips the blank lines that come first and
    returns the lines up to the next blank line or the end of input, each
    stripped of surrounding whitespace; what follows that blank line is not
    read. *)
Theorem get_user_queries_reads_first_block (stdin : list string) :
  RunMovieRag.get_user_queries stdin
  = Vocabulary.take_while Py.nonempty
      (Vocabulary.drop_while Vocabulary.is_blank (map Py.strip stdin)) /\
  Forall (fun q => q <> EmptyString /\ Py.strip q = q)
    (RunMovieRag.get_user_queries stdin).
Proof.
  split; [apply get_user_queries_block |].
  rewrite get_user_queries_block.
  induction stdin as [| raw rest IH]; simpl; [constructor |].
  unfold Vocabulary.is_blank at 1.
  destruct (Py.nonempty (Py.strip raw)) eqn:Hne; simpl; [| exact IH].
  rewrite Hne. constructor; [| apply take_while_stripped].
  split; [destruct (Py.strip raw); discriminate | apply strip_idempotent].
Qed.

Lemma get_user_queries_none (stdin : list string) :
  RunMovieRag.get_user_queries stdin = []
  <-> Forall (fun raw => Py.strip raw = EmptyString) stdin.
Proof.
  rewrite get_user_queries_block.
  induction stdin as [| raw rest IH]; simpl.
  - split; [constructor | reflexivity].
  - unfold Vocabulary.is_blank at 1.
    destruct (Py.strip raw) as [| c s] eqn:Hraw; simpl.
    + rewrite IH. split.
      * intros H. constructor; [exact Hraw | exact H].
      * intros H. inversion H; assumption.
    + split; [discriminate |]. intros H. inversion H as [| x l Hx _]; subst.
      rewrite Hraw in Hx. discriminate Hx.
Qed.

(** X23.  [main] always has queries to process: the user's, or the seven
    default ones exactly when every line of the input is blank (or the user
    typed the defaults); and no query it processes is empty. *)
Theorem main_queries_never_empty (stdin : list string) :
  RunMovieRag.main_queries stdin <> [] /\
  Forall (fun q => q <> EmptyString) (RunMovieRag.main_queries stdin) /\
  (Forall (fun raw => Py.strip raw = EmptyString) stdin ->
   RunMovieRag.main_queries stdin = RunMovieRag.get_default_queries) /\
  (~ Forall (fun raw => Py.strip raw = EmptyString) stdin ->
   RunMovieRag.main_queries stdin = RunMovieRag.get_user_queries stdin).
Proof.
  pose proof (get_user_queries_none stdin) as Hnone.
  assert (Hall : Forall (fun q => q <> EmptyString)
                   (RunMovieRag.get_user_queries stdin)).
  { rewrite get_user_queries_block.
    generalize (Vocabulary.drop_while Vocabulary.is_blank (map Py.strip stdin)).
    intros l. induction l as [| x l IH]; simpl; [constructor |].
    destruct x; simpl; [constructor |].
    constructor; [discriminate | exact IH]. }
  unfold RunMovieRag.main_queries.
  destruct (RunMovieRag.get_user_queries stdin) as [| q qs].
  - split; [discriminate |]. split; [| split].
    + repeat constructor; discriminate.
    + reflexivity.
    + intros Hsome. exfalso. apply Hsome, Hnone. reflexivity.
  - split; [discriminate |]. split; [| split].
    + exact Hall.
    + intros Hblank. apply Hnone in Hblank. discriminate Hblank.
    + reflexivity.
Qed.

(** Witness for X23: an input of blank lines, and an input with two
    queries between blank lines. *)
Lemma main_queries_never_empty_witness :
  RunMovieRag.main_queries [" "; EmptyString] = RunMovieRag.get_default_queries /\
  RunMovieRag.main_queries [EmptyString; " robots? "; "dreams"; " "; "ignored"]
  = ["robots?"; "dreams"].
Proof.
  split.
  - apply (proj1 (proj2 (proj2 (main_queries_never_empty [" "; EmptyString])))).
    repeat constructor.
  - rewrite (proj2 (proj2 (proj2 (main_queries_never_empty
               [EmptyString; " robots? "; "dreams"; " "; "ignored"])))).
    + reflexivity.
    + intros H. inversion H as [| x l _ Hrest]; subst.
      inversion Hrest as [| y l' Hy _]; subst. discriminate Hy.
Defined.

(** ** A cold start over a usable corpus *)

Lemma split_sentences_starts (c : ascii) (r : string) :
  Py.is_space c = false -> SmartChunker.is_terminal c = false ->
  SmartChunker.split_sentences (String c r) <> [].
Proof.
  intros Hspace Hterm.
  unfold SmartChunker.split_sentences, Py.re_split_class_plus.
  cbn [Py.re_split_run]. rewrite Hterm.
  assert (Hhead : exists f fs,
            Py.cons_head c (Py.re_split_run SmartChunker.is_terminal false r)
            = String c f :: fs).
  { destruct (Py.re_split_run SmartChunker.is_terminal false r) as [| f fs]; simpl;
      eexists; eexists; reflexivity. }
  destruct Hhead as (f & fs & ->). cbn [filter].
  assert (Hkept : Py.nonempty (Py.strip (String c f)) = true).
  { unfold Py.strip. cbn [Py.lstrip]. rewrite Hspace. cbn [Py.rstrip].
    destruct (Py.rstrip f); [rewrite Hspace |]; reflexivity. }
  rewrite Hkept. simpl. discriminate.
Qed.

Section ColdStart.
Context `{Collab : Collaborators}.
Variable config : Config.t.
Hypothesis smart : Config.SMART_CHUNKING config = true.

(** With [SMART_CHUNKING] on, a document whose content starts with a
    character that is neither whitespace nor a sentence terminator gives at
    least one chunk. *)
Lemma smart_document_gives_chunk (document : Document) (c : ascii) (r : string) :
  doc_content document = String c r ->
  Py.is_space c = false -> SmartChunker.is_terminal c = false ->
  exists (first : Chunk) (others : list Chunk),
    SmartChunker._chunk_document config document = Some (first :: others).
Proof.
  intros Hcontent Hspace Hterm. unfold SmartChunker._chunk_document.
  destruct (Py.len (Py.split (doc_content document)) <=? Config.CHUNK_SIZE config).
  - eexists. eexists. reflexivity.
  - rewrite smart. unfold SmartChunker._semantic_chunking.
    rewrite semantic_loop_groups. cbn [app List.length].
    pose proof (split_sentences_starts c r Hspace Hterm) as Hsentences.
    rewrite <- Hcontent in Hsentences.
    destruct (SmartChunker.split_sentences (doc_content document)) as [| s rest];
      [contradiction |].
    cbn [SmartChunker.sentence_groups_loop].
    unfold SmartChunker.must_close. rewrite andb_false_r. cbn [app].
    pose proof (groups_loop_flushes config rest [s] (0 + SmartChunker.word_count s)
                  ltac:(discriminate)) as Hflush.
    destruct (SmartChunker.sentence_groups_loop config rest [] [s]
                (0 + SmartChunker.word_count s)) as [| g gs]; [contradiction |].
    simpl. eexists. eexists. reflexivity.
Qed.

Lemma smart_chunk_documents_total (documents : list Document) :
  exists chunks : list Chunk,
    SmartChunker.chunk_documents config documents = Some chunks.
Proof.
  induction documents as [| doc rest IH].
  - exists []. reflexivity.
  - destruct IH as (others & Hrest).
    destruct (smart_document_ids config smart doc) as (dc & n & Hdoc & _).
    exists (dc ++ others). rewrite chunk_documents_cons, Hdoc, Hrest. reflexivity.
Qed.

Lemma preprocess_content_starts (movie : Movie) :
  exists r : string, doc_content (DataLoader.preprocess movie) = String "M" r.
Proof.
  unfold DataLoader.preprocess. cbn [doc_content].
  destruct (DataLoader.get_or (m_genres movie) []); eexists; reflexivity.
Qed.

(** X24.  A cold start that works: with [SMART_CHUNKING] on, an artifact
    missing, a corpus file that holds an array in which some record among
    [movies[:MAX_DOCUMENTS]] has a non-empty [extract], and an embedder
    that returns one row per text, [initialize] returns [True] without
    raising; the system is then initialized, its store holds at least one
    chunk, and chunks, metadata and index are equally many. *)
Theorem cold_start_succeeds (fs : FileSystem) (self : MovieRAGSystem.t)
    (movies : list Movie) :
  index_faiss fs = Missing \/ metadata_pkl fs = Missing ->
  data_file fs = JsonArray movies ->
  (exists movie : Movie,
     In movie (Py.slice_to movies (Config.MAX_DOCUMENTS config)) /\
     DataLoader.has_extract movie = true) ->
  (forall texts : list string, List.length (encode texts) = List.length texts) ->
  exists (fs' : FileSystem) (self' : MovieRAGSystem.t),
    MovieRAGSystem.initialize config fs self = Some (true, fs', self') /\
    MovieRAGSystem.initialized self' = true /\
    VectorStore.chunks (MovieRAGSystem.vector_store self') <> [] /\
    Spec.aligned (MovieRAGSystem.vector_store self').
Proof.
  intros Hmissing Hdata (movie & Hin & Hextract) Hencode.
  unfold MovieRAGSystem.initialize.
  rewrite (load_index_missing fs _ Hmissing), Hdata.
  unfold DataLoader.load_and_preprocess. rewrite preprocess_loop_filter.
  cbn [app Py.bind].
  assert (Hkept : In movie (filter DataLoader.has_extract
                              (Py.slice_to movies (Config.MAX_DOCUMENTS config))))
    by (apply filter_In; split; assumption).
  destruct (filter DataLoader.has_extract
              (Py.slice_to movies (Config.MAX_DOCUMENTS config)))
    as [| m0 ms]; [destruct Hkept |].
  cbn [map].
  destruct (preprocess_content_starts m0) as (r & Hstart).
  destruct (smart_document_gives_chunk (DataLoader.preprocess m0) "M" r Hstart
              eq_refl eq_refl) as (first & others & Hdoc).
  destruct (smart_chunk_documents_total (map DataLoader.preprocess ms))
    as (more & Hmore).
  rewrite chunk_documents_cons, Hdoc, Hmore. cbn [Py.bind app].
  unfold VectorStore.build_index.
  pose proof (Hencode (map content (first :: others ++ more))) as Hrows.
  destruct (encode (map content (first :: others ++ more))) as [| row rows] eqn:Henc;
    [simpl in Hrows; discriminate |].
  cbn [VectorStore.shape_1 Py.bind VectorStore._save_index VectorStore.index].
  eexists. eexists. split; [reflexivity |]. cbn.
  split; [reflexivity |]. split; [discriminate |].
  eexists. split; [reflexivity |]. unfold ntotal, Py.len. cbn.
  rewrite !length_map. simpl in Hrows. rewrite length_map in Hrows.
  split; [f_equal; lia | f_equal; lia].
Qed.

End ColdStart.

(** Witness for X24: one record with a plot, nothing on disk but the
    corpus. *)
Lemma cold_start_succeeds_witness :
  let C := Demo.collaborators false in
  let robowar := {| m_title := Some "RoboWar"; m_year := Some "1999";
                    m_genres := Some ["Sci-Fi"];
                    m_extract := Some "A robot fights crime." |} in
  let fs := @Build_FileSystem C (JsonArray [robowar]) Missing Missing in
  let self := @MovieRAGSystem.Build_t C VectorStore.init false false in
  exists (fs' : FileSystem) (self' : MovieRAGSystem.t),
    MovieRAGSystem.initialize (Demo.config false 300 50 true 300) fs self
    = Some (true, fs', self') /\
    MovieRAGSystem.initialized self' = true /\
    VectorStore.chunks (MovieRAGSystem.vector_store self') <> [] /\
    Spec.aligned (MovieRAGSystem.vector_store self').
Proof.
  intros C robowar fs self.
  apply (cold_start_succeeds (Demo.config false 300 50 true 300) eq_refl fs self
           [robowar]).
  - left. reflexivity.
  - reflexivity.
  - exists robowar. split; [left; reflexivity | reflexivity].
  - intros texts. apply length_map.
Defined.
